(** * LexCorp: role-scoped access and data partitioning

    A shallow embedding of the services and view handlers that decide
    which rows a principal reads and writes: the scoped list queries of
    the vendor, project and agreement services, row conversion, the
    membership resolver, the invitation life cycle, and the create / save
    / upload handlers of the views.

    Conventions of the embedding.
    - [string | null | undefined] is [option string]; [None] stands for
      both [null] and [undefined], which the code never tells apart.
    - A timestamp is a [nat] (seconds), so that [order('created_at')] can
      be computed.
    - The remote row store is a record of tables, each a list of rows in
      insertion order.  A query is the list of filters the builder
      accumulated; running it selects the rows passing every filter.
    - What the outside world answers (random tokens, generated row ids,
      the clock, the auth service, the mail function, the object store)
      is an explicit argument of the handler that asks for it. *)

From Stdlib Require Import String Ascii List Bool Arith ZArith Lia.
From Stdlib Require Import DecimalString Sorted.
Import ListNotations.
Local Open Scope string_scope.
Local Open Scope list_scope.

(* ------------------------------------------------------------------ *)
(** ** JavaScript values *)

Module Js.

(** [x ?? d]. *)
Definition nullish {A : Type} (x : option A) (d : A) : A :=
  match x with
  | Some v => v
  | None => d
  end.

(** Truthiness of a [string | null | undefined]: the empty string is
    falsy.  [known x] is [Some s] exactly when [x] is the truthy
    string [s]. *)
Definition known (x : option string) : option string :=
  match x with
  | Some s => if s =? "" then None else Some s
  | None => None
  end.

Definition truthy (x : option string) : bool :=
  match known x with
  | Some _ => true
  | None => false
  end.

(** [x || d] on strings. *)
Definition or_else (x : option string) (d : option string) : option string :=
  match known x with
  | Some s => Some s
  | None => d
  end.

(** [s || d] where [s] is a string and [d] the fallback string. *)
Definition or_str (x : option string) (d : string) : string :=
  match known x with
  | Some s => s
  | None => d
  end.

Definition is_space (c : ascii) : bool :=
  match c with
  | " "%char | "009"%char | "010"%char | "013"%char => true
  | _ => false
  end.

Fixpoint trim_start (s : string) : string :=
  match s with
  | EmptyString => EmptyString
  | String c rest => if is_space c then trim_start rest else s
  end.

Fixpoint all_space (s : string) : bool :=
  match s with
  | EmptyString => true
  | String c rest => is_space c && all_space rest
  end.

Fixpoint trim_end (s : string) : string :=
  match s with
  | EmptyString => EmptyString
  | String c rest => if all_space s then EmptyString else String c (trim_end rest)
  end.

(** [s.trim()], on ASCII white space. *)
Definition trim (s : string) : string := trim_end (trim_start s).

Definition lower_char (c : ascii) : ascii :=
  let n := nat_of_ascii c in
  if ((65 <=? n) && (n <=? 90))%nat then ascii_of_nat (n + 32) else c.

(** [s.toLowerCase()], on ASCII letters. *)
Fixpoint toLowerCase (s : string) : string :=
  match s with
  | EmptyString => EmptyString
  | String c rest => String (lower_char c) (toLowerCase rest)
  end.

(** [s.trim() || undefined]. *)
Definition trimmed (s : string) : option string :=
  or_else (Some (trim s)) None.

End Js.

(** A [jsonb] column typed [any] in the row types: JSON null, an array of
    items, or any other JSON value (object, string, number, boolean),
    kept by its text. *)
Inductive jsonb (A : Type) : Type :=
| Jnull
| Jarray (items : list A)
| Jother (text : string).

Arguments Jnull {A}.
Arguments Jarray {A} items.
Arguments Jother {A} text.

Definition is_array {A : Type} (j : jsonb A) : bool :=
  match j with
  | Jarray _ => true
  | _ => false
  end.

Definition is_null {A : Type} (j : jsonb A) : bool :=
  match j with
  | Jnull => true
  | _ => false
  end.

(** [j ?? []] on a jsonb value. *)
Definition nullish_array {A : Type} (j : jsonb A) : jsonb A :=
  match j with
  | Jnull => Jarray []
  | _ => j
  end.

(* ------------------------------------------------------------------ *)
(** ** The row store's query builder *)

Module Store.

Inductive cell : Type :=
| Null
| Text (s : string).

Definition cell_of (x : option string) : cell :=
  match x with
  | Some s => Text s
  | None => Null
  end.

(** A table row type: its columns by name, and its creation time. *)
Class Table (row : Type) : Type := {
  column : row -> string -> cell;
  created : row -> nat
}.

Inductive filter : Type :=
| Eq (col : string) (v : string)           (* .eq(col, v) *)
| Is_null (col : string)                   (* .is(col, null) *)
| Not_is_null (col : string)               (* .not(col, 'is', null) *)
| In_ (col : string) (vs : list string)    (* .in(col, vs) *)
| Or_ (f g : filter).                      (* .or('f,g') *)

Section Run.
Context {row : Type} `{Table row}.

Fixpoint accepts (f : filter) (r : row) : bool :=
  match f with
  | Eq c v =>
      match column r c with
      | Text s => s =? v
      | Null => false
      end
  | Is_null c =>
      match column r c with
      | Null => true
      | Text _ => false
      end
  | Not_is_null c =>
      match column r c with
      | Null => false
      | Text _ => true
      end
  | In_ c vs =>
      match column r c with
      | Text s => existsb (String.eqb s) vs
      | Null => false
      end
  | Or_ f g => accepts f r || accepts g r
  end.

(** Newest first; rows of equal age keep their table order. *)
Fixpoint insert_desc (r : row) (l : list row) : list row :=
  match l with
  | [] => [r]
  | x :: xs =>
      if (created x <=? created r)%nat then r :: l else x :: insert_desc r xs
  end.

Definition order_desc (l : list row) : list row :=
  fold_right insert_desc [] l.

Record query : Type := {
  q_from : list row;
  q_filters : list filter;
  q_newest_first : bool
}.

Definition from (table : list row) : query :=
  {| q_from := table; q_filters := []; q_newest_first := false |}.

Definition where_ (f : filter) (q : query) : query :=
  {| q_from := q_from q;
     q_filters := q_filters q ++ [f];
     q_newest_first := q_newest_first q |}.

Definition order_created_at_desc (q : query) : query :=
  {| q_from := q_from q;
     q_filters := q_filters q;
     q_newest_first := true |}.

Definition passes (fs : list filter) (r : row) : bool :=
  forallb (fun f => accepts f r) fs.

Definition run (q : query) : list row :=
  let hits := List.filter (passes (q_filters q)) (q_from q) in
  if q_newest_first q then order_desc hits else hits.

End Run.

End Store.

Import Store.

(** The outcome of an awaited store call: [{ data, error }], where the
    services throw on [error]. *)
Inductive outcome (A : Type) : Type :=
| Ok (data : A)
| Err (message : string).

Arguments Ok {A} data.
Arguments Err {A} message.

(** [.maybeSingle()]: no row is [null], one row is that row, more is an
    error. *)
Definition maybeSingle {row : Type} (rows : list row) : outcome (option row) :=
  match rows with
  | [] => Ok None
  | [r] => Ok (Some r)
  | _ => Err "JSON object requested, multiple (or no) rows returned"
  end.

(** [.single()]: exactly one row, anything else is an error. *)
Definition single {row : Type} (rows : list row) : outcome row :=
  match rows with
  | [r] => Ok r
  | _ => Err "JSON object requested, multiple (or no) rows returned"
  end.

(* ------------------------------------------------------------------ *)
(** ** Domain types *)

Inductive Role : Type := org_admin | branch_admin | branch_user.

Inductive Scope : Type := scope_all | scope_organization | scope_branch.

Inductive InviteStatus : Type := pending | accepted | revoked.

Definition Role_eqb (a b : Role) : bool :=
  match a, b with
  | org_admin, org_admin | branch_admin, branch_admin
  | branch_user, branch_user => true
  | _, _ => false
  end.

Record Organization : Type := {
  org_id : string;
  org_user_id : string;
  org_name : string;
  org_hq_location : string;
  org_plan : string;
  org_created_at : nat;
  org_updated_at : nat
}.

Record VendorDocument : Type := {
  doc_id : string;
  doc_name : string;
  doc_url : string;
  doc_uploaded_at : nat;
  doc_mime_type : option string
}.

Record Clause : Type := {
  clause_id : string;
  clause_title : string;
  clause_content : string;
  clause_type : string;
  clause_isException : option bool
}.

Record Comment : Type := {
  comment_id : string;
  comment_author : string;
  comment_text : string;
  comment_timestamp : string
}.

Record AuditEvent : Type := {
  audit_id : string;
  audit_action : string;
  audit_user : string;
  audit_timestamp : string;
  audit_details : option string
}.

(* ------------------------------------------------------------------ *)
(** ** services/vendorService.ts *)

Module VendorRow.
Record t : Type := {
  id : string;
  organization_id : string;
  branch_office_id : option string;
  name : string;
  tin : string;
  contact_email : option string;
  contact_phone : option string;
  notes : option string;
  documents : jsonb VendorDocument;
  created_by : option string;
  created_at : nat;
  updated_at : nat
}.

Definition col (r : t) (c : string) : cell :=
  if c =? "id" then Text (id r)
  else if c =? "organization_id" then Text (organization_id r)
  else if c =? "branch_office_id" then cell_of (branch_office_id r)
  else if c =? "name" then Text (name r)
  else if c =? "tin" then Text (tin r)
  else if c =? "contact_email" then cell_of (contact_email r)
  else if c =? "contact_phone" then cell_of (contact_phone r)
  else if c =? "notes" then cell_of (notes r)
  else if c =? "created_by" then cell_of (created_by r)
  else Null.
End VendorRow.

#[export] Instance vendors_table : Table VendorRow.t :=
  {| column := VendorRow.col; created := VendorRow.created_at |}.

Module Vendor.
Record t : Type := {
  id : string;
  organization_id : string;
  branch_office_id : option string;
  name : string;
  tin : string;
  contact_email : option string;
  contact_phone : option string;
  notes : option string;
  documents : list VendorDocument;
  created_by : option string;
  created_at : nat;
  updated_at : nat
}.
End Vendor.

(** The [{ organizationId, branchOfficeId?, scope? }] argument of the
    scoped list operations. *)
Record ScopeParams : Type := {
  organizationId : string;
  branchOfficeId : option string;
  scope : option Scope
}.

Definition is_scope_all (s : option Scope) : bool :=
  match s with
  | Some scope_all => true
  | _ => false
  end.

Module vendorService.

Definition rowToVendor (row : VendorRow.t) : Vendor.t :=
  {| Vendor.id := VendorRow.id row;
     Vendor.organization_id := VendorRow.organization_id row;
     Vendor.branch_office_id := VendorRow.branch_office_id row;
     Vendor.name := VendorRow.name row;
     Vendor.tin := VendorRow.tin row;
     Vendor.contact_email := VendorRow.contact_email row;
     Vendor.contact_phone := VendorRow.contact_phone row;
     Vendor.notes := VendorRow.notes row;
     Vendor.documents :=
       match VendorRow.documents row with
       | Jarray docs => docs
       | _ => []
       end;
     Vendor.created_by := VendorRow.created_by row;
     Vendor.created_at := VendorRow.created_at row;
     Vendor.updated_at := VendorRow.updated_at row |}.

(** The query [fetchVendors] builds, before it is awaited. *)
Definition vendorsQuery (vendors : list VendorRow.t) (params : ScopeParams)
  : query (row := VendorRow.t) :=
  let query :=
    order_created_at_desc
      (where_ (Eq "organization_id" (organizationId params)) (from vendors)) in
  match scope params with
  | Some scope_branch =>
      match Js.known (branchOfficeId params) with
      | Some x => where_ (Eq "branch_office_id" x) query
      | None => where_ (Not_is_null "branch_office_id") query
      end
  | Some scope_organization => where_ (Is_null "branch_office_id") query
  | _ =>
      match Js.known (branchOfficeId params) with
      | Some x =>
          if negb (is_scope_all (scope params))
          then where_ (Or_ (Eq "branch_office_id" x)
                           (Is_null "branch_office_id")) query
          else query
      | None => query
      end
  end.

Definition fetchVendors (vendors : list VendorRow.t) (params : ScopeParams)
  : list Vendor.t :=
  map rowToVendor (run (vendorsQuery vendors params)).

Record VendorPayload : Type := {
  vp_organizationId : string;
  vp_branchOfficeId : option string;
  vp_name : string;
  vp_tin : string;
  vp_contactEmail : option string;
  vp_contactPhone : option string;
  vp_notes : option string;
  vp_documents : option (list VendorDocument);
  vp_createdBy : option string
}.

(** The table constraint [unique (organization_id, name)]. *)
Definition name_taken (vendors : list VendorRow.t) (org name : string) : bool :=
  existsb (fun r => (VendorRow.organization_id r =? org)
                    && (VendorRow.name r =? name)) vendors.

Definition createVendor (vendors : list VendorRow.t) (payload : VendorPayload)
    (new_id : string) (now : nat) : outcome (list VendorRow.t * Vendor.t) :=
  if name_taken vendors (vp_organizationId payload) (vp_name payload)
  then Err "duplicate key value violates unique constraint"
  else
    let data :=
      {| VendorRow.id := new_id;
         VendorRow.organization_id := vp_organizationId payload;
         VendorRow.branch_office_id := vp_branchOfficeId payload;
         VendorRow.name := vp_name payload;
         VendorRow.tin := vp_tin payload;
         VendorRow.contact_email := vp_contactEmail payload;
         VendorRow.contact_phone := vp_contactPhone payload;
         VendorRow.notes := vp_notes payload;
         VendorRow.documents := Jarray (Js.nullish (vp_documents payload) []);
         VendorRow.created_by := vp_createdBy payload;
         VendorRow.created_at := now;
         VendorRow.updated_at := now |} in
    Ok (vendors ++ [data], rowToVendor data).

Definition withDocuments (r : VendorRow.t) (documents : list VendorDocument)
    (now : nat) : VendorRow.t :=
  {| VendorRow.id := VendorRow.id r;
     VendorRow.organization_id := VendorRow.organization_id r;
     VendorRow.branch_office_id := VendorRow.branch_office_id r;
     VendorRow.name := VendorRow.name r;
     VendorRow.tin := VendorRow.tin r;
     VendorRow.contact_email := VendorRow.contact_email r;
     VendorRow.contact_phone := VendorRow.contact_phone r;
     VendorRow.notes := VendorRow.notes r;
     VendorRow.documents := Jarray documents;
     VendorRow.created_by := VendorRow.created_by r;
     VendorRow.created_at := VendorRow.created_at r;
     VendorRow.updated_at := now |}.

(** [.update({ documents }).eq('id', id).select().single()]. *)
Definition updateVendorDocuments (vendors : list VendorRow.t) (id : string)
    (documents : list VendorDocument) (now : nat)
  : outcome (list VendorRow.t * Vendor.t) :=
  match single (List.filter (fun r => VendorRow.id r =? id) vendors) with
  | Err e => Err e
  | Ok r =>
      Ok (map (fun x => if VendorRow.id x =? id
                        then withDocuments x documents now else x) vendors,
          rowToVendor (withDocuments r documents now))
  end.

(** [.delete().eq('id', id)]: deleting an id that is not stored is not
    an error. *)
Definition deleteVendor (vendors : list VendorRow.t) (id : string)
  : list VendorRow.t :=
  List.filter (fun r => negb (VendorRow.id r =? id)) vendors.

End vendorService.

(* ------------------------------------------------------------------ *)
(** ** services/projectService.ts *)

Inductive ProjectStatus : Type := active | onhold | completed.

Definition ProjectStatus_text (s : ProjectStatus) : string :=
  match s with
  | active => "active"
  | onhold => "onhold"
  | completed => "completed"
  end.

Module ProjectRow.
Record t : Type := {
  id : string;
  organization_id : string;
  branch_office_id : option string;
  name : string;
  description : option string;
  status : ProjectStatus;
  start_date : option string;
  end_date : option string;
  created_by : option string;
  created_at : nat;
  updated_at : nat
}.

Definition col (r : t) (c : string) : cell :=
  if c =? "id" then Text (id r)
  else if c =? "organization_id" then Text (organization_id r)
  else if c =? "branch_office_id" then cell_of (branch_office_id r)
  else if c =? "name" then Text (name r)
  else if c =? "description" then cell_of (description r)
  else if c =? "status" then Text (ProjectStatus_text (status r))
  else if c =? "start_date" then cell_of (start_date r)
  else if c =? "end_date" then cell_of (end_date r)
  else if c =? "created_by" then cell_of (created_by r)
  else Null.
End ProjectRow.

#[export] Instance projects_table : Table ProjectRow.t :=
  {| column := ProjectRow.col; created := ProjectRow.created_at |}.

(** [Project] has the fields of [ProjectRow], one for one. *)
Module Project.
Record t : Type := {
  id : string;
  organization_id : string;
  branch_office_id : option string;
  name : string;
  description : option string;
  status : ProjectStatus;
  start_date : option string;
  end_date : option string;
  created_by : option string;
  created_at : nat;
  updated_at : nat
}.
End Project.

Module projectService.

Definition rowToProject (row : ProjectRow.t) : Project.t :=
  {| Project.id := ProjectRow.id row;
     Project.organization_id := ProjectRow.organization_id row;
     Project.branch_office_id := ProjectRow.branch_office_id row;
     Project.name := ProjectRow.name row;
     Project.description := ProjectRow.description row;
     Project.status := ProjectRow.status row;
     Project.start_date := ProjectRow.start_date row;
     Project.end_date := ProjectRow.end_date row;
     Project.created_by := ProjectRow.created_by row;
     Project.created_at := ProjectRow.created_at row;
     Project.updated_at := ProjectRow.updated_at row |}.

Definition projectsQuery (projects : list ProjectRow.t) (params : ScopeParams)
    (statuses : option (list ProjectStatus)) : query (row := ProjectRow.t) :=
  let query :=
    order_created_at_desc
      (where_ (Eq "organization_id" (organizationId params)) (from projects)) in
  let query :=
    match scope params with
    | Some scope_branch =>
        match Js.known (branchOfficeId params) with
        | Some x => where_ (Eq "branch_office_id" x) query
        | None => where_ (Not_is_null "branch_office_id") query
        end
    | Some scope_organization => where_ (Is_null "branch_office_id") query
    | _ =>
        match Js.known (branchOfficeId params) with
        | Some x =>
            if negb (is_scope_all (scope params))
            then where_ (Or_ (Eq "branch_office_id" x)
                             (Is_null "branch_office_id")) query
            else query
        | None => query
        end
    end in
  match statuses with
  | Some (s :: rest) =>
      where_ (In_ "status" (map ProjectStatus_text (s :: rest))) query
  | _ => query
  end.

Definition fetchProjects (projects : list ProjectRow.t) (params : ScopeParams)
    (statuses : option (list ProjectStatus)) : list Project.t :=
  map rowToProject (run (projectsQuery projects params statuses)).

Record ProjectPayload : Type := {
  pp_organizationId : string;
  pp_branchOfficeId : option string;
  pp_name : string;
  pp_description : option string;
  pp_status : option ProjectStatus;
  pp_startDate : option string;
  pp_endDate : option string;
  pp_createdBy : option string
}.

(** The table constraint [unique (organization_id, name)]. *)
Definition name_taken (projects : list ProjectRow.t) (org name : string) : bool :=
  existsb (fun r => (ProjectRow.organization_id r =? org)
                    && (ProjectRow.name r =? name)) projects.

Definition createProject (projects : list ProjectRow.t)
    (payload : ProjectPayload) (new_id : string) (now : nat)
  : outcome (list ProjectRow.t * Project.t) :=
  if name_taken projects (pp_organizationId payload) (pp_name payload)
  then Err "duplicate key value violates unique constraint"
  else
    let data :=
      {| ProjectRow.id := new_id;
         ProjectRow.organization_id := pp_organizationId payload;
         ProjectRow.branch_office_id := pp_branchOfficeId payload;
         ProjectRow.name := pp_name payload;
         ProjectRow.description := pp_description payload;
         ProjectRow.status := Js.nullish (pp_status payload) active;
         ProjectRow.start_date := pp_startDate payload;
         ProjectRow.end_date := pp_endDate payload;
         ProjectRow.created_by := pp_createdBy payload;
         ProjectRow.created_at := now;
         ProjectRow.updated_at := now |} in
    Ok (projects ++ [data], rowToProject data).

End projectService.


(* ------------------------------------------------------------------ *)
(** ** services/agreementService.ts *)

Module AgreementRow.
Record t : Type := {
  id : string;
  organization_id : string;
  branch_office_id : option string;
  project_id : option string;
  owner_user_id : option string;
  title : string;
  counterparty : string;
  department : option string;
  owner : option string;
  effective_date : option string;
  renewal_date : option string;
  value : option Z;
  risk_level : string;
  status : string;
  sections : jsonb Clause;
  tags : option (list string);
  version : option Z;
  comments : jsonb Comment;
  audit_log : jsonb AuditEvent;
  created_at : nat;
  updated_at : nat
}.

Definition col (r : t) (c : string) : cell :=
  if c =? "id" then Text (id r)
  else if c =? "organization_id" then Text (organization_id r)
  else if c =? "branch_office_id" then cell_of (branch_office_id r)
  else if c =? "project_id" then cell_of (project_id r)
  else if c =? "owner_user_id" then cell_of (owner_user_id r)
  else if c =? "title" then Text (title r)
  else if c =? "counterparty" then Text (counterparty r)
  else if c =? "department" then cell_of (department r)
  else if c =? "owner" then cell_of (owner r)
  else if c =? "effective_date" then cell_of (effective_date r)
  else if c =? "renewal_date" then cell_of (renewal_date r)
  else if c =? "risk_level" then Text (risk_level r)
  else if c =? "status" then Text (status r)
  else Null.
End AgreementRow.

#[export] Instance agreements_table : Table AgreementRow.t :=
  {| column := AgreementRow.col; created := AgreementRow.created_at |}.

Module Agreement.
Record t : Type := {
  id : string;
  title : string;
  counterparty : string;
  branchOfficeId : option string;
  projectId : option string;
  department : string;
  owner : string;
  effectiveDate : string;
  renewalDate : string;
  value : Z;
  riskLevel : string;
  status : string;
  sections : jsonb Clause;
  tags : list string;
  version : Z;
  createdAt : nat;
  updatedAt : nat;
  comments : jsonb Comment;
  auditLog : jsonb AuditEvent
}.
End Agreement.

(** The optional [{ branchOfficeId?, projectId? }] argument. *)
Record AgreementOptions : Type := {
  opt_branchOfficeId : option string;
  opt_projectId : option string
}.

Module agreementService.

Definition rowToAgreement (row : AgreementRow.t) : Agreement.t :=
  {| Agreement.id := AgreementRow.id row;
     Agreement.title := AgreementRow.title row;
     Agreement.counterparty := Js.or_str (Some (AgreementRow.counterparty row)) "";
     Agreement.branchOfficeId := Js.or_else (AgreementRow.branch_office_id row) None;
     Agreement.projectId := Js.or_else (AgreementRow.project_id row) None;
     Agreement.department := Js.or_str (AgreementRow.department row) "";
     Agreement.owner := Js.or_str (AgreementRow.owner row) "";
     Agreement.effectiveDate := Js.or_str (AgreementRow.effective_date row) "";
     Agreement.renewalDate := Js.or_str (AgreementRow.renewal_date row) "";
     Agreement.value := Js.nullish (AgreementRow.value row) 0%Z;
     Agreement.riskLevel := AgreementRow.risk_level row;
     Agreement.status := AgreementRow.status row;
     Agreement.sections := nullish_array (AgreementRow.sections row);
     Agreement.tags := Js.nullish (AgreementRow.tags row) [];
     Agreement.version := Js.nullish (AgreementRow.version row) 1%Z;
     Agreement.createdAt := AgreementRow.created_at row;
     Agreement.updatedAt := AgreementRow.updated_at row;
     Agreement.comments := nullish_array (AgreementRow.comments row);
     Agreement.auditLog := nullish_array (AgreementRow.audit_log row) |}.

(** [options?.branchOfficeId] and [options?.projectId]. *)
Definition option_branch (options : option AgreementOptions) : option string :=
  match options with
  | Some o => opt_branchOfficeId o
  | None => None
  end.

Definition option_project (options : option AgreementOptions) : option string :=
  match options with
  | Some o => opt_projectId o
  | None => None
  end.

Definition agreementsQuery (agreements : list AgreementRow.t)
    (organizationId : string) (options : option AgreementOptions)
  : query (row := AgreementRow.t) :=
  let query := where_ (Eq "organization_id" organizationId) (from agreements) in
  let query :=
    match Js.known (option_branch options) with
    | Some x => where_ (Eq "branch_office_id" x) query
    | None => query
    end in
  let query :=
    match Js.known (option_project options) with
    | Some x => where_ (Eq "project_id" x) query
    | None => query
    end in
  order_created_at_desc query.

Definition fetchAgreementsForOrganization (agreements : list AgreementRow.t)
    (organizationId : string) (options : option AgreementOptions)
  : list Agreement.t :=
  if organizationId =? "" then []
  else map rowToAgreement (run (agreementsQuery agreements organizationId options)).

(** The row the upsert stores: the columns of the payload, [created_at]
    as given (kept from the row it replaces, or the insertion time), and
    [updated_at] stamped by the table's trigger. *)
Definition payloadRow (agreement : Agreement.t) (organizationId : string)
    (ownerUserId : option string) (created now : nat) : AgreementRow.t :=
  {| AgreementRow.id := Agreement.id agreement;
     AgreementRow.organization_id := organizationId;
     AgreementRow.owner_user_id := ownerUserId;
     AgreementRow.branch_office_id := Agreement.branchOfficeId agreement;
     AgreementRow.project_id := Agreement.projectId agreement;
     AgreementRow.title := Agreement.title agreement;
     AgreementRow.counterparty := Agreement.counterparty agreement;
     AgreementRow.department := Some (Agreement.department agreement);
     AgreementRow.owner := Some (Agreement.owner agreement);
     AgreementRow.effective_date := Js.or_else (Some (Agreement.effectiveDate agreement)) None;
     AgreementRow.renewal_date := Js.or_else (Some (Agreement.renewalDate agreement)) None;
     AgreementRow.value := Some (Agreement.value agreement);
     AgreementRow.risk_level := Agreement.riskLevel agreement;
     AgreementRow.status := Agreement.status agreement;
     AgreementRow.sections := nullish_array (Agreement.sections agreement);
     AgreementRow.tags := Some (Agreement.tags agreement);
     AgreementRow.version := Some (Agreement.version agreement);
     AgreementRow.comments := nullish_array (Agreement.comments agreement);
     AgreementRow.audit_log := nullish_array (Agreement.auditLog agreement);
     AgreementRow.created_at := created;
     AgreementRow.updated_at := now |}.

(** [.upsert(payload, { onConflict: 'id' })] on the agreements table. *)
Fixpoint upsertRow (agreements : list AgreementRow.t) (agreement : Agreement.t)
    (organizationId : string) (ownerUserId : option string) (now : nat)
  : list AgreementRow.t * AgreementRow.t :=
  match agreements with
  | [] =>
      let row := payloadRow agreement organizationId ownerUserId now now in
      ([row], row)
  | old :: rest =>
      if AgreementRow.id old =? Agreement.id agreement
      then
        let row := payloadRow agreement organizationId ownerUserId
                     (AgreementRow.created_at old) now in
        (row :: rest, row)
      else
        let (rest', row) := upsertRow rest agreement organizationId ownerUserId now in
        (old :: rest', row)
  end.

Definition upsertAgreementForOrganization (agreements : list AgreementRow.t)
    (agreement : Agreement.t) (organizationId : string)
    (ownerUserId : option string) (now : nat)
  : list AgreementRow.t * Agreement.t :=
  let (agreements', data) :=
    upsertRow agreements agreement organizationId ownerUserId now in
  (agreements', rowToAgreement data).

(** [fetchAgreementsForProject]: the options object holds the project
    id only. *)
Definition fetchAgreementsForProject (agreements : list AgreementRow.t)
    (organizationId projectId : string) : list Agreement.t :=
  fetchAgreementsForOrganization agreements organizationId
    (Some {| opt_branchOfficeId := None; opt_projectId := Some projectId |}).

End agreementService.


(* ------------------------------------------------------------------ *)
(** ** The Scope Filter policy, as the specification words it

    Five rules, tried in order, the first that matches decides:
    + scope [branch] and a concrete branch id [X]: [branch_office_id = X];
    + scope [branch] and no branch id: [branch_office_id IS NOT NULL];
    + scope [organization]: [branch_office_id IS NULL];
    + no scope and a known branch id [X]:
      [(branch_office_id = X) OR (branch_office_id IS NULL)];
    + no scope and no branch id: no additional filter.
    A branch id is concrete when it is a non-empty string.  The rules do
    not mention the scope [all]. *)

Module ScopeFilter.

Inductive rule : Type :=
| rule1 (x : string)
| rule2
| rule3
| rule4 (x : string)
| rule5.


(** The predicate a rule puts on a row's [branch_office_id]. *)
Definition row_filter (r : rule) (branch_office_id : option string) : bool :=
  match r, branch_office_id with
  | rule1 x, Some b => b =? x
  | rule1 _, None => false
  | rule2, Some _ => true
  | rule2, None => false
  | rule3, Some _ => false
  | rule3, None => true
  | rule4 x, Some b => b =? x
  | rule4 _, None => true
  | rule5, _ => true
  end.

(** The listing the policy prescribes for one organization: its rows
    that pass the rule, newest first. *)
Definition listing {row : Type} `{Table row}
    (organization_of : row -> string) (branch_of : row -> option string)
    (table : list row) (organizationId : string) (r : rule) : list row :=
  order_desc
    (List.filter
       (fun x => (organization_of x =? organizationId)
                 && row_filter r (branch_of x))
       table).



End ScopeFilter.


(* ------------------------------------------------------------------ *)
(** ** Fixtures: one organization with two branches *)

Module Listing.

Definition vendor (id : string) (branch : option string) (at_ : nat)
  : VendorRow.t :=
  {| VendorRow.id := id;
     VendorRow.organization_id := "org-1";
     VendorRow.branch_office_id := branch;
     VendorRow.name := id;
     VendorRow.tin := "000";
     VendorRow.contact_email := None;
     VendorRow.contact_phone := None;
     VendorRow.notes := None;
     VendorRow.documents := Jarray [];
     VendorRow.created_by := None;
     VendorRow.created_at := at_;
     VendorRow.updated_at := at_ |}.

Definition vendors : list VendorRow.t :=
  [vendor "v-b1" (Some "B1") 1; vendor "v-b2" (Some "B2") 2;
   vendor "v-org" None 3].

Definition project (id : string) (branch : option string) (at_ : nat)
  : ProjectRow.t :=
  {| ProjectRow.id := id;
     ProjectRow.organization_id := "org-1";
     ProjectRow.branch_office_id := branch;
     ProjectRow.name := id;
     ProjectRow.description := None;
     ProjectRow.status := active;
     ProjectRow.start_date := None;
     ProjectRow.end_date := None;
     ProjectRow.created_by := None;
     ProjectRow.created_at := at_;
     ProjectRow.updated_at := at_ |}.

Definition projects : list ProjectRow.t :=
  [project "p-b1" (Some "B1") 1; project "p-b2" (Some "B2") 2;
   project "p-org" None 3].

Definition agreement (id : string) (branch : option string)
    (sections : jsonb Clause) (at_ : nat) : AgreementRow.t :=
  {| AgreementRow.id := id;
     AgreementRow.organization_id := "org-1";
     AgreementRow.branch_office_id := branch;
     AgreementRow.project_id := None;
     AgreementRow.owner_user_id := None;
     AgreementRow.title := id;
     AgreementRow.counterparty := "Acme";
     AgreementRow.department := None;
     AgreementRow.owner := None;
     AgreementRow.effective_date := None;
     AgreementRow.renewal_date := None;
     AgreementRow.value := None;
     AgreementRow.risk_level := "Low";
     AgreementRow.status := "Draft";
     AgreementRow.sections := sections;
     AgreementRow.tags := None;
     AgreementRow.version := None;
     AgreementRow.comments := Jnull;
     AgreementRow.audit_log := Jnull;
     AgreementRow.created_at := at_;
     AgreementRow.updated_at := at_ |}.

Definition agreements : list AgreementRow.t :=
  [agreement "a-b1" (Some "B1") (Jarray []) 1;
   agreement "a-org" None Jnull 2].

(** A branch member of branch B1 listing with no scope. *)
Definition member_default : ScopeParams :=
  {| organizationId := "org-1"; branchOfficeId := Some "B1"; scope := None |}.

End Listing.

(** What a caller can observe of the embedded collections of an
    agreement. *)
Definition never_null (a : Agreement.t) : Prop :=
  is_null (Agreement.sections a) = false
  /\ is_null (Agreement.comments a) = false
  /\ is_null (Agreement.auditLog a) = false.

Definition all_arrays (a : Agreement.t) : Prop :=
  is_array (Agreement.sections a) = true
  /\ is_array (Agreement.comments a) = true
  /\ is_array (Agreement.auditLog a) = true.

(** How [j ?? []] relates the stored value to the one returned. *)
Definition defaults_to_empty {A : Type} (stored seen : jsonb A) : Prop :=
  (stored = Jnull -> seen = Jarray [])
  /\ (forall items, stored = Jarray items -> seen = Jarray items)
  /\ (stored <> Jnull -> seen = stored).


(* ------------------------------------------------------------------ *)
(** ** Membership and invitation rows *)

#[export] Instance organizations_table : Table Organization :=
  {| column := fun r c =>
       if c =? "id" then Text (org_id r)
       else if c =? "user_id" then Text (org_user_id r)
       else if c =? "name" then Text (org_name r)
       else if c =? "hq_location" then Text (org_hq_location r)
       else if c =? "plan" then Text (org_plan r)
       else Null;
     created := org_created_at |}.

Definition Role_text (r : Role) : string :=
  match r with
  | org_admin => "org_admin"
  | branch_admin => "branch_admin"
  | branch_user => "branch_user"
  end.

(** [OrganizationMember], which is also the shape of a row of
    [organization_members]. *)
Module OrganizationMember.
Record t : Type := {
  id : string;
  organization_id : string;
  user_id : string;
  role : Role;
  branch_office_id : option string;
  department : option string;
  created_at : nat
}.

Definition col (r : t) (c : string) : cell :=
  if c =? "id" then Text (id r)
  else if c =? "organization_id" then Text (organization_id r)
  else if c =? "user_id" then Text (user_id r)
  else if c =? "role" then Text (Role_text (role r))
  else if c =? "branch_office_id" then cell_of (branch_office_id r)
  else if c =? "department" then cell_of (department r)
  else Null.
End OrganizationMember.

#[export] Instance organization_members_table : Table OrganizationMember.t :=
  {| column := OrganizationMember.col; created := OrganizationMember.created_at |}.

Definition InviteStatus_text (s : InviteStatus) : string :=
  match s with
  | pending => "pending"
  | accepted => "accepted"
  | revoked => "revoked"
  end.

Module BranchInvite.
Record t : Type := {
  id : string;
  organization_id : string;
  branch_office_id : string;
  email : string;
  role : Role;
  full_name : option string;
  department : option string;
  title : option string;
  contact_email : option string;
  invite_token : string;
  status : InviteStatus;
  user_id : option string;
  created_at : nat;
  accepted_at : option nat
}.

Definition col (r : t) (c : string) : cell :=
  if c =? "id" then Text (id r)
  else if c =? "organization_id" then Text (organization_id r)
  else if c =? "branch_office_id" then Text (branch_office_id r)
  else if c =? "email" then Text (email r)
  else if c =? "role" then Text (Role_text (role r))
  else if c =? "full_name" then cell_of (full_name r)
  else if c =? "department" then cell_of (department r)
  else if c =? "title" then cell_of (title r)
  else if c =? "contact_email" then cell_of (contact_email r)
  else if c =? "invite_token" then Text (invite_token r)
  else if c =? "status" then Text (InviteStatus_text (status r))
  else if c =? "user_id" then cell_of (user_id r)
  else Null.
End BranchInvite.

#[export] Instance branch_invites_table : Table BranchInvite.t :=
  {| column := BranchInvite.col; created := BranchInvite.created_at |}.

Record BranchOffice : Type := {
  office_id : string;
  office_organization_id : string;
  office_identifier : string;
  office_location : string
}.

(* ------------------------------------------------------------------ *)
(** ** The row store *)

Module Db.
Record t : Type := {
  organizations : list Organization;
  organization_members : list OrganizationMember.t;
  branch_invites : list BranchInvite.t;
  vendors : list VendorRow.t;
  projects : list ProjectRow.t;
  agreements : list AgreementRow.t
}.

Definition with_members (db : t) (rows : list OrganizationMember.t) : t :=
  {| organizations := organizations db;
     organization_members := rows;
     branch_invites := branch_invites db;
     vendors := vendors db;
     projects := projects db;
     agreements := agreements db |}.

Definition with_invites (db : t) (rows : list BranchInvite.t) : t :=
  {| organizations := organizations db;
     organization_members := organization_members db;
     branch_invites := rows;
     vendors := vendors db;
     projects := projects db;
     agreements := agreements db |}.

Definition with_vendors (db : t) (rows : list VendorRow.t) : t :=
  {| organizations := organizations db;
     organization_members := organization_members db;
     branch_invites := branch_invites db;
     vendors := rows;
     projects := projects db;
     agreements := agreements db |}.

Definition with_projects (db : t) (rows : list ProjectRow.t) : t :=
  {| organizations := organizations db;
     organization_members := organization_members db;
     branch_invites := branch_invites db;
     vendors := vendors db;
     projects := rows;
     agreements := agreements db |}.

Definition with_agreements (db : t) (rows : list AgreementRow.t) : t :=
  {| organizations := organizations db;
     organization_members := organization_members db;
     branch_invites := branch_invites db;
     vendors := vendors db;
     projects := projects db;
     agreements := rows |}.
End Db.

(* ------------------------------------------------------------------ *)
(** ** services/organizationService.ts *)

Module organizationService.

(** The embedded [organizations( * )] of a membership row: the
    organization its [organization_id] refers to. *)
Definition joined_organization (db : Db.t) (organization_id : string)
  : option Organization :=
  List.find (fun o => org_id o =? organization_id) (Db.organizations db).

Definition fetchMembershipForUser (db : Db.t) (userId : string) (now : nat)
  : outcome (option Organization * option OrganizationMember.t) :=
  match maybeSingle
          (run (where_ (Eq "user_id" userId) (from (Db.organization_members db))))
  with
  | Err e => Err e
  | Ok None => Ok (None, None)
  | Ok (Some data) =>
      let organizations :=
        joined_organization db (OrganizationMember.organization_id data) in
      let member :=
        {| OrganizationMember.id := OrganizationMember.id data;
           OrganizationMember.organization_id :=
             OrganizationMember.organization_id data;
           OrganizationMember.user_id := userId;
           OrganizationMember.role := OrganizationMember.role data;
           OrganizationMember.branch_office_id :=
             OrganizationMember.branch_office_id data;
           OrganizationMember.department := OrganizationMember.department data;
           OrganizationMember.created_at :=
             match organizations with
             | Some o => org_created_at o
             | None => now
             end |} in
      Ok (organizations, Some member)
  end.

Record MembershipPayload : Type := {
  mp_userId : string;
  mp_organizationId : string;
  mp_role : Role;
  mp_branchOfficeId : option string;
  mp_department : option string
}.

Definition same_member_key (payload : MembershipPayload)
    (r : OrganizationMember.t) : bool :=
  (OrganizationMember.user_id r =? mp_userId payload)
  && (OrganizationMember.organization_id r =? mp_organizationId payload).

(** [.upsert(row, { onConflict: 'user_id,organization_id' })]: the row
    holding the key is overwritten in place, otherwise a row with a
    generated id is inserted. *)
Fixpoint upsertMember (members : list OrganizationMember.t)
    (payload : MembershipPayload) (new_id : string) (now : nat)
  : list OrganizationMember.t * OrganizationMember.t :=
  match members with
  | [] =>
      let row :=
        {| OrganizationMember.id := new_id;
           OrganizationMember.organization_id := mp_organizationId payload;
           OrganizationMember.user_id := mp_userId payload;
           OrganizationMember.role := mp_role payload;
           OrganizationMember.branch_office_id := mp_branchOfficeId payload;
           OrganizationMember.department := mp_department payload;
           OrganizationMember.created_at := now |} in
      ([row], row)
  | old :: rest =>
      if same_member_key payload old
      then
        let row :=
          {| OrganizationMember.id := OrganizationMember.id old;
             OrganizationMember.organization_id := mp_organizationId payload;
             OrganizationMember.user_id := mp_userId payload;
             OrganizationMember.role := mp_role payload;
             OrganizationMember.branch_office_id := mp_branchOfficeId payload;
             OrganizationMember.department := mp_department payload;
             OrganizationMember.created_at := OrganizationMember.created_at old |} in
        (row :: rest, row)
      else
        let (rest', row) := upsertMember rest payload new_id now in
        (old :: rest', row)
  end.

Definition ensureMembership (db : Db.t) (payload : MembershipPayload)
    (new_id : string) (now : nat) : Db.t * OrganizationMember.t :=
  let (members, data) :=
    upsertMember (Db.organization_members db) payload new_id now in
  (Db.with_members db members, data).

Record InvitePayload : Type := {
  ip_organizationId : string;
  ip_branchOfficeId : string;
  ip_email : string;
  ip_inviteToken : string;
  ip_role : Role;
  ip_fullName : option string;
  ip_department : option string;
  ip_title : option string
}.

Definition token_taken (db : Db.t) (token : string) : bool :=
  existsb (fun r => BranchInvite.invite_token r =? token) (Db.branch_invites db).

(** Insert into [branch_invites]; [status] takes its column default
    ['pending'], [invite_token] is unique. *)
Definition createBranchInvite (db : Db.t) (payload : InvitePayload)
    (new_id : string) (now : nat) : outcome (Db.t * BranchInvite.t) :=
  if token_taken db (ip_inviteToken payload)
  then Err "duplicate key value violates unique constraint"
  else
    let data :=
      {| BranchInvite.id := new_id;
         BranchInvite.organization_id := ip_organizationId payload;
         BranchInvite.branch_office_id := ip_branchOfficeId payload;
         BranchInvite.email := ip_email payload;
         BranchInvite.role := ip_role payload;
         BranchInvite.full_name := Js.or_else (ip_fullName payload) None;
         BranchInvite.department := Js.or_else (ip_department payload) None;
         BranchInvite.title := Js.or_else (ip_title payload) None;
         BranchInvite.contact_email := Some (ip_email payload);
         BranchInvite.invite_token := ip_inviteToken payload;
         BranchInvite.status := pending;
         BranchInvite.user_id := None;
         BranchInvite.created_at := now;
         BranchInvite.accepted_at := None |} in
    Ok (Db.with_invites db (Db.branch_invites db ++ [data]), data).

Definition fetchBranchInvites (db : Db.t) (branchOfficeId : string)
    (roleFilter : option Role) : list BranchInvite.t :=
  let request :=
    where_ (Eq "branch_office_id" branchOfficeId) (from (Db.branch_invites db)) in
  let request :=
    match roleFilter with
    | Some r => where_ (Eq "role" (Role_text r)) request
    | None => request
    end in
  run (order_created_at_desc request).

(** The joined branch office and organization only feed the rendering
    of the acceptance screen; the invite row is what is modelled. *)
Definition fetchInviteByToken (db : Db.t) (token : string)
  : outcome (option BranchInvite.t) :=
  maybeSingle
    (run (where_ (Eq "invite_token" token) (from (Db.branch_invites db)))).

Definition acceptedRow (r : BranchInvite.t) (userId : string) (now : nat)
  : BranchInvite.t :=
  {| BranchInvite.id := BranchInvite.id r;
     BranchInvite.organization_id := BranchInvite.organization_id r;
     BranchInvite.branch_office_id := BranchInvite.branch_office_id r;
     BranchInvite.email := BranchInvite.email r;
     BranchInvite.role := BranchInvite.role r;
     BranchInvite.full_name := BranchInvite.full_name r;
     BranchInvite.department := BranchInvite.department r;
     BranchInvite.title := BranchInvite.title r;
     BranchInvite.contact_email := BranchInvite.contact_email r;
     BranchInvite.invite_token := BranchInvite.invite_token r;
     BranchInvite.status := accepted;
     BranchInvite.user_id := Some userId;
     BranchInvite.created_at := BranchInvite.created_at r;
     BranchInvite.accepted_at := Some now |}.

(** [.update({...}).eq('id', inviteId).select().single()]: the update
    has no condition on the current status.  When the id does not match
    exactly one row the call fails and nothing is written. *)
Definition markInviteAccepted (db : Db.t) (inviteId userId : string) (now : nat)
  : outcome (Db.t * BranchInvite.t) :=
  match single (List.filter (fun r => BranchInvite.id r =? inviteId)
                            (Db.branch_invites db)) with
  | Err e => Err e
  | Ok r =>
      let data := acceptedRow r userId now in
      Ok (Db.with_invites db
            (map (fun x => if BranchInvite.id x =? inviteId
                           then acceptedRow x userId now else x)
                 (Db.branch_invites db)),
          data)
  end.

End organizationService.

(* ------------------------------------------------------------------ *)
(** ** contexts/AuthContext.tsx *)

Module Auth.
Record t : Type := {
  organization : option Organization;
  memberRole : option Role;
  branchOfficeId : option string
}.

Definition signed_out : t :=
  {| organization := None; memberRole := None; branchOfficeId := None |}.

Definition isOrgAdmin (auth : t) : bool :=
  match memberRole auth with
  | Some org_admin => true
  | _ => false
  end.
End Auth.

Module AuthContext.

(** [hydrateMembership].  [mounted] is the provider's liveness flag,
    taken as constant for the duration of one call. *)
Definition hydrateMembership (mounted : bool) (userId : option string)
    (new_id : string) (now : nat) (auth : Auth.t) (db : Db.t)
  : Auth.t * Db.t :=
  if negb mounted then (auth, db)
  else
    match Js.known userId with
    | None => (Auth.signed_out, db)
    | Some userId =>
        match organizationService.fetchMembershipForUser db userId now with
        | Err _ => (Auth.signed_out, db)
        | Ok (org, member) =>
            let hydrated :=
              {| Auth.organization := org;
                 Auth.memberRole := option_map OrganizationMember.role member;
                 Auth.branchOfficeId :=
                   match member with
                   | Some m => OrganizationMember.branch_office_id m
                   | None => None
                   end |} in
            match org with
            | Some _ => (hydrated, db)
            | None =>
                match maybeSingle
                        (run (where_ (Eq "user_id" userId)
                                     (from (Db.organizations db))))
                with
                | Err _ => (Auth.signed_out, db)
                | Ok None => (hydrated, db)
                | Ok (Some data) =>
                    let (db', _) :=
                      organizationService.ensureMembership db
                        {| organizationService.mp_userId := userId;
                           organizationService.mp_organizationId := org_id data;
                           organizationService.mp_role := org_admin;
                           organizationService.mp_branchOfficeId := None;
                           organizationService.mp_department := None |}
                        new_id now in
                    ({| Auth.organization := Some data;
                        Auth.memberRole := Some org_admin;
                        Auth.branchOfficeId := None |}, db')
                end
            end
        end
    end.

End AuthContext.

(** The membership rows binding one user to one organization. *)
Definition memberships_of (members : list OrganizationMember.t)
    (userId organizationId : string) : list OrganizationMember.t :=
  List.filter
    (fun r => (OrganizationMember.user_id r =? userId)
              && (OrganizationMember.organization_id r =? organizationId))
    members.

(** All the membership rows of one user. *)
Definition memberships_of_user (members : list OrganizationMember.t)
    (userId : string) : list OrganizationMember.t :=
  List.filter (fun r => OrganizationMember.user_id r =? userId) members.

(** The organizations a user owns. *)
Definition owned_by (db : Db.t) (userId : string) : list Organization :=
  List.filter (fun o => org_user_id o =? userId) (Db.organizations db).


(** The org-admin membership the resolver synthesizes. *)
Definition synthesized (new_id userId organizationId : string) (now : nat)
  : OrganizationMember.t :=
  {| OrganizationMember.id := new_id;
     OrganizationMember.organization_id := organizationId;
     OrganizationMember.user_id := userId;
     OrganizationMember.role := org_admin;
     OrganizationMember.branch_office_id := None;
     OrganizationMember.department := None;
     OrganizationMember.created_at := now |}.

Module Acme.

Definition org : Organization :=
  {| org_id := "org-1"; org_user_id := "u-1"; org_name := "Acme";
     org_hq_location := "NYC"; org_plan := "monthly";
     org_created_at := 5; org_updated_at := 5 |}.

Definition empty_db : Db.t :=
  {| Db.organizations := []; Db.organization_members := [];
     Db.branch_invites := []; Db.vendors := []; Db.projects := [];
     Db.agreements := [] |}.

(** An organization whose owner has no membership row yet. *)
Definition dangling_org : Db.t :=
  {| Db.organizations := [org]; Db.organization_members := [];
     Db.branch_invites := []; Db.vendors := []; Db.projects := [];
     Db.agreements := [] |}.

End Acme.


(* ------------------------------------------------------------------ *)
(** ** views/BranchInvite.tsx *)

(** What [supabase.auth.signUp] answers: an error, or a session whose
    user may be missing. *)
Inductive SignUp : Type :=
| SignUpError (message : string)
| SignUpData (user_id : option string).

Module BranchInviteView.

Record t : Type := {
  loading : bool;
  inviteError : option string;
  inviteDetails : option BranchInvite.t;
  password : string;
  confirmPassword : string;
  accepting : bool;
  success : bool
}.

(** The component as first rendered. *)
Definition mount : t :=
  {| loading := true; inviteError := None; inviteDetails := None;
     password := ""; confirmPassword := ""; accepting := false;
     success := false |}.

Definition set_loaded (ui : t) (error : option string)
    (details : option BranchInvite.t) : t :=
  {| loading := false; inviteError := error; inviteDetails := details;
     password := password ui; confirmPassword := confirmPassword ui;
     accepting := accepting ui; success := success ui |}.

Definition set_passwords (ui : t) (p c : string) : t :=
  {| loading := loading ui; inviteError := inviteError ui;
     inviteDetails := inviteDetails ui;
     password := p; confirmPassword := c;
     accepting := accepting ui; success := success ui |}.

(** A validation message: only [inviteError] changes. *)
Definition set_error (ui : t) (message : string) : t :=
  {| loading := loading ui; inviteError := Some message;
     inviteDetails := inviteDetails ui;
     password := password ui; confirmPassword := confirmPassword ui;
     accepting := accepting ui; success := success ui |}.

(** The state after the [try] block and its [finally]. *)
Definition set_outcome (ui : t) (error : option string) (ok : bool) : t :=
  {| loading := loading ui; inviteError := error;
     inviteDetails := inviteDetails ui;
     password := password ui; confirmPassword := confirmPassword ui;
     accepting := false; success := ok |}.

Definition InviteStatus_eqb (a b : InviteStatus) : bool :=
  match a, b with
  | pending, pending | accepted, accepted | revoked, revoked => true
  | _, _ => false
  end.

(** The effect run when the component mounts with [token]. *)
Definition loadInvite (token : string) (db : Db.t) (ui : t) : t :=
  match organizationService.fetchInviteByToken db token with
  | Ok None =>
      set_loaded ui
        (Some "This invitation could not be found or has been revoked.")
        (inviteDetails ui)
  | Ok (Some invite) =>
      if InviteStatus_eqb (BranchInvite.status invite) accepted
      then set_loaded ui (Some "This invitation has already been accepted.")
             (inviteDetails ui)
      else set_loaded ui None (Some invite)
  | Err message => set_loaded ui (Some message) (inviteDetails ui)
  end.

(** The argument [handleAccept] passes to [ensureMembership]: role,
    branch and department are copied from the invite. *)
Definition membershipFor (inviteDetails : BranchInvite.t) (userId : string)
  : organizationService.MembershipPayload :=
  {| organizationService.mp_userId := userId;
     organizationService.mp_organizationId :=
       BranchInvite.organization_id inviteDetails;
     organizationService.mp_role :=
       if Role_eqb (BranchInvite.role inviteDetails) branch_user
       then branch_user else branch_admin;
     organizationService.mp_branchOfficeId :=
       Some (BranchInvite.branch_office_id inviteDetails);
     organizationService.mp_department :=
       Js.or_else (BranchInvite.department inviteDetails) None |}.

(** Submitting the acceptance form. *)
Definition handleAccept (signUp : SignUp) (new_id : string) (now : nat)
    (ui : t) (db : Db.t) : t * Db.t :=
  match inviteDetails ui with
  | None => (ui, db)
  | Some inviteDetails =>
      if (password ui =? "") || (String.length (password ui) <? 6)%nat
      then (set_error ui "Password must be at least 6 characters.", db)
      else if negb (password ui =? confirmPassword ui)
      then (set_error ui "Passwords do not match.", db)
      else
        match signUp with
        | SignUpError message => (set_outcome ui (Some message) (success ui), db)
        | SignUpData user =>
            match Js.known user with
            | None =>
                (set_outcome ui
                   (Some "Sign up succeeded but no user id returned.")
                   (success ui), db)
            | Some userId =>
                let (db1, _) :=
                  organizationService.ensureMembership db
                    (membershipFor inviteDetails userId) new_id now in
                match organizationService.markInviteAccepted db1
                        (BranchInvite.id inviteDetails) userId now with
                | Err message => (set_outcome ui (Some message) (success ui), db1)
                | Ok (db2, _) => (set_outcome ui None true, db2)
                end
            end
        end
  end.

(** One acceptance attempt: open the invite link, type the two
    passwords, submit. *)
Definition attempt (token p c : string) (signUp : SignUp) (new_id : string)
    (now : nat) (db : Db.t) : t * Db.t :=
  handleAccept signUp new_id now
    (set_passwords (loadInvite token db mount) p c) db.

End BranchInviteView.

Definition invites_with_token (db : Db.t) (token : string)
  : list BranchInvite.t :=
  List.filter (fun r => BranchInvite.invite_token r =? token)
              (Db.branch_invites db).

Definition invites_with_id (db : Db.t) (id : string) : list BranchInvite.t :=
  List.filter (fun r => BranchInvite.id r =? id) (Db.branch_invites db).

Module Invited.

Definition invite (status : InviteStatus) : BranchInvite.t :=
  {| BranchInvite.id := "inv-1";
     BranchInvite.organization_id := "org-1";
     BranchInvite.branch_office_id := "B1";
     BranchInvite.email := "ann@example.com";
     BranchInvite.role := branch_user;
     BranchInvite.full_name := Some "Ann";
     BranchInvite.department := Some "Finance";
     BranchInvite.title := None;
     BranchInvite.contact_email := Some "ann@example.com";
     BranchInvite.invite_token := "tok-1";
     BranchInvite.status := status;
     BranchInvite.user_id := None;
     BranchInvite.created_at := 7;
     BranchInvite.accepted_at := None |}.

(** The organization with one invite in the given state. *)
Definition db (status : InviteStatus) : Db.t :=
  {| Db.organizations := [Acme.org];
     Db.organization_members := [];
     Db.branch_invites := [invite status];
     Db.vendors := []; Db.projects := []; Db.agreements := [] |}.

End Invited.


(* ------------------------------------------------------------------ *)
(** ** views/OfficeManager.tsx: inviting a branch admin *)

(** The body posted to the [send-branch-invite] function. *)
Record InviteMail : Type := {
  mail_email : string;
  mail_inviteLink : string;
  mail_branchIdentifier : string;
  mail_organizationName : string
}.

(** What the world answers while one invite is created. *)
Record InviteWorld : Type := {
  w_token : string;                  (* crypto.randomUUID() *)
  w_origin : string;                 (* window.location.origin *)
  w_new_id : string;                 (* id generated for the row *)
  w_now : nat;
  w_mail_throws : bool;              (* functions.invoke rejects *)
  w_refresh_error : option string    (* the reload of the list fails *)
}.

Module OfficeManager.

(** The part of the component state the invite panel uses. *)
Record t : Type := {
  selectedOffice : option BranchOffice;
  adminInvites : list BranchInvite.t;
  inviteError : option string;
  inviteEmail : string;
  inviteLink : option string;
  creatingInvite : bool
}.

(** The state once the handler has run to its [finally]. *)
Definition update (ui : t) (invites : list BranchInvite.t)
    (error : option string) (email : string) (link : option string) : t :=
  {| selectedOffice := selectedOffice ui;
     adminInvites := invites;
     inviteError := error;
     inviteEmail := email;
     inviteLink := link;
     creatingInvite := false |}.

Definition inviteLinkFor (origin token : string) : string :=
  origin ++ "/#/invite/" ++ token.

Definition handleCreateInvite (organization : option Organization)
    (world : InviteWorld) (ui : t) (db : Db.t)
  : t * Db.t * option InviteMail :=
  match organization, selectedOffice ui with
  | Some organization, Some office =>
      if inviteEmail ui =? ""
      then ({| selectedOffice := selectedOffice ui;
               adminInvites := adminInvites ui;
               inviteError := Some "Email is required to invite an admin.";
               inviteEmail := inviteEmail ui;
               inviteLink := inviteLink ui;
               creatingInvite := creatingInvite ui |}, db, None)
      else
        let token := w_token world in
        match organizationService.createBranchInvite db
                {| organizationService.ip_organizationId := org_id organization;
                   organizationService.ip_branchOfficeId := office_id office;
                   organizationService.ip_email :=
                     Js.toLowerCase (Js.trim (inviteEmail ui));
                   organizationService.ip_inviteToken := token;
                   organizationService.ip_role := branch_admin;
                   organizationService.ip_fullName := None;
                   organizationService.ip_department := None;
                   organizationService.ip_title := None |}
                (w_new_id world) (w_now world)
        with
        | Err message =>
            (update ui (adminInvites ui) (Some message) (inviteEmail ui) None,
             db, None)
        | Ok (db1, _) =>
            let link := inviteLinkFor (w_origin world) token in
            let mail :=
              {| mail_email := Js.toLowerCase (Js.trim (inviteEmail ui));
                 mail_inviteLink := link;
                 mail_branchIdentifier := office_identifier office;
                 mail_organizationName := org_name organization |} in
            let mailError :=
              if w_mail_throws world
              then Some "Invite saved, but email delivery failed. Copy the link below and share it manually."
              else None in
            match w_refresh_error world with
            | Some message =>
                (update ui (adminInvites ui) (Some message) "" (Some link),
                 db1, Some mail)
            | None =>
                (update ui
                   (organizationService.fetchBranchInvites db1 (office_id office)
                      (Some branch_admin))
                   mailError "" (Some link),
                 db1, Some mail)
            end
        end
  | _, _ => (ui, db, None)
  end.

End OfficeManager.

Module InvitePanel.

Definition nyc : BranchOffice :=
  {| office_id := "B1"; office_organization_id := "org-1";
     office_identifier := "NYC-01"; office_location := "New York, US" |}.

Definition panel : OfficeManager.t :=
  {| OfficeManager.selectedOffice := Some nyc;
     OfficeManager.adminInvites := [];
     OfficeManager.inviteError := None;
     OfficeManager.inviteEmail := " Bob@Example.com ";
     OfficeManager.inviteLink := None;
     OfficeManager.creatingInvite := false |}.

(** The mail function rejects; everything else works. *)
Definition mail_down : InviteWorld :=
  {| w_token := "tok-2"; w_origin := "https://lex.example";
     w_new_id := "inv-2"; w_now := 30;
     w_mail_throws := true; w_refresh_error := None |}.

End InvitePanel.


(* ------------------------------------------------------------------ *)
(** ** views/VendorManager.tsx *)

(** The scope toggle of the create forms. *)
Inductive FormScope : Type := form_organization | form_branch.

Definition FormScope_eqb (a b : FormScope) : bool :=
  match a, b with
  | form_organization, form_organization | form_branch, form_branch => true
  | _, _ => false
  end.

Record File : Type := {
  file_name : string;
  file_type : string
}.

Record UploadResult : Type := {
  upload_path : string;
  upload_url : string
}.

(** What the world answers during one upload: the storage function per
    file, the generated document ids, the clock. *)
Record UploadWorld : Type := {
  u_upload : File -> outcome UploadResult;
  u_doc_id : nat -> string;
  u_now : nat
}.

Definition show_nat (n : nat) : string :=
  NilEmpty.string_of_uint (Nat.to_uint n).

Module VendorManager.

Definition MAX_DOCUMENTS : nat := 3.

Record FormState : Type := {
  name : string;
  tin : string;
  contactEmail : string;
  contactPhone : string;
  notes : string;
  scope : FormScope;
  branchOfficeId : string
}.

Definition initialFormState (scope : FormScope) (branchOfficeId : option string)
  : FormState :=
  {| name := ""; tin := ""; contactEmail := ""; contactPhone := "";
     notes := ""; scope := scope;
     branchOfficeId := Js.nullish branchOfficeId "" |}.

Record t : Type := {
  vendors : list Vendor.t;
  success : option string;
  docError : option string;
  creating : bool;
  uploadingVendorId : option string;
  showCreateModal : bool;
  formError : option string;
  form : FormState
}.

Definition with_formError (ui : t) (message : option string) : t :=
  {| vendors := vendors ui; success := success ui; docError := docError ui;
     creating := creating ui; uploadingVendorId := uploadingVendorId ui;
     showCreateModal := showCreateModal ui; formError := message;
     form := form ui |}.

Definition with_docError (ui : t) (message : option string) : t :=
  {| vendors := vendors ui; success := success ui; docError := message;
     creating := creating ui; uploadingVendorId := uploadingVendorId ui;
     showCreateModal := showCreateModal ui; formError := formError ui;
     form := form ui |}.

Definition handleCreateVendor (auth : Auth.t) (user : option string)
    (new_id : string) (now : nat) (ui : t) (db : Db.t) : t * Db.t :=
  match Auth.organization auth with
  | None => (ui, db)
  | Some organization =>
      let form := form ui in
      let branchOfficeId := Auth.branchOfficeId auth in
      if (Js.trim (name form) =? "") || (Js.trim (tin form) =? "")
      then (with_formError ui (Some "Vendor name and TIN are required."), db)
      else if FormScope_eqb (scope form) form_branch
              && negb (Js.truthy (Some (VendorManager.branchOfficeId form))
                       || Js.truthy branchOfficeId)
      then (with_formError ui (Some "Select a branch to assign this vendor."), db)
      else
        let branchAssignment :=
          if Auth.isOrgAdmin auth
          then if FormScope_eqb (scope form) form_organization
               then None
               else Js.or_else (Some (VendorManager.branchOfficeId form)) None
          else branchOfficeId in
        match vendorService.createVendor (Db.vendors db)
                {| vendorService.vp_organizationId := org_id organization;
                   vendorService.vp_branchOfficeId := branchAssignment;
                   vendorService.vp_name := Js.trim (name form);
                   vendorService.vp_tin := Js.trim (tin form);
                   vendorService.vp_contactEmail := Js.trimmed (contactEmail form);
                   vendorService.vp_contactPhone := Js.trimmed (contactPhone form);
                   vendorService.vp_notes := Js.trimmed (notes form);
                   vendorService.vp_documents := None;
                   vendorService.vp_createdBy := user |}
                new_id now
        with
        | Ok (rows, newVendor) =>
            ({| vendors := newVendor :: vendors ui;
                success := Some "Vendor registered successfully.";
                docError := docError ui;
                creating := false;
                uploadingVendorId := uploadingVendorId ui;
                showCreateModal := false;
                formError := None;
                form := initialFormState (scope form)
                          (Some (VendorManager.branchOfficeId form)) |},
             Db.with_vendors db rows)
        | Err message =>
            ({| vendors := vendors ui; success := None;
                docError := docError ui; creating := false;
                uploadingVendorId := uploadingVendorId ui;
                showCreateModal := showCreateModal ui;
                formError := Some message; form := VendorManager.form ui |}, db)
        end
  end.

(** The [for (const file of files)] loop: each file is uploaded and its
    document pushed; the first failing upload throws out of the loop,
    the objects stored so far stay in the bucket. *)
Fixpoint uploadEach (vendorId : string) (world : UploadWorld)
    (files : list File) (index : nat) (existingDocs : list VendorDocument)
    (bucket : list string) : outcome (list VendorDocument) * list string :=
  match files with
  | [] => (Ok existingDocs, bucket)
  | file :: rest =>
      match u_upload world file with
      | Err message => (Err message, bucket)
      | Ok uploadResult =>
          let doc :=
            {| doc_id := u_doc_id world index;
               doc_name := file_name file;
               doc_url := upload_url uploadResult;
               doc_uploaded_at := u_now world;
               doc_mime_type := Js.or_else (Some (file_type file)) None |} in
          uploadEach vendorId world rest (S index) (existingDocs ++ [doc])
            (bucket ++ [upload_path uploadResult])
      end
  end.

Definition uploaded (ui : t) (vendors : list Vendor.t) (error : option string)
  : t :=
  {| vendors := vendors; success := success ui; docError := error;
     creating := creating ui; uploadingVendorId := None;
     showCreateModal := showCreateModal ui; formError := formError ui;
     form := form ui |}.

(** [handleUploadDocuments]; [bucket] is the object store. *)
Definition handleUploadDocuments (vendor : Vendor.t)
    (files : option (list File)) (world : UploadWorld)
    (ui : t) (db : Db.t) (bucket : list string) : t * Db.t * list string :=
  match files with
  | None | Some [] => (ui, db, bucket)
  | Some files =>
      if (MAX_DOCUMENTS <? length (Vendor.documents vendor) + length files)%nat
      then (with_docError ui
              (Some ("You can upload up to " ++ show_nat MAX_DOCUMENTS
                     ++ " files per vendor.")%string),
            db, bucket)
      else
        match uploadEach (Vendor.id vendor) world files 0
                (Vendor.documents vendor) bucket with
        | (Err message, bucket') => (uploaded ui (vendors ui) (Some message), db, bucket')
        | (Ok existingDocs, bucket') =>
            match vendorService.updateVendorDocuments (Db.vendors db)
                    (Vendor.id vendor) existingDocs (u_now world) with
            | Err message =>
                (uploaded ui (vendors ui) (Some message), db, bucket')
            | Ok (rows, updated) =>
                (uploaded ui
                   (map (fun v => if Vendor.id v =? Vendor.id vendor
                                  then updated else v) (vendors ui))
                   None,
                 Db.with_vendors db rows, bucket')
            end
        end
  end.

Definition handleRemoveDocument (vendor : Vendor.t) (docId : string)
    (now : nat) (ui : t) (db : Db.t) : t * Db.t :=
  let updatedList :=
    List.filter (fun doc => negb (doc_id doc =? docId))
      (Vendor.documents vendor) in
  match vendorService.updateVendorDocuments (Db.vendors db)
          (Vendor.id vendor) updatedList now with
  | Err message => (uploaded ui (vendors ui) (Some message), db)
  | Ok (rows, updated) =>
      (uploaded ui
         (map (fun v => if Vendor.id v =? Vendor.id vendor
                        then updated else v) (vendors ui))
         None,
       Db.with_vendors db rows)
  end.

(** The two filter controls above the vendor table. *)
Record Controls : Type := {
  scopeFilter : Scope;
  branchFilter : string
}.

Definition branchLocked (auth : Auth.t) : bool :=
  match Auth.memberRole auth with
  | Some branch_admin => negb (Js.truthy (Auth.branchOfficeId auth))
  | _ => false
  end.




End VendorManager.

Module Globex.

Definition doc (id : string) : VendorDocument :=
  {| doc_id := id; doc_name := id; doc_url := ("https://files/" ++ id)%string;
     doc_uploaded_at := 3; doc_mime_type := Some "application/pdf" |}.

Definition stored : VendorRow.t :=
  {| VendorRow.id := "v-1";
     VendorRow.organization_id := "org-1";
     VendorRow.branch_office_id := Some "B1";
     VendorRow.name := "Globex";
     VendorRow.tin := "12-345";
     VendorRow.contact_email := None;
     VendorRow.contact_phone := None;
     VendorRow.notes := None;
     VendorRow.documents := Jarray [doc "d-1"; doc "d-2"];
     VendorRow.created_by := None;
     VendorRow.created_at := 3;
     VendorRow.updated_at := 3 |}.

(** The vendor with two documents attached. *)
Definition vendor : Vendor.t := vendorService.rowToVendor stored.

Definition db : Db.t :=
  {| Db.organizations := [Acme.org];
     Db.organization_members := [];
     Db.branch_invites := [];
     Db.vendors := [stored];
     Db.projects := []; Db.agreements := [] |}.

Definition pdf (name : string) : File :=
  {| file_name := name; file_type := "application/pdf" |}.

(** A world in which every upload succeeds. *)
Definition world : UploadWorld :=
  {| u_upload := fun f =>
       Ok {| upload_path := ("v-1/" ++ file_name f)%string;
             upload_url := ("https://files/v-1/" ++ file_name f)%string |};
     u_doc_id := fun n => ("d-new-" ++ show_nat n)%string;
     u_now := 40 |}.

Definition page : VendorManager.t :=
  {| VendorManager.vendors := [vendor];
     VendorManager.success := None;
     VendorManager.docError := None;
     VendorManager.creating := false;
     VendorManager.uploadingVendorId := None;
     VendorManager.showCreateModal := false;
     VendorManager.formError := None;
     VendorManager.form := VendorManager.initialFormState form_branch (Some "B1") |}.

End Globex.


(* ------------------------------------------------------------------ *)
(** ** Create handlers of the drafting studio and the project manager *)

(** How a submit handler ends. *)
Inductive submitted (A : Type) : Type :=
| Ignored                      (* returned at once, nothing shown *)
| Refused (message : string)   (* validation message, no store call *)
| Failed (message : string)    (* the store call threw *)
| Saved (item : A).

Arguments Ignored {A}.
Arguments Refused {A} message.
Arguments Failed {A} message.
Arguments Saved {A} item.

(** The two quick-create forms of the drafting studio. *)
Record QuickVendorForm : Type := {
  qv_name : string;
  qv_tin : string;
  qv_scope : FormScope;
  qv_branchOfficeId : string;
  qv_contactEmail : string
}.

Record QuickProjectForm : Type := {
  qp_name : string;
  qp_description : string;
  qp_scope : FormScope;
  qp_branchOfficeId : string
}.

Module AgreementGenerator.

Definition handleQuickVendorSave (auth : Auth.t) (user : option string)
    (new_id : string) (now : nat) (quickVendorForm : QuickVendorForm) (db : Db.t)
  : submitted Vendor.t * Db.t :=
  match Auth.organization auth with
  | None => (Ignored, db)
  | Some organization =>
      if (Js.trim (qv_name quickVendorForm) =? "")
         || (Js.trim (qv_tin quickVendorForm) =? "")
      then (Refused "Vendor name and TIN are required.", db)
      else
        let branchAssignment :=
          if Auth.isOrgAdmin auth
          then if FormScope_eqb (qv_scope quickVendorForm) form_organization
               then None
               else Js.or_else (Some (qv_branchOfficeId quickVendorForm)) None
          else Auth.branchOfficeId auth in
        if FormScope_eqb (qv_scope quickVendorForm) form_branch
           && negb (Js.truthy branchAssignment)
        then (Refused "Assign a branch to create this vendor.", db)
        else
          match vendorService.createVendor (Db.vendors db)
                  {| vendorService.vp_organizationId := org_id organization;
                     vendorService.vp_branchOfficeId := branchAssignment;
                     vendorService.vp_name := Js.trim (qv_name quickVendorForm);
                     vendorService.vp_tin := Js.trim (qv_tin quickVendorForm);
                     vendorService.vp_contactEmail :=
                       Js.trimmed (qv_contactEmail quickVendorForm);
                     vendorService.vp_contactPhone := None;
                     vendorService.vp_notes := None;
                     vendorService.vp_documents := None;
                     vendorService.vp_createdBy := user |}
                  new_id now
          with
          | Ok (rows, newVendor) => (Saved newVendor, Db.with_vendors db rows)
          | Err message => (Failed message, db)
          end
  end.

Definition handleQuickProjectSave (auth : Auth.t) (user : option string)
    (new_id : string) (now : nat) (quickProjectForm : QuickProjectForm) (db : Db.t)
  : submitted Project.t * Db.t :=
  match Auth.organization auth with
  | None => (Ignored, db)
  | Some organization =>
      if Js.trim (qp_name quickProjectForm) =? ""
      then (Refused "Project name is required.", db)
      else
        let branchAssignment :=
          if Auth.isOrgAdmin auth
          then if FormScope_eqb (qp_scope quickProjectForm) form_organization
               then None
               else Js.or_else (Some (qp_branchOfficeId quickProjectForm)) None
          else Auth.branchOfficeId auth in
        if FormScope_eqb (qp_scope quickProjectForm) form_branch
           && negb (Js.truthy branchAssignment)
        then (Refused "Assign a branch to create this project.", db)
        else
          match projectService.createProject (Db.projects db)
                  {| projectService.pp_organizationId := org_id organization;
                     projectService.pp_branchOfficeId := branchAssignment;
                     projectService.pp_name := Js.trim (qp_name quickProjectForm);
                     projectService.pp_description :=
                       Js.trimmed (qp_description quickProjectForm);
                     projectService.pp_status := Some active;
                     projectService.pp_startDate := None;
                     projectService.pp_endDate := None;
                     projectService.pp_createdBy := user |}
                  new_id now
          with
          | Ok (rows, newProject) => (Saved newProject, Db.with_projects db rows)
          | Err message => (Failed message, db)
          end
  end.

(** The editor state [handleSave] reads. *)
Record Editor : Type := {
  ed_title : string;
  ed_counterparty : string;
  ed_type : string;
  ed_sections : list Clause;
  ed_selectedProjectId : option string;
  ed_riskLevel : string
}.

(** The generated id and the dates [handleSave] takes from the clock. *)
Record SaveWorld : Type := {
  s_generateId : string;
  s_today : string;
  s_nextYear : string;
  s_now : nat
}.

(** [a ?? b] between two nullable values. *)
Definition nullish_opt {A : Type} (a b : option A) : option A :=
  match a with
  | Some _ => a
  | None => b
  end.

(** The agreement [handleSave] hands to [onSave]. *)
Definition newAgreement (auth : Auth.t) (initialData : option Agreement.t)
    (world : SaveWorld) (editor : Editor) : Agreement.t :=
  let initial {A : Type} (f : Agreement.t -> A) : option A :=
    option_map f initialData in
  {| Agreement.id :=
       Js.or_str (initial Agreement.id) (s_generateId world);
     Agreement.title := ed_title editor;
     Agreement.counterparty := ed_counterparty editor;
     Agreement.branchOfficeId :=
       nullish_opt (Auth.branchOfficeId auth)
         match initialData with
         | Some d => Agreement.branchOfficeId d
         | None => None
         end;
     Agreement.projectId :=
       nullish_opt (ed_selectedProjectId editor)
         match initialData with
         | Some d => Agreement.projectId d
         | None => None
         end;
     Agreement.department := Js.or_str (initial Agreement.department) "Legal";
     Agreement.owner := Js.or_str (initial Agreement.owner) "Current User";
     Agreement.effectiveDate :=
       Js.or_str (initial Agreement.effectiveDate) (s_today world);
     Agreement.renewalDate :=
       Js.or_str (initial Agreement.renewalDate) (s_nextYear world);
     Agreement.value := Js.nullish (initial Agreement.value) 15000%Z;
     Agreement.riskLevel := ed_riskLevel editor;
     Agreement.status := Js.or_str (initial Agreement.status) "Draft";
     Agreement.sections := Jarray (ed_sections editor);
     Agreement.tags :=
       match initial Agreement.tags with
       | Some (t :: ts) => t :: ts
       | _ => [ed_type editor]
       end;
     Agreement.version :=
       match initial Agreement.version with
       | Some v => if (v =? 0)%Z then 1%Z else v
       | None => 1%Z
       end;
     Agreement.createdAt :=
       match initial Agreement.createdAt with
       | Some c => c
       | None => s_now world
       end;
     Agreement.updatedAt := s_now world;
     Agreement.comments :=
       match initial Agreement.comments with
       | Some c => nullish_array c
       | None => Jarray []
       end;
     Agreement.auditLog :=
       match initial Agreement.auditLog with
       | Some c => nullish_array c
       | None => Jarray []
       end |}.

(** [handleSave] followed by the [onSave] the application passes in
    ([handleSaveAgreement] of App.tsx). *)
Definition handleSave (auth : Auth.t) (user : option string)
    (initialData : option Agreement.t) (world : SaveWorld) (editor : Editor)
    (db : Db.t) : submitted Agreement.t * Db.t :=
  let newAgreement := newAgreement auth initialData world editor in
  match Auth.organization auth with
  | None => (Ignored, db)
  | Some organization =>
      if org_id organization =? "" then (Ignored, db)
      else
        let (rows, saved) :=
          agreementService.upsertAgreementForOrganization (Db.agreements db)
            newAgreement (org_id organization) user (s_now world) in
        (Saved saved, Db.with_agreements db rows)
  end.

End AgreementGenerator.

(** views/ProjectManager.tsx *)
Module ProjectManager.



(** The three filter controls above the project table; no status
    stands for the choice ['all']. *)
Record Controls : Type := {
  statusFilter : option ProjectStatus;
  scopeFilter : Scope;
  branchFilter : string
}.

Definition branchLocked (auth : Auth.t) : bool :=
  match Auth.memberRole auth with
  | Some branch_admin => negb (Js.truthy (Auth.branchOfficeId auth))
  | _ => false
  end.

(** [loadProjects]; [failure] is the error of the request, if it fails,
    [projects] and [tableError] the table and the message shown. *)
Definition loadProjects (auth : Auth.t) (controls : Controls)
    (failure : option string) (db : Db.t) (projects : list Project.t)
    (tableError : option string) : list Project.t * option string :=
  match Auth.organization auth with
  | None => (projects, tableError)
  | Some organization =>
      if branchLocked auth then ([], tableError)
      else
        match failure with
        | Some message => (projects, Some message)
        | None =>
            (projectService.fetchProjects (Db.projects db)
               (Build_ScopeParams (org_id organization)
                  (if branchFilter controls =? "all"
                   then Auth.branchOfficeId auth
                   else Some (branchFilter controls))
                  (Some (if Auth.isOrgAdmin auth
                         then scopeFilter controls else scope_branch)))
               match statusFilter controls with
               | Some chosen => Some [chosen]
               | None => None
               end,
             None)
        end
  end.

End ProjectManager.


(** What a create handler did to a table: nothing, or one row appended. *)
Definition appended {row : Type} (before after : list row) (p : row -> Prop)
  : Prop :=
  after = before \/ exists r, after = before ++ [r] /\ p r.


(* ------------------------------------------------------------------ *)
(** ** views/TemplateBuilder.tsx *)

Inductive Visibility : Type := vis_organization | vis_branch.

Definition Visibility_eqb (a b : Visibility) : bool :=
  match a, b with
  | vis_organization, vis_organization | vis_branch, vis_branch => true
  | _, _ => false
  end.

Record DraftSection : Type := {
  ds_id : string;
  ds_title : string;
  ds_required : bool;
  ds_content : string
}.

Module Template.
Record t : Type := {
  id : string;
  organization_id : string;
  branch_office_id : option string;
  name : string;
  description : option string;
  visibility : Visibility;
  sections : list DraftSection;
  created_by : option string;
  created_at : nat;
  updated_at : nat
}.
End Template.

Module TemplateBuilder.

Record Meta : Type := {
  name : string;
  description : string;
  visibility : Visibility
}.

Record t : Type := {
  templateMeta : Meta;
  activeTemplateId : option string;
  draft : list DraftSection;
  error : option string;
  success : option string;
  saving : bool
}.

Definition finished (ui : t) (active : option string)
    (error success : option string) : t :=
  {| templateMeta := templateMeta ui;
     activeTemplateId := active;
     draft := draft ui;
     error := error;
     success := success;
     saving := false |}.

Section Save.

(** [saveTemplate] belongs to services/templateService.ts, which is not
    part of the sources at hand: it is taken as a parameter, over any
    representation [table] of the templates it writes to. *)
Variable table : Type.
Variable saveTemplate : Template.t -> table -> outcome (table * Template.t).

(** [handleSave].  The third component of the result is the template
    that was handed to [saveTemplate], if the call was made.  The reload
    of the list that follows a successful save goes through
    [fetchTemplates] of the same missing service and is left out. *)
Definition handleSave (auth : Auth.t) (user : option string)
    (randomUUID : string) (now : nat) (ui : t) (templates : table)
  : t * table * option Template.t :=
  match Auth.organization auth, user with
  | Some organization, Some user =>
      if Js.trim (name (templateMeta ui)) =? ""
      then ({| templateMeta := templateMeta ui;
               activeTemplateId := activeTemplateId ui;
               draft := draft ui;
               error := Some "Template name is required.";
               success := success ui;
               saving := saving ui |}, templates, None)
      else
        let isOrgAdmin :=
          match Auth.memberRole auth with
          | Some org_admin => true
          | _ => false
          end in
        let templateId := Js.nullish (activeTemplateId ui) randomUUID in
        let effectiveVisibility :=
          if isOrgAdmin then visibility (templateMeta ui) else vis_branch in
        let branchTarget :=
          if Visibility_eqb effectiveVisibility vis_branch
          then Auth.branchOfficeId auth
          else None in
        if Visibility_eqb effectiveVisibility vis_branch
           && negb (Js.truthy branchTarget)
        then (finished ui (activeTemplateId ui)
                (Some "Branch templates require a branch office context.")
                None, templates, None)
        else
          let payload :=
            {| Template.id := templateId;
               Template.organization_id := org_id organization;
               Template.branch_office_id := branchTarget;
               Template.name := Js.trim (name (templateMeta ui));
               Template.description :=
                 Some (Js.trim (description (templateMeta ui)));
               Template.visibility := effectiveVisibility;
               Template.sections := draft ui;
               Template.created_by := Some user;
               Template.created_at := now;
               Template.updated_at := now |} in
          match saveTemplate payload templates with
          | Ok (templates', saved) =>
              (finished ui
                 (match activeTemplateId ui with
                  | Some current => Some current
                  | None => Some (Template.id saved)
                  end)
                 None (Some "Template saved."),
               templates', Some payload)
          | Err message =>
              (finished ui (activeTemplateId ui) (Some message) None,
               templates, Some payload)
          end
  | _, _ => (ui, templates, None)
  end.

End Save.

Arguments handleSave {table} saveTemplate auth user randomUUID now ui templates.

End TemplateBuilder.

Module Writers.

(** A branch admin of branch B1 and an org admin, both of Acme. *)
Definition branch_admin_B1 : Auth.t :=
  {| Auth.organization := Some Acme.org;
     Auth.memberRole := Some branch_admin;
     Auth.branchOfficeId := Some "B1" |}.

Definition admin : Auth.t :=
  {| Auth.organization := Some Acme.org;
     Auth.memberRole := Some org_admin;
     Auth.branchOfficeId := None |}.




(** A template draft whose visibility field says organization. *)
Definition org_wide_template : TemplateBuilder.t :=
  {| TemplateBuilder.templateMeta :=
       {| TemplateBuilder.name := "NDA";
          TemplateBuilder.description := "Mutual";
          TemplateBuilder.visibility := vis_organization |};
     TemplateBuilder.activeTemplateId := None;
     TemplateBuilder.draft := [];
     TemplateBuilder.error := None;
     TemplateBuilder.success := None;
     TemplateBuilder.saving := false |}.

(** A template store that keeps what it is given, newest first. *)
Definition keep (payload : Template.t) (templates : list Template.t)
  : outcome (list Template.t * Template.t) :=
  Ok (payload :: templates, payload).

End Writers.


(* ------------------------------------------------------------------ *)
(** ** Vocabulary of the further properties *)

(** Creation times from newest to oldest. *)
Definition newest_first (times : list nat) : Prop :=
  Sorted.StronglySorted (fun earlier later => later <= earlier) times.


Module Portfolio.

(** Two agreements of the organization, one attached to a project. *)
Definition with_project : AgreementRow.t :=
  {| AgreementRow.id := "a-p1";
     AgreementRow.organization_id := "org-1";
     AgreementRow.branch_office_id := Some "B1";
     AgreementRow.project_id := Some "p-1";
     AgreementRow.owner_user_id := Some "u-1";
     AgreementRow.title := "Supply";
     AgreementRow.counterparty := "Globex";
     AgreementRow.department := Some "Legal";
     AgreementRow.owner := Some "Ann";
     AgreementRow.effective_date := Some "2026-01-01";
     AgreementRow.renewal_date := Some "2027-01-01";
     AgreementRow.value := Some 100%Z;
     AgreementRow.risk_level := "Low";
     AgreementRow.status := "Draft";
     AgreementRow.sections := Jarray [];
     AgreementRow.tags := Some ["Supply"];
     AgreementRow.version := Some 2%Z;
     AgreementRow.comments := Jarray [];
     AgreementRow.audit_log := Jarray [];
     AgreementRow.created_at := 4;
     AgreementRow.updated_at := 6 |}.

Definition rows : list AgreementRow.t :=
  [with_project; Listing.agreement "a-org" None Jnull 2].


End Portfolio.

(** The unique constraints [(organization_id, name)] of the vendor and
    project tables. *)
Definition vendor_names_unique (vendors : list VendorRow.t) : Prop :=
  forall org name,
    length (List.filter
              (fun r => (VendorRow.organization_id r =? org)
                        && (VendorRow.name r =? name)) vendors) <= 1.

Definition project_names_unique (projects : list ProjectRow.t) : Prop :=
  forall org name,
    length (List.filter
              (fun r => (ProjectRow.organization_id r =? org)
                        && (ProjectRow.name r =? name)) projects) <= 1.

(** The stored documents of the vendor rows of one id. *)
Definition stored_documents (db : Db.t) (id : string)
  : list (jsonb VendorDocument) :=
  map VendorRow.documents
    (List.filter (fun r => VendorRow.id r =? id) (Db.vendors db)).

Module NewVendor.

(** A vendor of branch B1 that the organization does not know yet. *)
Definition payload : vendorService.VendorPayload :=
  {| vendorService.vp_organizationId := "org-1";
     vendorService.vp_branchOfficeId := Some "B1";
     vendorService.vp_name := "Initech";
     vendorService.vp_tin := "99-000";
     vendorService.vp_contactEmail := None;
     vendorService.vp_contactPhone := None;
     vendorService.vp_notes := None;
     vendorService.vp_documents := None;
     vendorService.vp_createdBy := Some "u-1" |}.

Definition row : VendorRow.t :=
  {| VendorRow.id := "v-new";
     VendorRow.organization_id := "org-1";
     VendorRow.branch_office_id := Some "B1";
     VendorRow.name := "Initech";
     VendorRow.tin := "99-000";
     VendorRow.contact_email := None;
     VendorRow.contact_phone := None;
     VendorRow.notes := None;
     VendorRow.documents := Jarray [];
     VendorRow.created_by := Some "u-1";
     VendorRow.created_at := 9;
     VendorRow.updated_at := 9 |}.

End NewVendor.



(* ------------------------------------------------------------------ *)
(** ** services/branchUserService.ts and views/BranchUserManager.tsx *)

Module branchUserService.

Record AccountPayload : Type := {
  ap_organizationId : string;
  ap_branchOfficeId : string;
  ap_email : string;
  ap_inviteToken : string;
  ap_fullName : string;
  ap_department : string;
  ap_title : option string
}.

(** Insert into [branch_invites] with role ['branch_user']; the address
    is stored in lower case. *)
Definition createBranchUserAccount (db : Db.t) (payload : AccountPayload)
    (new_id : string) (now : nat) : outcome (Db.t * BranchInvite.t) :=
  if organizationService.token_taken db (ap_inviteToken payload)
  then Err "duplicate key value violates unique constraint"
  else
    let data :=
      {| BranchInvite.id := new_id;
         BranchInvite.organization_id := ap_organizationId payload;
         BranchInvite.branch_office_id := ap_branchOfficeId payload;
         BranchInvite.email := Js.toLowerCase (ap_email payload);
         BranchInvite.role := branch_user;
         BranchInvite.full_name := Some (ap_fullName payload);
         BranchInvite.department := Some (ap_department payload);
         BranchInvite.title := Js.or_else (ap_title payload) None;
         BranchInvite.contact_email := Some (Js.toLowerCase (ap_email payload));
         BranchInvite.invite_token := ap_inviteToken payload;
         BranchInvite.status := pending;
         BranchInvite.user_id := None;
         BranchInvite.created_at := now;
         BranchInvite.accepted_at := None |} in
    Ok (Db.with_invites db (Db.branch_invites db ++ [data]), data).

Definition fetchBranchUsersForOffice (db : Db.t) (branchOfficeId : string)
  : list BranchInvite.t :=
  run (order_created_at_desc
         (where_ (Eq "role" "branch_user")
            (where_ (Eq "branch_office_id" branchOfficeId)
               (from (Db.branch_invites db))))).

End branchUserService.

(** The body posted to [send-branch-invite] for a branch user. *)
Record AccountMail : Type := {
  am_email : string;
  am_inviteLink : string;
  am_branchIdentifier : string;
  am_organizationName : string;
  am_subject : string;
  am_description : string;
  am_roleLabel : string
}.

Module BranchUserManager.

Record Form : Type := {
  fullName : string;
  department : string;
  title : string;
  email : string
}.

Record t : Type := {
  people : list BranchInvite.t;
  loading : bool;
  error : option string;
  success : option string;
  inviteLink : option string;
  creating : bool;
  form : Form
}.

Definition blank : Form :=
  {| fullName := ""; department := ""; title := ""; email := "" |}.

(** [loadPeople], as called at the end of [handleCreate]: [reload] is
    the error of the reload, if it fails. *)
Definition loadPeople (branchOfficeId : option string) (reload : option string)
    (db : Db.t) (ui : t) : t :=
  match Js.known branchOfficeId with
  | None =>
      {| people := []; loading := false; error := error ui;
         success := success ui; inviteLink := inviteLink ui;
         creating := creating ui; form := form ui |}
  | Some branch =>
      match reload with
      | Some message =>
          {| people := people ui; loading := false; error := Some message;
             success := success ui; inviteLink := inviteLink ui;
             creating := creating ui; form := form ui |}
      | None =>
          {| people := branchUserService.fetchBranchUsersForOffice db branch;
             loading := false; error := None;
             success := success ui; inviteLink := inviteLink ui;
             creating := creating ui; form := form ui |}
      end
  end.

Definition handleCreate (auth : Auth.t) (world : InviteWorld) (ui : t)
    (db : Db.t) : t * Db.t * option AccountMail :=
  match Auth.organization auth, Js.known (Auth.branchOfficeId auth) with
  | Some organization, Some branchOfficeId =>
      let form := form ui in
      if (Js.trim (fullName form) =? "") || (Js.trim (department form) =? "")
         || (Js.trim (email form) =? "")
      then ({| people := people ui; loading := loading ui;
               error := Some "Name, department, and email are required.";
               success := success ui; inviteLink := inviteLink ui;
               creating := creating ui; form := form |}, db, None)
      else
        let token := w_token world in
        match branchUserService.createBranchUserAccount db
                {| branchUserService.ap_organizationId := org_id organization;
                   branchUserService.ap_branchOfficeId := branchOfficeId;
                   branchUserService.ap_email := Js.trim (email form);
                   branchUserService.ap_inviteToken := token;
                   branchUserService.ap_fullName := Js.trim (fullName form);
                   branchUserService.ap_department := Js.trim (department form);
                   branchUserService.ap_title := Js.trimmed (title form) |}
                (w_new_id world) (w_now world)
        with
        | Err message =>
            ({| people := people ui; loading := loading ui;
                error := Some message; success := None; inviteLink := None;
                creating := false; form := form |}, db, None)
        | Ok (db1, _) =>
            let link := OfficeManager.inviteLinkFor (w_origin world) token in
            let mail :=
              {| am_email := Js.toLowerCase (Js.trim (email form));
                 am_inviteLink := link;
                 am_branchIdentifier := branchOfficeId;
                 am_organizationName := org_name organization;
                 am_subject :=
                   ("You're invited to " ++ org_name organization)%string;
                 am_description :=
                   ("You've been added to the " ++ Js.trim (department form)
                    ++ " department. Use the link below to set your password and access the branch workspace.")%string;
                 am_roleLabel := "Activate Account" |} in
            let created :=
              {| people := people ui; loading := loading ui; error := None;
                 success :=
                   if w_mail_throws world
                   then Some "Invite created, but email failed. Copy the link below and share it manually."
                   else Some "Account invite created. Share the link or copy it below.";
                 inviteLink := Some link;
                 creating := false;
                 form := blank |} in
            (loadPeople (Auth.branchOfficeId auth) (w_refresh_error world)
               db1 created,
             db1, Some mail)
        end
  | _, _ => (ui, db, None)
  end.

End BranchUserManager.

Module Desk.

(** The accounts desk of the branch admin of B1, with a form filled in. *)
Definition filled : BranchUserManager.t :=
  {| BranchUserManager.people := [];
     BranchUserManager.loading := false;
     BranchUserManager.error := None;
     BranchUserManager.success := None;
     BranchUserManager.inviteLink := None;
     BranchUserManager.creating := false;
     BranchUserManager.form :=
       {| BranchUserManager.fullName := "Cy Young";
          BranchUserManager.department := " Finance ";
          BranchUserManager.title := "";
          BranchUserManager.email := " Cy@Example.com" |} |}.

End Desk.


(* ------------------------------------------------------------------ *)
(** ** App.tsx: routes and the agreement list *)

(** [rawHash.split('/')]. *)
Fixpoint split_on (sep : ascii) (s : string) : list string :=
  match s with
  | EmptyString => [EmptyString]
  | String c rest =>
      if Ascii.eqb c sep then EmptyString :: split_on sep rest
      else
        match split_on sep rest with
        | [] => [String c EmptyString]
        | first :: others => String c first :: others
        end
  end.

Module App.

Inductive ViewMode : Type :=
| dashboard | generator | templates | analytics | settings
| offices | vendors | projects | departments.

Definition ViewMode_text (v : ViewMode) : string :=
  match v with
  | dashboard => "dashboard"
  | generator => "generator"
  | templates => "templates"
  | analytics => "analytics"
  | settings => "settings"
  | offices => "offices"
  | vendors => "vendors"
  | projects => "projects"
  | departments => "departments"
  end.

Definition ViewMode_eqb (a b : ViewMode) : bool :=
  ViewMode_text a =? ViewMode_text b.

Definition ROUTABLE_VIEWS : list ViewMode :=
  [dashboard; generator; templates; analytics; settings; offices; vendors;
   projects; departments].

Definition DEFAULT_VIEW : ViewMode := dashboard.

Definition buildHashFromView (view : ViewMode) : string :=
  "#/" ++ ViewMode_text view.

(** [hash.replace(/^#\/?/, '')]. *)
Definition cleaned (hash : string) : string :=
  match hash with
  | String "#" (String "/" rest) => rest
  | String "#" rest => rest
  | _ => hash
  end.

Definition parseHashToView (hash : string) : ViewMode :=
  if hash =? "" then DEFAULT_VIEW
  else
    let candidate :=
      if cleaned hash =? "" then ViewMode_text DEFAULT_VIEW else cleaned hash in
    match List.find (fun v => ViewMode_text v =? candidate) ROUTABLE_VIEWS with
    | Some v => v
    | None => DEFAULT_VIEW
    end.

Definition isBranchAdmin (auth : Auth.t) : bool :=
  match Auth.memberRole auth with
  | Some branch_admin => true
  | _ => false
  end.

Definition enforceViewAccess (auth : Auth.t) (targetView : ViewMode)
  : ViewMode :=
  match targetView with
  | offices => if negb (Auth.isOrgAdmin auth) then DEFAULT_VIEW else targetView
  | departments => if negb (isBranchAdmin auth) then DEFAULT_VIEW else targetView
  | vendors | projects =>
      if negb (Auth.isOrgAdmin auth || isBranchAdmin auth)
      then DEFAULT_VIEW else targetView
  | _ => targetView
  end.

(** The state of [AppShell] that routing and saving touch, with the
    browser's [window.location.hash]. *)
Record t : Type := {
  view : ViewMode;
  inviteToken : option string;
  hash : string;
  agreements : list Agreement.t;
  agreementsLoading : bool;
  agreementsError : option string;
  editingAgreement : option Agreement.t
}.

Definition routed (s : t) (v : ViewMode) (token : option string)
    (h : string) : t :=
  {| view := v; inviteToken := token; hash := h;
     agreements := agreements s; agreementsLoading := agreementsLoading s;
     agreementsError := agreementsError s;
     editingAgreement := editingAgreement s |}.

Definition startsWith (prefix s : string) : bool :=
  String.prefix prefix s.

Definition ensureDefaultHash (s : t) : t :=
  if hash s =? ""
  then routed s (view s) (inviteToken s) (buildHashFromView DEFAULT_VIEW)
  else s.

Definition handleHashChange (auth : Auth.t) (s : t) : t :=
  let rawHash := hash s in
  if startsWith "#/invite/" rawHash
  then routed s (view s) (Js.known (nth_error (split_on "/" rawHash) 2)) rawHash
  else
    let parsedView := parseHashToView rawHash in
    let safeView := enforceViewAccess auth parsedView in
    routed s safeView None
      (if negb (ViewMode_eqb safeView parsedView)
       then
         if negb (rawHash =? buildHashFromView safeView)
         then buildHashFromView safeView else rawHash
       else rawHash).

Definition navigateTo (auth : Auth.t) (targetView : ViewMode) (s : t) : t :=
  let nextView := enforceViewAccess auth targetView in
  routed s nextView None
    (if negb (hash s =? buildHashFromView nextView)
     then buildHashFromView nextView else hash s).

Definition listing (s : t) (rows : list Agreement.t) (loading : bool)
    (error : option string) : t :=
  {| view := view s; inviteToken := inviteToken s; hash := hash s;
     agreements := rows; agreementsLoading := loading;
     agreementsError := error; editingAgreement := editingAgreement s |}.

(** [refreshAgreements]; [fails] tells whether the request fails. *)
Definition refreshAgreements (auth : Auth.t) (fails : bool) (db : Db.t)
    (s : t) : t :=
  match Auth.organization auth with
  | None => listing s [] (agreementsLoading s) (agreementsError s)
  | Some organization =>
      if org_id organization =? ""
      then listing s [] (agreementsLoading s) (agreementsError s)
      else if fails
      then listing s (agreements s) false
             (Some "Unable to load agreements right now.")
      else
        let filter :=
          if negb (Auth.isOrgAdmin auth) && Js.truthy (Auth.branchOfficeId auth)
          then Some {| opt_branchOfficeId := Auth.branchOfficeId auth;
                       opt_projectId := None |}
          else None in
        listing s
          (agreementService.fetchAgreementsForOrganization (Db.agreements db)
             (org_id organization) filter)
          false None
  end.



Definition handleOpenAgreement (auth : Auth.t) (agreement : Agreement.t)
    (s : t) : t :=
  navigateTo auth generator
    {| view := view s; inviteToken := inviteToken s; hash := hash s;
       agreements := agreements s; agreementsLoading := agreementsLoading s;
       agreementsError := agreementsError s;
       editingAgreement := Some agreement |}.

Definition handleCreateNew (auth : Auth.t) (s : t) : t :=
  navigateTo auth generator
    {| view := view s; inviteToken := inviteToken s; hash := hash s;
       agreements := agreements s; agreementsLoading := agreementsLoading s;
       agreementsError := agreementsError s;
       editingAgreement := None |}.

Definition handleSidebarNavigate (auth : Auth.t) (nextView : ViewMode)
    (s : t) : t :=
  match nextView with
  | generator => handleCreateNew auth s
  | _ => navigateTo auth nextView s
  end.

End App.

(* ------------------------------------------------------------------ *)
(** ** components/Sidebar.tsx *)

Module Sidebar.

(** The ids of [navItems], in the order they are shown; labels and
    icons only feed the rendering. *)
Definition navItems (isOrgAdmin : bool) (memberRole : option Role)
  : list App.ViewMode :=
  let isBranchAdmin :=
    match memberRole with
    | Some branch_admin => true
    | _ => false
    end in
  [App.dashboard; App.generator; App.templates; App.analytics]
  ++ (if isOrgAdmin || isBranchAdmin then [App.vendors] else [])
  ++ [App.settings]
  ++ (if isOrgAdmin then [App.offices] else [])
  ++ (if isBranchAdmin then [App.departments] else []).

End Sidebar.


(** A branch invite token as [crypto.randomUUID] gives it: not empty,
    and without a slash. *)
Fixpoint no_slash (s : string) : bool :=
  match s with
  | EmptyString => true
  | String c rest => negb (Ascii.eqb c "/") && no_slash rest
  end.

Module Staffed.

Definition clerk : OrganizationMember.t :=
  {| OrganizationMember.id := "m-2";
     OrganizationMember.organization_id := "org-1";
     OrganizationMember.user_id := "u-2";
     OrganizationMember.role := branch_admin;
     OrganizationMember.branch_office_id := Some "B1";
     OrganizationMember.department := Some "Legal";
     OrganizationMember.created_at := 6 |}.

(** Acme with one member besides its owner. *)
Definition db : Db.t :=
  {| Db.organizations := [Acme.org];
     Db.organization_members := [clerk];
     Db.branch_invites := []; Db.vendors := []; Db.projects := [];
     Db.agreements := [] |}.

Definition shell : App.t :=
  {| App.view := App.dashboard; App.inviteToken := None;
     App.hash := "#/offices"; App.agreements := [];
     App.agreementsLoading := false; App.agreementsError := None;
     App.editingAgreement := None |}.

(** Acme with the vendors, projects and agreements of two branches. *)
Definition records : Db.t :=
  {| Db.organizations := [Acme.org];
     Db.organization_members := [clerk];
     Db.branch_invites := [];
     Db.vendors := Listing.vendors;
     Db.projects := Listing.projects;
     Db.agreements := Listing.agreements |}.


Definition project_controls : ProjectManager.Controls :=
  {| ProjectManager.statusFilter := Some active;
     ProjectManager.scopeFilter := scope_all;
     ProjectManager.branchFilter := "all" |}.

End Staffed.


(* ================================================================== *)
(** * Properties *)

(* ------------------------------------------------------------------ *)
(** ** Scoped listings *)

Section QueryFacts.
Context {row : Type} `{Table row}.

Lemma filter_same (p q : row -> bool) (l : list row) :
  (forall x, p x = q x) -> List.filter p l = List.filter q l.
Proof.
  intros Hpq. induction l as [|x l IH]; simpl.
  - reflexivity.
  - rewrite Hpq, IH. reflexivity.
Qed.

End QueryFacts.

Lemma vendor_org_accepts (r : VendorRow.t) (o : string) :
  accepts (Eq "organization_id" o) r = (VendorRow.organization_id r =? o).
Proof. reflexivity. Qed.

Lemma project_org_accepts (r : ProjectRow.t) (o : string) :
  accepts (Eq "organization_id" o) r = (ProjectRow.organization_id r =? o).
Proof. reflexivity. Qed.

Lemma agreement_org_accepts (r : AgreementRow.t) (o : string) :
  accepts (Eq "organization_id" o) r = (AgreementRow.organization_id r =? o).
Proof. reflexivity. Qed.

(** Unfolds an awaited query down to the filter it runs. *)
Ltac open_query :=
  unfold run, where_, order_created_at_desc, from;
  cbn [is_scope_all negb q_from q_filters q_newest_first app].

(** Reduces the filters of a query on one row to tests on its fields. *)
Ltac filters_on_row :=
  unfold passes; cbn [forallb];
  rewrite ?vendor_org_accepts, ?project_org_accepts, ?agreement_org_accepts;
  cbn [accepts column vendors_table projects_table agreements_table];
  unfold VendorRow.col, ProjectRow.col, AgreementRow.col;
  cbn [String.eqb Ascii.eqb Bool.eqb].



(** The agreement listing has no scope argument: a known branch id
    selects that branch's rows only, otherwise every row of the
    organization is returned. *)
Lemma agreements_by_branch (agreements : list AgreementRow.t)
    (org : string) (b : option string) :
  (org =? "") = false ->
  agreementService.fetchAgreementsForOrganization agreements org
    (Some {| opt_branchOfficeId := b; opt_projectId := None |})
  = map agreementService.rowToAgreement
      (ScopeFilter.listing AgreementRow.organization_id
         AgreementRow.branch_office_id agreements org
         match Js.known b with
         | Some x => ScopeFilter.rule1 x
         | None => ScopeFilter.rule5
         end).
Proof.
  intros Horg. unfold agreementService.fetchAgreementsForOrganization.
  rewrite Horg. unfold ScopeFilter.listing. f_equal.
  unfold agreementService.agreementsQuery, agreementService.option_branch,
    agreementService.option_project.
  cbn [opt_branchOfficeId opt_projectId Js.known].
  destruct (Js.known b) as [x|];
    open_query; f_equal; apply filter_same; intros v; filters_on_row;
    destruct (AgreementRow.branch_office_id v);
    cbn [cell_of ScopeFilter.row_filter];
    rewrite ?andb_true_r, ?orb_false_r; reflexivity.
Qed.








(* ------------------------------------------------------------------ *)
(** ** Row conversion of agreements *)

Lemma nullish_array_not_null {A : Type} (j : jsonb A) :
  is_null (nullish_array j) = false.
Proof. destruct j; reflexivity. Qed.

Lemma nullish_array_defaults {A : Type} (j : jsonb A) :
  defaults_to_empty j (nullish_array j).
Proof.
  repeat split.
  - intros ->. reflexivity.
  - intros items ->. reflexivity.
  - destruct j; [congruence | reflexivity | reflexivity].
Qed.

Lemma upsertRow_stored (agreements : list AgreementRow.t) (a : Agreement.t)
    (org : string) (owner : option string) (now : nat) :
  In (snd (agreementService.upsertRow agreements a org owner now))
     (fst (agreementService.upsertRow agreements a org owner now)).
Proof.
  induction agreements as [|old rest IH]; simpl.
  - left. reflexivity.
  - destruct (AgreementRow.id old =? Agreement.id a).
    + left. reflexivity.
    + destruct (agreementService.upsertRow rest a org owner now) as [rest' row].
      right. exact IH.
Qed.

Lemma fetched_agreement_is_converted (agreements : list AgreementRow.t)
    (org : string) (options : option AgreementOptions) (a : Agreement.t) :
  In a (agreementService.fetchAgreementsForOrganization agreements org options) ->
  exists row, a = agreementService.rowToAgreement row.
Proof.
  unfold agreementService.fetchAgreementsForOrganization.
  destruct (org =? "").
  - intros [].
  - intros Hin. apply in_map_iff in Hin. destruct Hin as [row [<- _]].
    exists row. reflexivity.
Qed.

(** C10 (as amended).  Every agreement that
    [fetchAgreementsForOrganization] or [upsertAgreementForOrganization]
    returns is the conversion of a row, and conversion never shows null:
    sections, comments and auditLog are the empty array when the stored
    column is null and the stored value otherwise (an array whenever the
    stored value is one), tags is the stored array or the empty one,
    value is 0 and version is 1 when the stored number is null. *)
Theorem agreements_are_defaulted :
  (forall row : AgreementRow.t,
      let a := agreementService.rowToAgreement row in
      never_null a
      /\ defaults_to_empty (AgreementRow.sections row) (Agreement.sections a)
      /\ defaults_to_empty (AgreementRow.comments row) (Agreement.comments a)
      /\ defaults_to_empty (AgreementRow.audit_log row) (Agreement.auditLog a)
      /\ (AgreementRow.tags row = None -> Agreement.tags a = [])
      /\ (forall l, AgreementRow.tags row = Some l -> Agreement.tags a = l)
      /\ (AgreementRow.value row = None -> Agreement.value a = 0%Z)
      /\ (forall v, AgreementRow.value row = Some v -> Agreement.value a = v)
      /\ (AgreementRow.version row = None -> Agreement.version a = 1%Z)
      /\ (forall v, AgreementRow.version row = Some v -> Agreement.version a = v))
  /\ (forall agreements org options a,
         In a (agreementService.fetchAgreementsForOrganization
                 agreements org options) ->
         never_null a /\ exists row, a = agreementService.rowToAgreement row)
  /\ (forall agreements agreement org owner now,
         let result := agreementService.upsertAgreementForOrganization
                         agreements agreement org owner now in
         never_null (snd result)
         /\ exists row, In row (fst result)
                        /\ snd result = agreementService.rowToAgreement row).
Proof.
  assert (Hconv : forall row, never_null (agreementService.rowToAgreement row)).
  { intros row. unfold never_null. cbn [agreementService.rowToAgreement
      Agreement.sections Agreement.comments Agreement.auditLog].
    repeat split; apply nullish_array_not_null. }
  split; [|split].
  - intros row a. subst a. split; [apply Hconv|].
    cbn [agreementService.rowToAgreement Agreement.sections Agreement.comments
         Agreement.auditLog Agreement.tags Agreement.value Agreement.version].
    repeat split; try apply nullish_array_defaults;
      try (intros ->; reflexivity); try (intros ? ->; reflexivity);
      destruct (nullish_array_defaults (AgreementRow.sections row)) as [? [? ?]];
      destruct (nullish_array_defaults (AgreementRow.comments row)) as [? [? ?]];
      destruct (nullish_array_defaults (AgreementRow.audit_log row)) as [? [? ?]];
      auto.
  - intros agreements org options a Hin.
    destruct (fetched_agreement_is_converted _ _ _ _ Hin) as [row ->].
    split; [apply Hconv | exists row; reflexivity].
  - intros agreements agreement org owner now result. subst result.
    unfold agreementService.upsertAgreementForOrganization.
    pose proof (upsertRow_stored agreements agreement org owner now) as Hin.
    destruct (agreementService.upsertRow agreements agreement org owner now)
      as [rows data].
    cbn [fst snd] in *. split; [apply Hconv | exists data; split; auto].
Qed.

(** C10 as stated fails: a stored [sections] value that is a JSON object
    is returned as it is, which is not an array. *)
Lemma converted_sections_not_always_array :
  ~ (forall row : AgreementRow.t,
        all_arrays (agreementService.rowToAgreement row)).
Proof.
  intros claim.
  destruct (claim (Listing.agreement "a-obj" None (Jother "{}") 1)) as [Hs _].
  vm_compute in Hs. discriminate Hs.
Qed.

(* ------------------------------------------------------------------ *)
(** ** Membership resolution *)

Lemma members_by_user (members : list OrganizationMember.t) (u : string) :
  run (where_ (Eq "user_id" u) (from members)) = memberships_of_user members u.
Proof.
  open_query. unfold memberships_of_user. apply filter_same. intros r.
  unfold passes. cbn [forallb accepts column organization_members_table].
  unfold OrganizationMember.col. cbn [String.eqb Ascii.eqb Bool.eqb].
  apply andb_true_r.
Qed.

Lemma organizations_by_owner (db : Db.t) (u : string) :
  run (where_ (Eq "user_id" u) (from (Db.organizations db))) = owned_by db u.
Proof.
  open_query. unfold owned_by. apply filter_same. intros r.
  unfold passes. cbn [forallb accepts column organizations_table].
  cbn [String.eqb Ascii.eqb Bool.eqb]. apply andb_true_r.
Qed.

Lemma filter_nil_none {A : Type} (p : A -> bool) (l : list A) :
  List.filter p l = [] -> forall x, In x l -> p x = false.
Proof.
  induction l as [|y l IH]; simpl; intros Hnil x Hin.
  - destruct Hin.
  - destruct (p y) eqn:Hy; [discriminate|].
    destruct Hin as [<-|Hin]; auto.
Qed.

Lemma upsert_appends (members : list OrganizationMember.t)
    (payload : organizationService.MembershipPayload)
    (new_id : string) (now : nat) :
  (forall r, In r members ->
             organizationService.same_member_key payload r = false) ->
  exists row,
    organizationService.upsertMember members payload new_id now
    = (members ++ [row], row)
    /\ OrganizationMember.id row = new_id
    /\ OrganizationMember.user_id row = organizationService.mp_userId payload
    /\ OrganizationMember.organization_id row
       = organizationService.mp_organizationId payload
    /\ OrganizationMember.role row = organizationService.mp_role payload
    /\ OrganizationMember.branch_office_id row
       = organizationService.mp_branchOfficeId payload
    /\ OrganizationMember.department row
       = organizationService.mp_department payload
    /\ OrganizationMember.created_at row = now.
Proof.
  intros Hfree. induction members as [|old rest IH]; simpl.
  - eexists. split; [reflexivity|]. repeat split.
  - rewrite (Hfree old (or_introl eq_refl)).
    destruct IH as [row [Heq Hrow]].
    { intros r Hr. apply Hfree. right. exact Hr. }
    rewrite Heq. exists row. split; [reflexivity | exact Hrow].
Qed.

Lemma find_by_id (orgs : list Organization) (o : Organization) :
  In o orgs -> NoDup (map org_id orgs) ->
  List.find (fun x => org_id x =? org_id o) orgs = Some o.
Proof.
  induction orgs as [|x orgs IH]; simpl; intros Hin Hnd.
  - destruct Hin.
  - inversion Hnd as [|? ? Hnotin Hnd']; subst.
    destruct Hin as [->|Hin].
    + rewrite String.eqb_refl. reflexivity.
    + destruct (org_id x =? org_id o) eqn:Hx.
      * apply String.eqb_eq in Hx. exfalso. apply Hnotin. rewrite Hx.
        apply in_map. exact Hin.
      * apply IH; assumption.
Qed.

Lemma filter_none_in {A : Type} (p : A -> bool) (l : list A) :
  (forall x, In x l -> p x = false) -> List.filter p l = [].
Proof.
  induction l as [|y l IH]; simpl; intros Hnone.
  - reflexivity.
  - rewrite (Hnone y (or_introl eq_refl)). apply IH.
    intros x Hx. apply Hnone. right. exact Hx.
Qed.

Lemma filter_app_single {A : Type} (p : A -> bool) (l : list A) (x : A) :
  List.filter p l = [] -> p x = true -> List.filter p (l ++ [x]) = [x].
Proof.
  intros Hnil Hx. rewrite filter_app, Hnil. simpl. rewrite Hx. reflexivity.
Qed.

(** C7.  For a user who owns an organization and has no membership row,
    the first resolution appends exactly one org_admin membership for
    that user and organization and resolves to it; every later
    resolution resolves to the same membership and leaves the store as
    it is. *)
Theorem membership_synthesis_idempotent
    (db : Db.t) (u : string) (o : Organization)
    (new_id : string) (now : nat) (auth : Auth.t) :
  (u =? "") = false ->
  memberships_of_user (Db.organization_members db) u = [] ->
  owned_by db u = [o] ->
  NoDup (map org_id (Db.organizations db)) ->
  let first := AuthContext.hydrateMembership true (Some u) new_id now auth db in
  let row := synthesized new_id u (org_id o) now in
  snd first = Db.with_members db (Db.organization_members db ++ [row])
  /\ memberships_of (Db.organization_members (snd first)) u (org_id o) = [row]
  /\ fst first = {| Auth.organization := Some o;
                    Auth.memberRole := Some org_admin;
                    Auth.branchOfficeId := None |}
  /\ forall (new_id' : string) (now' : nat) (auth' : Auth.t),
       AuthContext.hydrateMembership true (Some u) new_id' now' auth' (snd first)
       = first.
Proof.
  intros Hu Hnone Howned Hids first row.
  assert (Hfree : forall r, In r (Db.organization_members db) ->
            (OrganizationMember.user_id r =? u) = false).
  { exact (filter_nil_none _ _ Hnone). }
  assert (Hfirst : first
            = ({| Auth.organization := Some o;
                  Auth.memberRole := Some org_admin;
                  Auth.branchOfficeId := None |},
               Db.with_members db (Db.organization_members db ++ [row]))).
  { subst first. unfold AuthContext.hydrateMembership.
    cbn [negb Js.known]. rewrite Hu.
    unfold organizationService.fetchMembershipForUser.
    rewrite members_by_user, Hnone. cbn [maybeSingle].
    rewrite organizations_by_owner, Howned. cbn [maybeSingle].
    unfold organizationService.ensureMembership.
    destruct (upsert_appends (Db.organization_members db)
                {| organizationService.mp_userId := u;
                   organizationService.mp_organizationId := org_id o;
                   organizationService.mp_role := org_admin;
                   organizationService.mp_branchOfficeId := None;
                   organizationService.mp_department := None |}
                new_id now) as [r [Heq Hr]].
    { intros r Hr. unfold organizationService.same_member_key.
      cbn [organizationService.mp_userId]. rewrite (Hfree r Hr). reflexivity. }
    rewrite Heq.
    cbn [organizationService.mp_userId organizationService.mp_organizationId
         organizationService.mp_role organizationService.mp_branchOfficeId
         organizationService.mp_department] in Hr.
    destruct Hr as [H1 [H2 [H3 [H4 [H5 [H6 H7]]]]]].
    assert (r = row) as ->.
    { subst row. unfold synthesized. destruct r; cbn in *. congruence. }
    reflexivity. }
  assert (Hrow_user : memberships_of_user
            (Db.organization_members db ++ [row]) u = [row]).
  { apply filter_app_single; [exact Hnone|].
    subst row. cbn. apply String.eqb_refl. }
  rewrite Hfirst. cbn [fst snd]. repeat split.
  - cbn [Db.with_members Db.organization_members].
    apply filter_app_single.
    + apply filter_none_in. intros x Hx. rewrite (Hfree x Hx). reflexivity.
    + subst row. cbn. rewrite !String.eqb_refl. reflexivity.
  - intros new_id' now' auth'. unfold AuthContext.hydrateMembership.
    cbn [negb Js.known]. rewrite Hu.
    unfold organizationService.fetchMembershipForUser.
    cbn [Db.with_members Db.organization_members].
    rewrite members_by_user, Hrow_user. cbn [maybeSingle].
    unfold organizationService.joined_organization.
    cbn [Db.organizations].
    assert (Hin : In o (Db.organizations db)).
    { assert (In o (owned_by db u)) as Hi by (rewrite Howned; left; reflexivity).
      unfold owned_by in Hi. apply filter_In in Hi. tauto. }
    subst row. cbn [synthesized OrganizationMember.organization_id].
    change (Db.organizations (Db.with_members db _))
      with (Db.organizations db).
    rewrite (find_by_id _ _ Hin Hids).
    reflexivity.
Qed.

Lemma membership_synthesis_idempotent_witness :
  let first :=
    AuthContext.hydrateMembership true (Some "u-1") "m-1" 9 Auth.signed_out
      Acme.dangling_org in
  Db.organization_members (snd first) = [synthesized "m-1" "u-1" "org-1" 9]
  /\ AuthContext.hydrateMembership true (Some "u-1") "m-2" 10 (fst first)
       (snd first) = first.
Proof.
  assert (Hids : NoDup (map org_id (Db.organizations Acme.dangling_org))).
  { constructor; [intros [] | constructor]. }
  destruct (membership_synthesis_idempotent Acme.dangling_org "u-1"
              Acme.org "m-1" 9 Auth.signed_out
              eq_refl eq_refl eq_refl Hids) as [Hdb [_ [_ Hagain]]].
  split.
  - rewrite Hdb. reflexivity.
  - apply Hagain.
Defined.

(* ------------------------------------------------------------------ *)
(** ** Invitation life cycle *)




Lemma invite_by_token (db : Db.t) (token : string) :
  organizationService.fetchInviteByToken db token
  = maybeSingle (invites_with_token db token).
Proof.
  unfold organizationService.fetchInviteByToken, invites_with_token.
  f_equal. open_query. apply filter_same. intros r.
  unfold passes. cbn [forallb accepts column branch_invites_table].
  unfold BranchInvite.col. cbn [String.eqb Ascii.eqb Bool.eqb].
  apply andb_true_r.
Qed.

Lemma filter_map_stable {A : Type} (p : A -> bool) (f : A -> A) (l : list A) :
  (forall x, p (f x) = p x) ->
  List.filter p (map f l) = map f (List.filter p l).
Proof.
  intros Hp. induction l as [|x l IH]; simpl.
  - reflexivity.
  - rewrite Hp. destruct (p x); simpl; rewrite IH; reflexivity.
Qed.

Lemma long_password (p : string) :
  6 <= String.length p ->
  ((p =? "") || (String.length p <? 6)%nat) = false.
Proof.
  intros Hlen. destruct (String.eqb_spec p "") as [->|_].
  - cbn in Hlen. lia.
  - cbn [orb]. apply Nat.ltb_ge. exact Hlen.
Qed.

(** An attempt on an invite that is found and not yet accepted goes
    through, whatever else its status is: the membership is upserted and
    the invite is marked accepted. *)
Lemma attempt_goes_through (db : Db.t) (token : string) (inv : BranchInvite.t)
    (p uid new_id : string) (now : nat) :
  invites_with_token db token = [inv] ->
  invites_with_id db (BranchInvite.id inv) = [inv] ->
  BranchInvite.status inv <> accepted ->
  6 <= String.length p ->
  (uid =? "") = false ->
  BranchInviteView.attempt token p p (SignUpData (Some uid)) new_id now db
  = (BranchInviteView.set_outcome
       (BranchInviteView.set_passwords
          (BranchInviteView.set_loaded BranchInviteView.mount None (Some inv))
          p p)
       None true,
     Db.with_invites
       (fst (organizationService.ensureMembership db
               (BranchInviteView.membershipFor inv uid) new_id now))
       (map (fun x => if BranchInvite.id x =? BranchInvite.id inv
                      then organizationService.acceptedRow x uid now else x)
            (Db.branch_invites db))).
Proof.
  intros Htok Hid Hstatus Hlen Huid.
  unfold BranchInviteView.attempt, BranchInviteView.loadInvite.
  rewrite invite_by_token, Htok. cbn [maybeSingle].
  assert (BranchInviteView.InviteStatus_eqb (BranchInvite.status inv) accepted
          = false) as ->.
  { destruct (BranchInvite.status inv); try reflexivity. congruence. }
  unfold BranchInviteView.handleAccept.
  cbn [BranchInviteView.set_passwords BranchInviteView.set_loaded
       BranchInviteView.inviteDetails BranchInviteView.password
       BranchInviteView.confirmPassword].
  rewrite (long_password p Hlen), String.eqb_refl. cbn [negb Js.known].
  rewrite Huid.
  destruct (organizationService.ensureMembership db
              (BranchInviteView.membershipFor inv uid) new_id now)
    as [db1 data] eqn:Hens.
  cbn [fst].
  assert (Hinv : Db.branch_invites db1 = Db.branch_invites db).
  { unfold organizationService.ensureMembership in Hens.
    destruct (organizationService.upsertMember (Db.organization_members db)
                (BranchInviteView.membershipFor inv uid) new_id now).
    injection Hens as <- _. reflexivity. }
  unfold organizationService.markInviteAccepted. rewrite Hinv.
  unfold invites_with_id in Hid. rewrite Hid. cbn [single].
  reflexivity.
Qed.



(** An attempt on a token that fetches no invite, or an accepted one,
    shows its message and writes nothing. *)
Lemma closed_invite_not_processed (db : Db.t) (token p c : string)
    (signUp : SignUp) (new_id : string) (now : nat) :
  (invites_with_token db token = []
   \/ exists inv, invites_with_token db token = [inv]
                  /\ BranchInvite.status inv = accepted) ->
  let result := BranchInviteView.attempt token p c signUp new_id now db in
  snd result = db
  /\ BranchInviteView.inviteDetails (fst result) = None
  /\ (invites_with_token db token = [] ->
      BranchInviteView.inviteError (fst result)
      = Some "This invitation could not be found or has been revoked.").
Proof.
  intros Hclosed. cbv zeta.
  unfold BranchInviteView.attempt, BranchInviteView.loadInvite.
  rewrite invite_by_token.
  destruct Hclosed as [Hnone | [inv [Hone Hacc]]].
  - rewrite Hnone. repeat split.
  - rewrite Hone. cbn [maybeSingle]. rewrite Hacc. repeat split.
    intros Hnone. discriminate Hnone.
Qed.

(** C2, at the failing input.  An invite in state revoked is loaded like
    a pending one: the form is shown with no error, and submitting it
    creates the membership and flips the invite from revoked to
    accepted. *)
Theorem revoked_invite_is_accepted :
  let opened :=
    BranchInviteView.loadInvite "tok-1" (Invited.db revoked)
      BranchInviteView.mount in
  let done :=
    BranchInviteView.attempt "tok-1" "s3cret!" "s3cret!"
      (SignUpData (Some "u-9")) "m-9" 20 (Invited.db revoked) in
  BranchInviteView.inviteError opened = None
  /\ BranchInviteView.inviteDetails opened = Some (Invited.invite revoked)
  /\ BranchInviteView.success (fst done) = true
  /\ map OrganizationMember.user_id (Db.organization_members (snd done))
     = ["u-9"]
  /\ map BranchInvite.status (Db.branch_invites (snd done)) = [accepted].
Proof.
  cbv zeta. repeat (split; [reflexivity|]). reflexivity.
Qed.

Lemma token_free (db : Db.t) (token : string) :
  organizationService.token_taken db token = false ->
  invites_with_token db token = [].
Proof.
  unfold organizationService.token_taken, invites_with_token.
  induction (Db.branch_invites db) as [|r l IH]; simpl.
  - reflexivity.
  - destruct (BranchInvite.invite_token r =? token); simpl.
    + discriminate.
    + exact IH.
Qed.

(** C8.  Once the invite row is inserted nothing rolls it back, whatever
    the mail function does: the table is the old one followed by the new
    row, that row is pending and is the one its token fetches, and the
    view holds the raw invite link.  When the mail function fails the
    view says so and asks to share the link by hand (unless reloading
    the list failed as well, whose message then shows). *)
Theorem invite_survives_mail_failure
    (organization : Organization) (office : BranchOffice)
    (world : InviteWorld) (ui : OfficeManager.t) (db : Db.t) :
  OfficeManager.selectedOffice ui = Some office ->
  (OfficeManager.inviteEmail ui =? "") = false ->
  organizationService.token_taken db (w_token world) = false ->
  let result :=
    OfficeManager.handleCreateInvite (Some organization) world ui db in
  let ui' := fst (fst result) in
  let db' := snd (fst result) in
  exists row,
    Db.branch_invites db' = Db.branch_invites db ++ [row]
    /\ BranchInvite.status row = pending
    /\ BranchInvite.invite_token row = w_token world
    /\ organizationService.fetchInviteByToken db' (w_token world)
       = Ok (Some row)
    /\ OfficeManager.inviteLink ui'
       = Some (OfficeManager.inviteLinkFor (w_origin world) (w_token world))
    /\ (w_mail_throws world = true -> w_refresh_error world = None ->
        OfficeManager.inviteError ui'
        = Some "Invite saved, but email delivery failed. Copy the link below and share it manually.").
Proof.
  intros Hoffice Hemail Hfree result ui' db'.
  subst ui' db' result. unfold OfficeManager.handleCreateInvite.
  rewrite Hoffice, Hemail. unfold organizationService.createBranchInvite.
  cbn [organizationService.ip_inviteToken]. rewrite Hfree.
  eexists.
  assert (Hfetch : forall row,
            BranchInvite.invite_token row = w_token world ->
            organizationService.fetchInviteByToken
              (Db.with_invites db (Db.branch_invites db ++ [row]))
              (w_token world) = Ok (Some row)).
  { intros row Hrow. rewrite invite_by_token. unfold invites_with_token.
    cbn [Db.with_invites Db.branch_invites].
    rewrite filter_app_single; [reflexivity | apply token_free; exact Hfree |].
    rewrite Hrow. apply String.eqb_refl. }
  destruct (w_refresh_error world) as [message|]; cbn [fst snd];
    cbn [Db.with_invites Db.branch_invites OfficeManager.update
         OfficeManager.inviteLink OfficeManager.inviteError
         BranchInvite.status BranchInvite.invite_token];
    (split; [reflexivity|]); (split; [reflexivity|]); (split; [reflexivity|]);
    (split; [apply Hfetch; reflexivity|]);
    (split; [reflexivity|]).
  - intros _ Hno. discriminate Hno.
  - intros Hmail _. rewrite Hmail. reflexivity.
Qed.

Lemma invite_survives_mail_failure_witness :
  let result :=
    OfficeManager.handleCreateInvite (Some Acme.org) InvitePanel.mail_down
      InvitePanel.panel (Invited.db accepted) in
  map BranchInvite.invite_token (Db.branch_invites (snd (fst result)))
  = ["tok-1"; "tok-2"]
  /\ OfficeManager.inviteLink (fst (fst result))
     = Some "https://lex.example/#/invite/tok-2"
  /\ OfficeManager.inviteError (fst (fst result))
     = Some "Invite saved, but email delivery failed. Copy the link below and share it manually.".
Proof.
  destruct (invite_survives_mail_failure Acme.org InvitePanel.nyc
              InvitePanel.mail_down InvitePanel.panel (Invited.db accepted)
              eq_refl eq_refl eq_refl)
    as [row [Hrows [_ [Htoken [_ [Hlink Hnotice]]]]]].
  split; [|split].
  - rewrite Hrows, map_app. cbn [map]. rewrite Htoken. reflexivity.
  - rewrite Hlink. reflexivity.
  - exact (Hnotice eq_refl eq_refl).
Defined.

(* ------------------------------------------------------------------ *)
(** ** Vendor documents *)

(** C6.  The cap is 3.  A batch of files that would take the vendor's
    documents above the cap is rejected as a whole before anything is
    uploaded or written: the row store, the object store and the listed
    vendors are what they were, and the view shows the cap message. *)
Theorem upload_over_cap_rejected
    (vendor : Vendor.t) (files : list File) (world : UploadWorld)
    (ui : VendorManager.t) (db : Db.t) (bucket : list string) :
  VendorManager.MAX_DOCUMENTS < length (Vendor.documents vendor) + length files ->
  let result :=
    VendorManager.handleUploadDocuments vendor (Some files) world ui db bucket in
  VendorManager.MAX_DOCUMENTS = 3
  /\ snd (fst result) = db
  /\ snd result = bucket
  /\ VendorManager.vendors (fst (fst result)) = VendorManager.vendors ui
  /\ (files <> [] ->
      VendorManager.docError (fst (fst result))
      = Some "You can upload up to 3 files per vendor.").
Proof.
  intros Hover result. subst result.
  unfold VendorManager.handleUploadDocuments.
  destruct files as [|file rest].
  - cbn [fst snd]. repeat split. intros Hne. exfalso. apply Hne. reflexivity.
  - apply Nat.ltb_lt in Hover. rewrite Hover. cbn [fst snd].
    repeat split.
Qed.

Lemma upload_over_cap_rejected_witness :
  let result :=
    VendorManager.handleUploadDocuments Globex.vendor
      (Some [Globex.pdf "a.pdf"; Globex.pdf "b.pdf"]) Globex.world
      Globex.page Globex.db [] in
  map VendorRow.documents (Db.vendors (snd (fst result)))
  = [Jarray [Globex.doc "d-1"; Globex.doc "d-2"]]
  /\ snd result = [].
Proof.
  destruct (upload_over_cap_rejected Globex.vendor
              [Globex.pdf "a.pdf"; Globex.pdf "b.pdf"] Globex.world
              Globex.page Globex.db []) as [_ [Hdb [Hbucket _]]].
  { cbn. unfold VendorManager.MAX_DOCUMENTS. lia. }
  split.
  - rewrite Hdb. reflexivity.
  - exact Hbucket.
Defined.

(** Under the cap the same call does upload and write: one more file
    on the fixture takes the stored list from two documents to three. *)
Example upload_within_cap :
  let result :=
    VendorManager.handleUploadDocuments Globex.vendor
      (Some [Globex.pdf "a.pdf"]) Globex.world Globex.page Globex.db [] in
  map (fun r => match VendorRow.documents r with
                | Jarray docs => map doc_name docs
                | _ => []
                end) (Db.vendors (snd (fst result)))
  = [["d-1"; "d-2"; "a.pdf"]]
  /\ snd result = ["v-1/a.pdf"].
Proof. split; reflexivity. Qed.

(* ------------------------------------------------------------------ *)
(** ** Write paths *)

(** The vendor form of the vendor manager writes the creator's own
    branch for everyone who is not an org admin, whatever the form
    says. *)
Lemma vendor_form_forces_own_branch (auth : Auth.t) (user : option string)
    (new_id : string) (now : nat) (ui : VendorManager.t) (db : Db.t) :
  Auth.isOrgAdmin auth = false ->
  appended (Db.vendors db)
    (Db.vendors (snd (VendorManager.handleCreateVendor auth user new_id now ui db)))
    (fun r => VendorRow.branch_office_id r = Auth.branchOfficeId auth).
Proof.
  intros Hrole. unfold VendorManager.handleCreateVendor. rewrite Hrole.
  destruct (Auth.organization auth) as [organization|]; [|left; reflexivity].
  destruct ((Js.trim (VendorManager.name (VendorManager.form ui)) =? "")
            || (Js.trim (VendorManager.tin (VendorManager.form ui)) =? ""));
    [left; reflexivity|].
  destruct (FormScope_eqb (VendorManager.scope (VendorManager.form ui)) form_branch
            && negb (Js.truthy (Some (VendorManager.branchOfficeId
                                        (VendorManager.form ui)))
                     || Js.truthy (Auth.branchOfficeId auth)));
    [left; reflexivity|].
  unfold vendorService.createVendor.
  destruct (vendorService.name_taken _ _ _); [left; reflexivity|].
  right. eexists. split; reflexivity.
Qed.

Lemma quick_vendor_forces_own_branch (auth : Auth.t) (user : option string)
    (new_id : string) (now : nat) (form : QuickVendorForm) (db : Db.t) :
  Auth.isOrgAdmin auth = false ->
  appended (Db.vendors db)
    (Db.vendors
       (snd (AgreementGenerator.handleQuickVendorSave auth user new_id now form db)))
    (fun r => VendorRow.branch_office_id r = Auth.branchOfficeId auth).
Proof.
  intros Hrole. unfold AgreementGenerator.handleQuickVendorSave. rewrite Hrole.
  destruct (Auth.organization auth) as [organization|]; [|left; reflexivity].
  destruct ((Js.trim (qv_name form) =? "") || (Js.trim (qv_tin form) =? ""));
    [left; reflexivity|].
  destruct (FormScope_eqb (qv_scope form) form_branch
            && negb (Js.truthy (Auth.branchOfficeId auth)));
    [left; reflexivity|].
  unfold vendorService.createVendor.
  destruct (vendorService.name_taken _ _ _); [left; reflexivity|].
  right. eexists. split; reflexivity.
Qed.

Lemma quick_project_forces_own_branch (auth : Auth.t) (user : option string)
    (new_id : string) (now : nat) (form : QuickProjectForm) (db : Db.t) :
  Auth.isOrgAdmin auth = false ->
  appended (Db.projects db)
    (Db.projects
       (snd (AgreementGenerator.handleQuickProjectSave auth user new_id now form db)))
    (fun r => ProjectRow.branch_office_id r = Auth.branchOfficeId auth).
Proof.
  intros Hrole. unfold AgreementGenerator.handleQuickProjectSave. rewrite Hrole.
  destruct (Auth.organization auth) as [organization|]; [|left; reflexivity].
  destruct (Js.trim (qp_name form) =? ""); [left; reflexivity|].
  destruct (FormScope_eqb (qp_scope form) form_branch
            && negb (Js.truthy (Auth.branchOfficeId auth)));
    [left; reflexivity|].
  unfold projectService.createProject.
  destruct (projectService.name_taken _ _ _); [left; reflexivity|].
  right. eexists. split; reflexivity.
Qed.

Lemma upsertRow_branch (agreements : list AgreementRow.t) (a : Agreement.t)
    (org : string) (owner : option string) (now : nat) :
  AgreementRow.branch_office_id
    (snd (agreementService.upsertRow agreements a org owner now))
  = Agreement.branchOfficeId a.
Proof.
  induction agreements as [|old rest IH]; simpl.
  - reflexivity.
  - destruct (AgreementRow.id old =? Agreement.id a).
    + reflexivity.
    + destruct (agreementService.upsertRow rest a org owner now). exact IH.
Qed.

Lemma upsertRow_id (agreements : list AgreementRow.t) (a : Agreement.t)
    (org : string) (owner : option string) (now : nat) :
  AgreementRow.id (snd (agreementService.upsertRow agreements a org owner now))
  = Agreement.id a.
Proof.
  induction agreements as [|old rest IH]; simpl.
  - reflexivity.
  - destruct (AgreementRow.id old =? Agreement.id a).
    + reflexivity.
    + destruct (agreementService.upsertRow rest a org owner now). exact IH.
Qed.

(** A new agreement is stored under the creator's own branch. *)
Lemma new_agreement_takes_own_branch (auth : Auth.t) (user : option string)
    (world : AgreementGenerator.SaveWorld) (editor : AgreementGenerator.Editor)
    (db : Db.t) :
  let result := AgreementGenerator.handleSave auth user None world editor db in
  snd result = db
  \/ exists row, In row (Db.agreements (snd result))
                 /\ AgreementRow.id row = AgreementGenerator.s_generateId world
                 /\ AgreementRow.branch_office_id row = Auth.branchOfficeId auth.
Proof.
  cbv zeta. unfold AgreementGenerator.handleSave.
  destruct (Auth.organization auth) as [organization|]; [|left; reflexivity].
  destruct (org_id organization =? ""); [left; reflexivity|].
  unfold agreementService.upsertAgreementForOrganization.
  pose proof (upsertRow_stored (Db.agreements db)
                (AgreementGenerator.newAgreement auth None world editor)
                (org_id organization) user (AgreementGenerator.s_now world)) as Hin.
  pose proof (upsertRow_branch (Db.agreements db)
                (AgreementGenerator.newAgreement auth None world editor)
                (org_id organization) user (AgreementGenerator.s_now world)) as Hb.
  pose proof (upsertRow_id (Db.agreements db)
                (AgreementGenerator.newAgreement auth None world editor)
                (org_id organization) user (AgreementGenerator.s_now world)) as Hid.
  change (Agreement.id (AgreementGenerator.newAgreement auth None world editor))
    with (AgreementGenerator.s_generateId world) in Hid.
  destruct (agreementService.upsertRow (Db.agreements db)
              (AgreementGenerator.newAgreement auth None world editor)
              (org_id organization) user (AgreementGenerator.s_now world))
    as [rows data].
  cbn [fst snd] in *. right. exists data. repeat split; try assumption.
  rewrite Hb. cbn. destruct (Auth.branchOfficeId auth); reflexivity.
Qed.


(* ------------------------------------------------------------------ *)
(** ** Template visibility *)

Section TemplateSave.
Variable table : Type.
Variable saveTemplate : Template.t -> table -> outcome (table * Template.t).

(** Whatever [handleSave] hands to the store carries the visibility and
    the branch the handler computed from the role. *)
Lemma handleSave_sends (auth : Auth.t) (user : option string)
    (uuid : string) (now : nat) (ui : TemplateBuilder.t) (templates : table)
    (payload : Template.t) :
  snd (TemplateBuilder.handleSave saveTemplate auth user uuid now ui templates)
  = Some payload ->
  (Auth.memberRole auth = Some org_admin
   /\ Template.visibility payload
      = TemplateBuilder.visibility (TemplateBuilder.templateMeta ui)
   \/ Auth.memberRole auth <> Some org_admin
      /\ Template.visibility payload = vis_branch)
  /\ (Template.visibility payload = vis_branch ->
      Template.branch_office_id payload = Auth.branchOfficeId auth
      /\ Js.truthy (Auth.branchOfficeId auth) = true)
  /\ (Template.visibility payload = vis_organization ->
      Template.branch_office_id payload = None).
Proof.
  unfold TemplateBuilder.handleSave.
  destruct (Auth.organization auth) as [organization|]; [|discriminate].
  destruct user as [u|]; [|discriminate].
  destruct (Js.trim (TemplateBuilder.name (TemplateBuilder.templateMeta ui)) =? "");
    [discriminate|].
  destruct (Auth.memberRole auth) as [[| |]|];
    try destruct (TemplateBuilder.visibility (TemplateBuilder.templateMeta ui));
    cbn [Visibility_eqb andb];
    try (destruct (Js.truthy (Auth.branchOfficeId auth)) eqn:Hb;
         cbn [negb]; [|discriminate]);
    destruct (saveTemplate _ templates) as [[templates' saved]|message];
    cbn [snd]; intros [= <-]; cbn [Template.visibility Template.branch_office_id];
    repeat split; try discriminate; try congruence;
    try (left; split; reflexivity);
    try (right; split; [discriminate | reflexivity]).
Qed.

End TemplateSave.

(** C3.  When a branch admin saves a template, whatever visibility the
    client supplied, the template handed to the store has visibility
    branch and the branch admin's own branch; a save is made whenever
    organization, user, name and branch are present; with no branch
    context the save is refused with its message and nothing is written.
    A template with visibility organization only ever comes from an
    org admin whose toggle says organization. *)
Theorem branch_admin_templates_are_branch_scoped
    (table : Type)
    (saveTemplate : Template.t -> table -> outcome (table * Template.t))
    (auth : Auth.t) (user : option string) (uuid : string) (now : nat)
    (ui : TemplateBuilder.t) (templates : table) :
  let result :=
    TemplateBuilder.handleSave saveTemplate auth user uuid now ui templates in
  let named :=
    Js.trim (TemplateBuilder.name (TemplateBuilder.templateMeta ui)) =? "" in
  (Auth.memberRole auth = Some branch_admin ->
   (forall payload, snd result = Some payload ->
      Template.visibility payload = vis_branch
      /\ Template.branch_office_id payload = Auth.branchOfficeId auth
      /\ Js.truthy (Auth.branchOfficeId auth) = true)
   /\ (Js.truthy (Auth.branchOfficeId auth) = false ->
       snd result = None /\ snd (fst result) = templates)
   /\ (forall organization u,
         Auth.organization auth = Some organization -> user = Some u ->
         named = false ->
         (Js.truthy (Auth.branchOfficeId auth) = true ->
          exists payload, snd result = Some payload)
         /\ (Js.truthy (Auth.branchOfficeId auth) = false ->
             TemplateBuilder.error (fst (fst result))
             = Some "Branch templates require a branch office context.")))
  /\ (forall payload, snd result = Some payload ->
        Template.visibility payload = vis_organization ->
        Auth.memberRole auth = Some org_admin
        /\ TemplateBuilder.visibility (TemplateBuilder.templateMeta ui)
           = vis_organization).
Proof.
  intros result named. split.
  - intros Hrole. split; [|split].
    + intros payload Hsent.
      destruct (handleSave_sends table saveTemplate auth user uuid now ui
                  templates payload Hsent) as [Hvis [Hbranch _]].
      destruct Hvis as [[Hadmin _]|[_ Hvis]]; [congruence|].
      destruct (Hbranch Hvis) as [Hb Ht]. auto.
    + intros Hnone. subst result. unfold TemplateBuilder.handleSave.
      rewrite Hrole. cbn [Visibility_eqb andb]. rewrite Hnone.
      destruct (Auth.organization auth); [|split; reflexivity].
      destruct user; [|split; reflexivity].
      destruct (Js.trim _ =? ""); split; reflexivity.
    + intros organization u Horg Huser Hnamed. subst result named.
      unfold TemplateBuilder.handleSave.
      rewrite Hrole, Horg, Huser, Hnamed. cbn [Visibility_eqb andb].
      split; intros Hb; rewrite Hb; cbn [negb].
      * destruct (saveTemplate _ templates) as [[templates' saved]|message];
          eexists; reflexivity.
      * reflexivity.
  - intros payload Hsent Hvis.
    destruct (handleSave_sends table saveTemplate auth user uuid now ui
                templates payload Hsent) as [[[Hadmin Hmeta]|[_ Hbranch]] _].
    + split; [exact Hadmin | congruence].
    + congruence.
Qed.

Lemma branch_admin_templates_are_branch_scoped_witness :
  let result :=
    TemplateBuilder.handleSave Writers.keep Writers.branch_admin_B1
      (Some "u-2") "t-1" 60 Writers.org_wide_template [] in
  Auth.memberRole Writers.branch_admin_B1 = Some branch_admin
  /\ map Template.visibility (snd (fst result)) = [vis_branch]
  /\ map Template.branch_office_id (snd (fst result)) = [Some "B1"].
Proof.
  destruct (branch_admin_templates_are_branch_scoped (list Template.t)
              Writers.keep Writers.branch_admin_B1 (Some "u-2") "t-1" 60
              Writers.org_wide_template []) as [Hbranch _].
  destruct (Hbranch eq_refl) as [Hsent _].
  destruct (Hsent _ eq_refl) as [Hvis [Hb _]].
  split; [reflexivity|]. split.
  - exact (f_equal (fun v => [v]) Hvis).
  - exact (f_equal (fun v => [v]) Hb).
Defined.

Lemma agreements_are_defaulted_witness :
  let a :=
    agreementService.rowToAgreement
      (Listing.agreement "a-org" None Jnull 2) in
  Agreement.sections a = Jarray []
  /\ Agreement.tags a = []
  /\ Agreement.value a = 0%Z
  /\ Agreement.version a = 1%Z.
Proof.
  destruct agreements_are_defaulted as [Hrow _].
  destruct (Hrow (Listing.agreement "a-org" None Jnull 2))
    as [_ [[Hs _] [_ [_ [Ht [_ [Hv [_ [Hn _]]]]]]]]].
  intros a.
  split; [apply Hs; reflexivity|].
  split; [apply Ht; reflexivity|].
  split; [apply Hv; reflexivity | apply Hn; reflexivity].
Defined.

(* ================================================================== *)
(** * Further properties of the services and views *)

(* ------------------------------------------------------------------ *)
(** ** What a listing returns *)

Section RunFacts.
Context {row : Type} `{Table row}.

Lemma In_insert_desc (r x : row) (l : list row) :
  In x (insert_desc r l) <-> x = r \/ In x l.
Proof.
  induction l as [|y l IH]; simpl.
  - intuition congruence.
  - destruct (created y <=? created r)%nat; simpl.
    + intuition congruence.
    + rewrite IH. intuition congruence.
Qed.

Lemma In_order_desc (x : row) (l : list row) :
  In x (order_desc l) <-> In x l.
Proof.
  induction l as [|y l IH]; simpl.
  - tauto.
  - unfold order_desc in *. simpl. rewrite In_insert_desc, IH.
    intuition congruence.
Qed.

Lemma In_run (q : query) (x : row) :
  In x (run q) <-> In x (q_from q) /\ passes (q_filters q) x = true.
Proof.
  unfold run. destruct (q_newest_first q).
  - rewrite In_order_desc. apply filter_In.
  - apply filter_In.
Qed.

Lemma insert_desc_sorted (r : row) (l : list row) :
  newest_first (map created l) -> newest_first (map created (insert_desc r l)).
Proof.
  unfold newest_first. induction l as [|y l IH]; simpl; intros Hs.
  - constructor; constructor.
  - destruct (created y <=? created r)%nat eqn:Hle; simpl.
    + apply Nat.leb_le in Hle. constructor; [exact Hs|].
      inversion Hs as [|? ? Hs' Hall]; subst.
      constructor; [exact Hle|].
      rewrite Forall_forall in *. intros t Ht. specialize (Hall t Ht). lia.
    + apply Nat.leb_gt in Hle.
      inversion Hs as [|? ? Hs' Hall]; subst.
      constructor; [apply IH; exact Hs'|].
      rewrite Forall_forall in *. intros t Ht.
      apply in_map_iff in Ht. destruct Ht as [z [<- Hz]].
      apply In_insert_desc in Hz. destruct Hz as [->|Hz].
      * lia.
      * apply Hall. apply in_map. exact Hz.
Qed.

Lemma order_desc_sorted (l : list row) :
  newest_first (map created (order_desc l)).
Proof.
  induction l as [|y l IH].
  - constructor.
  - unfold order_desc in *. simpl. apply insert_desc_sorted. exact IH.
Qed.

Lemma run_sorted (q : query) :
  q_newest_first q = true -> newest_first (map created (run q)).
Proof.
  intros Hq. unfold run. rewrite Hq. apply order_desc_sorted.
Qed.

End RunFacts.

Lemma passes_cons {row : Type} `{Table row} (f : filter) (fs : list filter)
    (r : row) :
  passes (f :: fs) r = accepts f r && passes fs r.
Proof. reflexivity. Qed.

Lemma passes_snoc {row : Type} `{Table row} (f : filter) (fs : list filter)
    (r : row) :
  passes (fs ++ [f]) r = passes fs r && accepts f r.
Proof.
  unfold passes. rewrite forallb_app. simpl. rewrite andb_true_r. reflexivity.
Qed.

Lemma vendorsQuery_shape (vendors : list VendorRow.t) (params : ScopeParams) :
  q_from (vendorService.vendorsQuery vendors params) = vendors
  /\ q_newest_first (vendorService.vendorsQuery vendors params) = true
  /\ exists rest,
       q_filters (vendorService.vendorsQuery vendors params)
       = Eq "organization_id" (organizationId params) :: rest.
Proof.
  unfold vendorService.vendorsQuery.
  destruct (scope params) as [[| |]|];
    destruct (Js.known (branchOfficeId params));
    cbn; repeat split; eexists; reflexivity.
Qed.

Lemma projectsQuery_shape (projects : list ProjectRow.t) (params : ScopeParams)
    (statuses : option (list ProjectStatus)) :
  q_from (projectService.projectsQuery projects params statuses) = projects
  /\ q_newest_first (projectService.projectsQuery projects params statuses)
     = true
  /\ exists rest,
       q_filters (projectService.projectsQuery projects params statuses)
       = Eq "organization_id" (organizationId params) :: rest.
Proof.
  unfold projectService.projectsQuery.
  destruct (scope params) as [[| |]|];
    destruct (Js.known (branchOfficeId params));
    destruct statuses as [[|st sts]|];
    cbn; repeat split; eexists; reflexivity.
Qed.

Lemma agreementsQuery_shape (agreements : list AgreementRow.t) (org : string)
    (options : option AgreementOptions) :
  q_from (agreementService.agreementsQuery agreements org options) = agreements
  /\ q_newest_first (agreementService.agreementsQuery agreements org options)
     = true
  /\ exists rest,
       q_filters (agreementService.agreementsQuery agreements org options)
       = Eq "organization_id" org :: rest.
Proof.
  unfold agreementService.agreementsQuery.
  destruct (Js.known (agreementService.option_branch options));
    destruct (Js.known (agreementService.option_project options));
    cbn; repeat split; eexists; reflexivity.
Qed.

(** X1.  A listing never leaves the organization it was asked for:
    whatever the scope, the branch id, the status filter or the options,
    every vendor, project or agreement returned is the conversion of a
    stored row of that organization. *)
Theorem listings_stay_in_organization
    (vendors : list VendorRow.t) (projects : list ProjectRow.t)
    (agreements : list AgreementRow.t) (params : ScopeParams)
    (statuses : option (list ProjectStatus))
    (options : option AgreementOptions) :
  (forall v, In v (vendorService.fetchVendors vendors params) ->
     Vendor.organization_id v = organizationId params
     /\ exists row, In row vendors /\ v = vendorService.rowToVendor row)
  /\ (forall p, In p (projectService.fetchProjects projects params statuses) ->
        Project.organization_id p = organizationId params
        /\ exists row, In row projects /\ p = projectService.rowToProject row)
  /\ (forall a,
        In a (agreementService.fetchAgreementsForOrganization agreements
                (organizationId params) options) ->
        exists row, In row agreements
                    /\ AgreementRow.organization_id row = organizationId params
                    /\ a = agreementService.rowToAgreement row).
Proof.
  split; [|split].
  - intros v Hv. unfold vendorService.fetchVendors in Hv.
    apply in_map_iff in Hv. destruct Hv as [row [<- Hrow]].
    apply In_run in Hrow. destruct Hrow as [Hin Hpass].
    destruct (vendorsQuery_shape vendors params) as [Hfrom [_ [rest Hfs]]].
    rewrite Hfrom in Hin. rewrite Hfs, passes_cons in Hpass.
    apply andb_prop in Hpass. destruct Hpass as [Horg _].
    rewrite vendor_org_accepts in Horg. apply String.eqb_eq in Horg.
    split; [exact Horg | exists row; split; [exact Hin | reflexivity]].
  - intros p Hp. unfold projectService.fetchProjects in Hp.
    apply in_map_iff in Hp. destruct Hp as [row [<- Hrow]].
    apply In_run in Hrow. destruct Hrow as [Hin Hpass].
    destruct (projectsQuery_shape projects params statuses)
      as [Hfrom [_ [rest Hfs]]].
    rewrite Hfrom in Hin. rewrite Hfs, passes_cons in Hpass.
    apply andb_prop in Hpass. destruct Hpass as [Horg _].
    rewrite project_org_accepts in Horg. apply String.eqb_eq in Horg.
    split; [exact Horg | exists row; split; [exact Hin | reflexivity]].
  - intros a Ha. unfold agreementService.fetchAgreementsForOrganization in Ha.
    destruct (organizationId params =? ""); [destruct Ha|].
    apply in_map_iff in Ha. destruct Ha as [row [<- Hrow]].
    apply In_run in Hrow. destruct Hrow as [Hin Hpass].
    destruct (agreementsQuery_shape agreements (organizationId params) options)
      as [Hfrom [_ [rest Hfs]]].
    rewrite Hfrom in Hin. rewrite Hfs, passes_cons in Hpass.
    apply andb_prop in Hpass. destruct Hpass as [Horg _].
    rewrite agreement_org_accepts in Horg. apply String.eqb_eq in Horg.
    exists row. repeat split; assumption.
Qed.

(** X2.  Every listing is ordered newest first: the creation times of
    the vendors, projects and agreements returned never increase along
    the list, whatever filters were asked for. *)
Theorem listings_are_newest_first
    (vendors : list VendorRow.t) (projects : list ProjectRow.t)
    (agreements : list AgreementRow.t) (params : ScopeParams)
    (statuses : option (list ProjectStatus)) (org : string)
    (options : option AgreementOptions) :
  newest_first (map Vendor.created_at (vendorService.fetchVendors vendors params))
  /\ newest_first
       (map Project.created_at
          (projectService.fetchProjects projects params statuses))
  /\ newest_first
       (map Agreement.createdAt
          (agreementService.fetchAgreementsForOrganization agreements org
             options)).
Proof.
  split; [|split].
  - unfold vendorService.fetchVendors. rewrite map_map.
    destruct (vendorsQuery_shape vendors params) as [_ [Hnew _]].
    exact (run_sorted _ Hnew).
  - unfold projectService.fetchProjects. rewrite map_map.
    destruct (projectsQuery_shape projects params statuses) as [_ [Hnew _]].
    exact (run_sorted _ Hnew).
  - unfold agreementService.fetchAgreementsForOrganization.
    destruct (org =? ""); [constructor|]. rewrite map_map.
    destruct (agreementsQuery_shape agreements org options) as [_ [Hnew _]].
    exact (run_sorted _ Hnew).
Qed.

Lemma listings_stay_in_organization_witness :
  let v := vendorService.rowToVendor (Listing.vendor "v-b1" (Some "B1") 1) in
  In v (vendorService.fetchVendors Listing.vendors Listing.member_default)
  /\ Vendor.organization_id v = "org-1".
Proof.
  intros v.
  assert (Hin : In v (vendorService.fetchVendors Listing.vendors
                        Listing.member_default)).
  { right. left. reflexivity. }
  split; [exact Hin|].
  destruct (listings_stay_in_organization Listing.vendors Listing.projects
              Listing.agreements Listing.member_default None None)
    as [Hvendors _].
  destruct (Hvendors v Hin) as [Horg _]. exact Horg.
Defined.

Lemma ProjectStatus_text_inj (a b : ProjectStatus) :
  ProjectStatus_text a = ProjectStatus_text b -> a = b.
Proof. destruct a, b; simpl; intros E; try reflexivity; discriminate E. Qed.

Lemma status_filter_accepts (row : ProjectRow.t) (sts : list ProjectStatus) :
  accepts (In_ "status" (map ProjectStatus_text sts)) row = true ->
  In (ProjectRow.status row) sts.
Proof.
  cbn [accepts column projects_table]. unfold ProjectRow.col.
  cbn [String.eqb Ascii.eqb Bool.eqb]. intros Hex.
  apply existsb_exists in Hex. destruct Hex as [text [Hin Heq]].
  apply String.eqb_eq in Heq. apply in_map_iff in Hin.
  destruct Hin as [st [Htext Hst]]. subst text.
  apply ProjectStatus_text_inj in Heq. subst st. exact Hst.
Qed.

(** X3.  The status filter of the project listing: with a non-empty
    list of statuses every project returned has one of them; an empty
    list filters nothing, exactly as when no list is given. *)
Theorem project_status_filter
    (projects : list ProjectRow.t) (params : ScopeParams) :
  projectService.fetchProjects projects params (Some [])
  = projectService.fetchProjects projects params None
  /\ forall (st : ProjectStatus) (sts : list ProjectStatus) (p : Project.t),
       In p (projectService.fetchProjects projects params (Some (st :: sts))) ->
       In (Project.status p) (st :: sts)
       /\ In p (projectService.fetchProjects projects params None).
Proof.
  split; [reflexivity|].
  intros st sts p Hp. unfold projectService.fetchProjects in *.
  apply in_map_iff in Hp. destruct Hp as [row [<- Hrow]].
  apply In_run in Hrow. destruct Hrow as [Hin Hpass].
  assert (Hq : q_filters (projectService.projectsQuery projects params
                            (Some (st :: sts)))
               = q_filters (projectService.projectsQuery projects params None)
                 ++ [In_ "status" (map ProjectStatus_text (st :: sts))]
               /\ q_from (projectService.projectsQuery projects params
                            (Some (st :: sts)))
                  = q_from (projectService.projectsQuery projects params None)).
  { unfold projectService.projectsQuery.
    destruct (scope params) as [[| |]|];
      destruct (Js.known (branchOfficeId params)); cbn; split; reflexivity. }
  destruct Hq as [Hfs Hfrom]. rewrite Hfs, passes_snoc in Hpass.
  apply andb_prop in Hpass. destruct Hpass as [Hbase Hstatus].
  split.
  - exact (status_filter_accepts row (st :: sts) Hstatus).
  - apply in_map. apply In_run. rewrite <- Hfrom. split; assumption.
Qed.

Lemma project_status_filter_witness :
  let only_active :=
    projectService.fetchProjects Listing.projects Listing.member_default
      (Some [active]) in
  map Project.id only_active = ["p-org"; "p-b1"]
  /\ forall p, In p only_active -> In (Project.status p) [active].
Proof.
  intros only_active. split; [reflexivity|].
  intros p Hp.
  destruct (project_status_filter Listing.projects Listing.member_default)
    as [_ Hfilter].
  exact (proj1 (Hfilter active [] p Hp)).
Defined.

(** X4.  The agreements of a project: for a non-empty project id every
    agreement returned carries that id; an empty organization id returns
    nothing; an empty project id adds no filter, so that all agreements
    of the organization are returned. *)
Theorem agreements_of_a_project
    (agreements : list AgreementRow.t) (org project : string) :
  ((project =? "") = false ->
   forall a,
     In a (agreementService.fetchAgreementsForProject agreements org project) ->
     Agreement.projectId a = Some project)
  /\ agreementService.fetchAgreementsForProject agreements "" project = []
  /\ agreementService.fetchAgreementsForProject agreements org ""
     = agreementService.fetchAgreementsForOrganization agreements org None.
Proof.
  split; [|split].
  - intros Hproject a Ha.
    unfold agreementService.fetchAgreementsForProject,
      agreementService.fetchAgreementsForOrganization in Ha.
    destruct (org =? ""); [destruct Ha|].
    apply in_map_iff in Ha. destruct Ha as [row [<- Hrow]].
    apply In_run in Hrow. destruct Hrow as [_ Hpass].
    unfold agreementService.agreementsQuery in Hpass.
    cbn [agreementService.option_branch agreementService.option_project
         opt_branchOfficeId opt_projectId Js.known] in Hpass.
    rewrite Hproject in Hpass.
    cbn [order_created_at_desc where_ from q_filters app] in Hpass.
    rewrite !passes_cons in Hpass.
    apply andb_prop in Hpass. destruct Hpass as [_ Hpass].
    apply andb_prop in Hpass. destruct Hpass as [Hpass _].
    cbn [accepts column agreements_table] in Hpass.
    unfold AgreementRow.col in Hpass.
    cbn [String.eqb Ascii.eqb Bool.eqb] in Hpass.
    cbn [agreementService.rowToAgreement Agreement.projectId].
    destruct (AgreementRow.project_id row) as [stored|]; [|discriminate].
    cbn [cell_of] in Hpass. apply String.eqb_eq in Hpass. subst stored.
    unfold Js.or_else, Js.known. rewrite Hproject. reflexivity.
  - reflexivity.
  - reflexivity.
Qed.

Lemma agreements_of_a_project_witness :
  map Agreement.id
    (agreementService.fetchAgreementsForProject Portfolio.rows "org-1" "p-1")
  = ["a-p1"]
  /\ forall a,
       In a (agreementService.fetchAgreementsForProject Portfolio.rows
               "org-1" "p-1") ->
       Agreement.projectId a = Some "p-1".
Proof.
  split; [reflexivity|].
  destruct (agreements_of_a_project Portfolio.rows "org-1" "p-1") as [Hall _].
  exact (Hall eq_refl).
Defined.

(* ------------------------------------------------------------------ *)
(** ** Saving an agreement *)



Lemma or_else_known (x : option string) : Js.or_else x None = Js.known x.
Proof. unfold Js.or_else. destruct (Js.known x); reflexivity. Qed.










(* ------------------------------------------------------------------ *)
(** ** Creating and deleting vendors and projects *)

Lemma existsb_filter_nil {A : Type} (p : A -> bool) (l : list A) :
  existsb p l = false <-> List.filter p l = [].
Proof.
  induction l as [|x l IH]; simpl.
  - tauto.
  - destruct (p x); simpl.
    + split; discriminate.
    + exact IH.
Qed.

Lemma filter_negb_all {A : Type} (p : A -> bool) (l : list A) :
  (forall x, In x l -> p x = false) ->
  List.filter (fun x => negb (p x)) l = l.
Proof.
  induction l as [|y l IH]; simpl; intros Hall.
  - reflexivity.
  - rewrite (Hall y (or_introl eq_refl)). simpl. f_equal.
    apply IH. intros x Hx. apply Hall. right. exact Hx.
Qed.

(** X7.  Vendor names are unique within an organization.  Creating a
    vendor whose name the organization already uses fails; otherwise the
    row is appended under the generated id, the names stay unique, a
    second creation with the same payload fails, and deleting the new id
    (when no older row has it) gives back the table as it was. *)
Theorem vendor_creation_keeps_names_unique
    (vendors : list VendorRow.t) (payload : vendorService.VendorPayload)
    (new_id : string) (now : nat) :
  match vendorService.createVendor vendors payload new_id now with
  | Err _ =>
      vendorService.name_taken vendors
        (vendorService.vp_organizationId payload)
        (vendorService.vp_name payload) = true
  | Ok (after, vendor) =>
      vendorService.name_taken vendors
        (vendorService.vp_organizationId payload)
        (vendorService.vp_name payload) = false
      /\ (exists row, after = vendors ++ [row]
                      /\ vendor = vendorService.rowToVendor row
                      /\ VendorRow.id row = new_id
                      /\ VendorRow.documents row
                         = Jarray (Js.nullish
                                     (vendorService.vp_documents payload) []))
      /\ (vendor_names_unique vendors -> vendor_names_unique after)
      /\ (forall new_id' now',
            exists message,
              vendorService.createVendor after payload new_id' now'
              = Err message)
      /\ ((forall r, In r vendors -> (VendorRow.id r =? new_id) = false) ->
          vendorService.deleteVendor after new_id = vendors)
  end.
Proof.
  unfold vendorService.createVendor.
  destruct (vendorService.name_taken vendors
              (vendorService.vp_organizationId payload)
              (vendorService.vp_name payload)) eqn:Htaken.
  - reflexivity.
  - split; [reflexivity|]. split; [|split; [|split]].
    + eexists. repeat split.
    + intros Huniq org name. rewrite filter_app, length_app.
      specialize (Huniq org name). cbn [List.filter VendorRow.organization_id
        VendorRow.name].
      destruct (String.eqb_spec (vendorService.vp_organizationId payload) org)
        as [<-|_]; cbn [andb length]; [|lia].
      destruct (String.eqb_spec (vendorService.vp_name payload) name)
        as [<-|_]; cbn [length]; [|lia].
      apply existsb_filter_nil in Htaken. rewrite Htaken. reflexivity.
    + intros new_id' now'. eexists.
      unfold vendorService.name_taken. rewrite existsb_app.
      cbn [existsb VendorRow.organization_id VendorRow.name].
      rewrite !String.eqb_refl. cbn [andb orb]. rewrite orb_true_r.
      reflexivity.
    + intros Hfresh. unfold vendorService.deleteVendor.
      rewrite filter_app. cbn [List.filter VendorRow.id].
      rewrite String.eqb_refl. cbn [negb]. rewrite app_nil_r.
      apply filter_negb_all. exact Hfresh.
Qed.

(** X8.  Project names are unique within an organization in the same
    way, and a project created with no status starts as active. *)
Theorem project_creation_keeps_names_unique
    (projects : list ProjectRow.t) (payload : projectService.ProjectPayload)
    (new_id : string) (now : nat) :
  match projectService.createProject projects payload new_id now with
  | Err _ =>
      projectService.name_taken projects
        (projectService.pp_organizationId payload)
        (projectService.pp_name payload) = true
  | Ok (after, project) =>
      projectService.name_taken projects
        (projectService.pp_organizationId payload)
        (projectService.pp_name payload) = false
      /\ (exists row, after = projects ++ [row]
                      /\ project = projectService.rowToProject row
                      /\ ProjectRow.id row = new_id)
      /\ (projectService.pp_status payload = None ->
          Project.status project = active)
      /\ (project_names_unique projects -> project_names_unique after)
      /\ (forall new_id' now',
            exists message,
              projectService.createProject after payload new_id' now'
              = Err message)
  end.
Proof.
  unfold projectService.createProject.
  destruct (projectService.name_taken projects
              (projectService.pp_organizationId payload)
              (projectService.pp_name payload)) eqn:Htaken.
  - reflexivity.
  - split; [reflexivity|]. split; [|split; [|split]].
    + eexists. repeat split.
    + intros Hstatus. cbn. rewrite Hstatus. reflexivity.
    + intros Huniq org name. rewrite filter_app, length_app.
      specialize (Huniq org name). cbn [List.filter ProjectRow.organization_id
        ProjectRow.name].
      destruct (String.eqb_spec (projectService.pp_organizationId payload) org)
        as [<-|_]; cbn [andb length]; [|lia].
      destruct (String.eqb_spec (projectService.pp_name payload) name)
        as [<-|_]; cbn [length]; [|lia].
      apply existsb_filter_nil in Htaken. rewrite Htaken. reflexivity.
    + intros new_id' now'. eexists.
      unfold projectService.name_taken. rewrite existsb_app.
      cbn [existsb ProjectRow.organization_id ProjectRow.name].
      rewrite !String.eqb_refl. cbn [andb orb]. rewrite orb_true_r.
      reflexivity.
Qed.



(* ------------------------------------------------------------------ *)
(** ** Vendor documents, continued *)

Lemma uploadEach_grows (vendorId : string) (world : UploadWorld)
    (files : list File) (index : nat) (existingDocs : list VendorDocument)
    (bucket : list string) :
  let result :=
    VendorManager.uploadEach vendorId world files index existingDocs bucket in
  (exists added, snd result = bucket ++ added /\ length added <= length files)
  /\ forall docs, fst result = Ok docs ->
       exists news,
         docs = existingDocs ++ news
         /\ map doc_name news = map file_name files
         /\ length (snd result) = length bucket + length files
         /\ forall f, In f files -> exists r, u_upload world f = Ok r.
Proof.
  revert index existingDocs bucket.
  induction files as [|file rest IH]; intros index existingDocs bucket; cbn.
  - split.
    + exists []. rewrite app_nil_r. split; [reflexivity | cbn; lia].
    + intros docs [= <-]. exists []. rewrite app_nil_r.
      split; [reflexivity|]. split; [reflexivity|]. split; [lia|].
      intros f [].
  - destruct (u_upload world file) as [uploadResult|message] eqn:Hup; cbn.
    + specialize (IH (S index)
                    (existingDocs
                     ++ [{| doc_id := u_doc_id world index;
                            doc_name := file_name file;
                            doc_url := upload_url uploadResult;
                            doc_uploaded_at := u_now world;
                            doc_mime_type :=
                              Js.or_else (Some (file_type file)) None |}])
                    (bucket ++ [upload_path uploadResult])).
      cbv zeta in IH. destruct IH as [[added [Hb Hlen]] Hok]. split.
      * exists (upload_path uploadResult :: added). rewrite Hb, <- app_assoc.
        split; [reflexivity | cbn; lia].
      * intros docs Hdocs. destruct (Hok docs Hdocs)
          as [news [Hnews [Hnames [Hcount Hall]]]].
        eexists (_ :: news). rewrite Hnews, <- app_assoc. split; [reflexivity|].
        split; [cbn; rewrite Hnames; reflexivity|].
        split; [rewrite Hcount, length_app; cbn; lia|].
        intros f [<-|Hf]; [eexists; exact Hup | apply Hall; exact Hf].
    + split.
      * exists []. rewrite app_nil_r. split; [reflexivity | cbn; lia].
      * intros docs Hdocs. discriminate Hdocs.
Qed.

(** X10.  A batch of documents reaches the vendor row as a whole or not
    at all.  Either the row store is left as it was, or every file of
    the batch was uploaded and the vendor's row holds the documents the
    view had followed by one document per file, in order and named after
    the files, at most 3 in all.  Objects already uploaded are never
    taken out of the bucket, also when a later file fails. *)
Theorem upload_all_or_nothing
    (vendor : Vendor.t) (files : list File) (world : UploadWorld)
    (ui : VendorManager.t) (db : Db.t) (bucket : list string) :
  let result :=
    VendorManager.handleUploadDocuments vendor (Some files) world ui db bucket in
  (snd (fst result) = db
   \/ exists news,
        map doc_name news = map file_name files
        /\ length (Vendor.documents vendor ++ news) <= VendorManager.MAX_DOCUMENTS
        /\ (forall f, In f files -> exists r, u_upload world f = Ok r)
        /\ Db.vendors (snd (fst result))
           = map (fun x => if VendorRow.id x =? Vendor.id vendor
                           then vendorService.withDocuments x
                                  (Vendor.documents vendor ++ news)
                                  (u_now world)
                           else x) (Db.vendors db))
  /\ exists added, snd result = bucket ++ added /\ length added <= length files.
Proof.
  cbv zeta. unfold VendorManager.handleUploadDocuments.
  destruct files as [|file rest].
  - split; [left; reflexivity|]. exists []. rewrite app_nil_r.
    split; [reflexivity | cbn; lia].
  - destruct (VendorManager.MAX_DOCUMENTS
              <? length (Vendor.documents vendor) + length (file :: rest))%nat
      eqn:Hcap.
    + split; [left; reflexivity|]. exists []. rewrite app_nil_r.
      split; [reflexivity | cbn; lia].
    + apply Nat.ltb_ge in Hcap.
      pose proof (uploadEach_grows (Vendor.id vendor) world (file :: rest) 0
                    (Vendor.documents vendor) bucket) as Hup.
      cbv zeta in Hup. destruct Hup as [Hbucket Hok].
      destruct (VendorManager.uploadEach (Vendor.id vendor) world
                  (file :: rest) 0 (Vendor.documents vendor) bucket)
        as [[docs|message] bucket'].
      * cbn [fst snd] in *.
        destruct (Hok docs eq_refl) as [news [-> [Hnames [_ Hall]]]].
        unfold vendorService.updateVendorDocuments.
        destruct (single _) as [r|e]; cbn [fst snd].
        -- split; [|exact Hbucket]. right. exists news.
           split; [exact Hnames|]. split.
           ++ rewrite length_app. apply (f_equal (@length _)) in Hnames.
              rewrite !length_map in Hnames. rewrite Hnames. exact Hcap.
           ++ split; [exact Hall | reflexivity].
        -- split; [left; reflexivity | exact Hbucket].
      * cbn [fst snd] in *. split; [left; reflexivity | exact Hbucket].
Qed.

Lemma filter_negb_map_same {A : Type} (p : A -> bool) (f : A -> A)
    (l : list A) :
  (forall x, p (f x) = p x) ->
  List.filter (fun x => negb (p x)) (map (fun x => if p x then f x else x) l)
  = List.filter (fun x => negb (p x)) l.
Proof.
  intros Hp. induction l as [|x l IH]; simpl.
  - reflexivity.
  - destruct (p x) eqn:Hx.
    + rewrite Hp, Hx. simpl. exact IH.
    + rewrite Hx. simpl. rewrite IH. reflexivity.
Qed.

(** X11.  Removing a document of a vendor whose row is stored writes,
    in place of the stored list, the documents the view held without the
    ones of that id, in their order, and touches no other vendor's row;
    when no row has the vendor's id nothing is written and the error is
    shown. *)
Theorem remove_document_by_id
    (vendor : Vendor.t) (docId : string) (now : nat)
    (ui : VendorManager.t) (db : Db.t) :
  let result := VendorManager.handleRemoveDocument vendor docId now ui db in
  let kept :=
    List.filter (fun d => negb (doc_id d =? docId)) (Vendor.documents vendor) in
  (forall r,
     List.filter (fun x => VendorRow.id x =? Vendor.id vendor) (Db.vendors db)
     = [r] ->
     stored_documents (snd result) (Vendor.id vendor) = [Jarray kept]
     /\ (forall d, In d kept
                   <-> In d (Vendor.documents vendor) /\ doc_id d <> docId)
     /\ List.filter (fun x => negb (VendorRow.id x =? Vendor.id vendor))
          (Db.vendors (snd result))
        = List.filter (fun x => negb (VendorRow.id x =? Vendor.id vendor))
            (Db.vendors db)
     /\ VendorManager.docError (fst result) = None)
  /\ (List.filter (fun x => VendorRow.id x =? Vendor.id vendor) (Db.vendors db)
      = [] ->
      snd result = db /\ VendorManager.docError (fst result) <> None).
Proof.
  cbv zeta. unfold VendorManager.handleRemoveDocument,
    vendorService.updateVendorDocuments. split.
  - intros r Hrow. rewrite Hrow. cbn [single fst snd].
    split; [|split; [|split]].
    + unfold stored_documents. cbn [Db.with_vendors Db.vendors].
      rewrite filter_map_stable.
      * rewrite Hrow. cbn [map].
        assert (Hr : In r (List.filter
                             (fun x => VendorRow.id x =? Vendor.id vendor)
                             (Db.vendors db))) by (rewrite Hrow; left; reflexivity).
        apply filter_In in Hr. destruct Hr as [_ Hr]. rewrite Hr. reflexivity.
      * intros x. destruct (VendorRow.id x =? Vendor.id vendor) eqn:Hx;
          [exact Hx | exact Hx].
    + intros d. rewrite filter_In. split; intros [Hin Hd]; split; try exact Hin.
      * intros Heq. rewrite Heq, String.eqb_refl in Hd. discriminate Hd.
      * destruct (String.eqb_spec (doc_id d) docId); [contradiction|reflexivity].
    + cbn [Db.with_vendors Db.vendors].
      apply (filter_negb_map_same
               (fun x => VendorRow.id x =? Vendor.id vendor)
               (fun x => vendorService.withDocuments x _ now)).
      intros x. reflexivity.
    + reflexivity.
  - intros Hnone. rewrite Hnone. cbn [single fst snd].
    split; [reflexivity | discriminate].
Qed.

Lemma remove_document_by_id_witness :
  let result :=
    VendorManager.handleRemoveDocument Globex.vendor "d-1" 50 Globex.page
      Globex.db in
  stored_documents (snd result) "v-1" = [Jarray [Globex.doc "d-2"]].
Proof.
  destruct (remove_document_by_id Globex.vendor "d-1" 50 Globex.page Globex.db)
    as [Hstored _].
  destruct (Hstored Globex.stored eq_refl) as [Hdocs _].
  exact Hdocs.
Defined.






(* ------------------------------------------------------------------ *)
(** ** Membership resolution, continued *)

(** X13.  For a user with one membership row whose organization is
    stored, resolution returns that organization, role and branch and
    writes nothing, however often it is repeated. *)
Theorem resolved_membership_is_read_only
    (db : Db.t) (u : string) (m : OrganizationMember.t) (o : Organization)
    (new_id : string) (now : nat) (auth : Auth.t) :
  (u =? "") = false ->
  memberships_of_user (Db.organization_members db) u = [m] ->
  organizationService.joined_organization db
    (OrganizationMember.organization_id m) = Some o ->
  AuthContext.hydrateMembership true (Some u) new_id now auth db
  = ({| Auth.organization := Some o;
        Auth.memberRole := Some (OrganizationMember.role m);
        Auth.branchOfficeId := OrganizationMember.branch_office_id m |}, db).
Proof.
  intros Hu Hone Hjoin. unfold AuthContext.hydrateMembership.
  cbn [negb Js.known]. rewrite Hu.
  unfold organizationService.fetchMembershipForUser.
  rewrite members_by_user, Hone. cbn [maybeSingle]. rewrite Hjoin.
  reflexivity.
Qed.

(** X14.  What resolution does at the edges.  An unmounted provider
    changes nothing; no user id, a user with two or more membership
    rows, and a user with neither membership nor organization all
    resolve to no organization with nothing written.  The only write
    resolution ever makes is the upsert of an org_admin membership for
    the one organization the user owns. *)
Theorem resolution_edges
    (mounted : bool) (userId : option string) (new_id : string) (now : nat)
    (auth : Auth.t) (db : Db.t) :
  let result :=
    AuthContext.hydrateMembership mounted userId new_id now auth db in
  (mounted = false -> result = (auth, db))
  /\ (mounted = true -> Js.known userId = None ->
      result = (Auth.signed_out, db))
  /\ (forall u, mounted = true -> Js.known userId = Some u ->
        (2 <= length (memberships_of_user (Db.organization_members db) u) ->
         result = (Auth.signed_out, db))
        /\ (memberships_of_user (Db.organization_members db) u = [] ->
            owned_by db u = [] -> result = (Auth.signed_out, db)))
  /\ (snd result = db
      \/ exists u o,
           Js.known userId = Some u
           /\ owned_by db u = [o]
           /\ fst result = {| Auth.organization := Some o;
                              Auth.memberRole := Some org_admin;
                              Auth.branchOfficeId := None |}
           /\ snd result
              = fst (organizationService.ensureMembership db
                       {| organizationService.mp_userId := u;
                          organizationService.mp_organizationId := org_id o;
                          organizationService.mp_role := org_admin;
                          organizationService.mp_branchOfficeId := None;
                          organizationService.mp_department := None |}
                       new_id now)).
Proof.
  cbv zeta. unfold AuthContext.hydrateMembership.
  split; [|split; [|split]].
  - intros ->. reflexivity.
  - intros -> ->. reflexivity.
  - intros u -> ->. cbn [negb].
    unfold organizationService.fetchMembershipForUser.
    rewrite members_by_user, organizations_by_owner. split.
    + intros Htwo.
      destruct (memberships_of_user (Db.organization_members db) u)
        as [|m1 [|m2 rest]]; cbn in Htwo; try lia. reflexivity.
    + intros -> ->. reflexivity.
  - destruct mounted; [|left; reflexivity]. cbn [negb].
    destruct (Js.known userId) as [u|]; [|left; reflexivity].
    unfold organizationService.fetchMembershipForUser.
    rewrite members_by_user, organizations_by_owner.
    destruct (maybeSingle (memberships_of_user (Db.organization_members db) u))
      as [[data|]|message]; [| |left; reflexivity].
    + destruct (organizationService.joined_organization db
                  (OrganizationMember.organization_id data));
        [left; reflexivity|].
      destruct (owned_by db u) as [|o [|o2 rest]] eqn:Howned;
        cbn [maybeSingle]; [left; reflexivity | | left; reflexivity].
      destruct (organizationService.ensureMembership db _ new_id now)
        as [db' row] eqn:Hens.
      right. exists u, o.
      split; [reflexivity|]. split; [exact Howned|].
      split; [reflexivity|]. rewrite Hens. reflexivity.
    + destruct (owned_by db u) as [|o [|o2 rest]] eqn:Howned;
        cbn [maybeSingle]; [left; reflexivity | | left; reflexivity].
      destruct (organizationService.ensureMembership db _ new_id now)
        as [db' row] eqn:Hens.
      right. exists u, o.
      split; [reflexivity|]. split; [exact Howned|].
      split; [reflexivity|]. rewrite Hens. reflexivity.
Qed.

Lemma resolved_membership_is_read_only_witness :
  AuthContext.hydrateMembership true (Some "u-2") "m-9" 40 Auth.signed_out
    Staffed.db
  = ({| Auth.organization := Some Acme.org;
        Auth.memberRole := Some branch_admin;
        Auth.branchOfficeId := Some "B1" |}, Staffed.db).
Proof.
  exact (resolved_membership_is_read_only Staffed.db "u-2" Staffed.clerk
           Acme.org "m-9" 40 Auth.signed_out eq_refl eq_refl eq_refl).
Defined.

(* ------------------------------------------------------------------ *)
(** ** Accepting an invite, continued *)

Lemma upsertMember_row (members : list OrganizationMember.t)
    (payload : organizationService.MembershipPayload)
    (new_id : string) (now : nat) :
  let result := organizationService.upsertMember members payload new_id now in
  In (snd result) (fst result)
  /\ OrganizationMember.user_id (snd result)
     = organizationService.mp_userId payload
  /\ OrganizationMember.organization_id (snd result)
     = organizationService.mp_organizationId payload
  /\ OrganizationMember.role (snd result) = organizationService.mp_role payload
  /\ OrganizationMember.branch_office_id (snd result)
     = organizationService.mp_branchOfficeId payload
  /\ OrganizationMember.department (snd result)
     = organizationService.mp_department payload.
Proof.
  cbv zeta. induction members as [|old rest IH]; simpl.
  - split; [left; reflexivity|]. repeat split.
  - destruct (organizationService.same_member_key payload old).
    + simpl. split; [left; reflexivity|]. repeat split.
    + destruct (organizationService.upsertMember rest payload new_id now)
        as [rest' row].
      cbn [fst snd] in *. destruct IH as [Hin Hrow].
      split; [right; exact Hin | exact Hrow].
Qed.

Lemma upsertMember_others (members : list OrganizationMember.t)
    (payload : organizationService.MembershipPayload)
    (new_id : string) (now : nat) :
  List.filter (fun r => negb (organizationService.same_member_key payload r))
    (fst (organizationService.upsertMember members payload new_id now))
  = List.filter (fun r => negb (organizationService.same_member_key payload r))
      members.
Proof.
  induction members as [|old rest IH]; simpl.
  - unfold organizationService.same_member_key.
    cbn [OrganizationMember.user_id OrganizationMember.organization_id].
    rewrite !String.eqb_refl. reflexivity.
  - destruct (organizationService.same_member_key payload old) eqn:Hold.
    + cbn [fst List.filter negb].
      unfold organizationService.same_member_key at 1.
      cbn [OrganizationMember.user_id OrganizationMember.organization_id].
      rewrite !String.eqb_refl. reflexivity.
    + destruct (organizationService.upsertMember rest payload new_id now)
        as [rest' row].
      cbn [fst] in *. cbn [List.filter]. rewrite Hold. cbn [negb].
      rewrite IH. reflexivity.
Qed.

Lemma ensureMembership_fst (db : Db.t)
    (payload : organizationService.MembershipPayload)
    (new_id : string) (now : nat) :
  fst (organizationService.ensureMembership db payload new_id now)
  = Db.with_members db
      (fst (organizationService.upsertMember (Db.organization_members db)
              payload new_id now)).
Proof.
  unfold organizationService.ensureMembership.
  destruct (organizationService.upsertMember (Db.organization_members db)
              payload new_id now).
  reflexivity.
Qed.

(** X15.  An acceptance that goes through turns the invite into a
    membership: the new user gets a membership of the invite's
    organization that carries the invite's branch and department and the
    role branch_user or branch_admin, never org_admin; the invite row
    records the user and the time; no other invite, no membership of
    another user or organization and no other table is touched. *)
Theorem accepted_invite_becomes_membership
    (db : Db.t) (token : string) (inv : BranchInvite.t)
    (p uid new_id : string) (now : nat) :
  invites_with_token db token = [inv] ->
  invites_with_id db (BranchInvite.id inv) = [inv] ->
  BranchInvite.status inv <> accepted ->
  6 <= String.length p ->
  (uid =? "") = false ->
  let db' :=
    snd (BranchInviteView.attempt token p p (SignUpData (Some uid)) new_id now
           db) in
  (exists m,
     In m (Db.organization_members db')
     /\ OrganizationMember.user_id m = uid
     /\ OrganizationMember.organization_id m = BranchInvite.organization_id inv
     /\ OrganizationMember.role m
        = (if Role_eqb (BranchInvite.role inv) branch_user
           then branch_user else branch_admin)
     /\ OrganizationMember.role m <> org_admin
     /\ OrganizationMember.branch_office_id m
        = Some (BranchInvite.branch_office_id inv)
     /\ OrganizationMember.department m
        = Js.known (BranchInvite.department inv))
  /\ invites_with_id db' (BranchInvite.id inv)
     = [organizationService.acceptedRow inv uid now]
  /\ List.filter (fun r => negb (BranchInvite.id r =? BranchInvite.id inv))
       (Db.branch_invites db')
     = List.filter (fun r => negb (BranchInvite.id r =? BranchInvite.id inv))
         (Db.branch_invites db)
  /\ List.filter
       (fun r => negb ((OrganizationMember.user_id r =? uid)
                       && (OrganizationMember.organization_id r
                           =? BranchInvite.organization_id inv)))
       (Db.organization_members db')
     = List.filter
         (fun r => negb ((OrganizationMember.user_id r =? uid)
                         && (OrganizationMember.organization_id r
                             =? BranchInvite.organization_id inv)))
         (Db.organization_members db)
  /\ Db.organizations db' = Db.organizations db
  /\ Db.vendors db' = Db.vendors db
  /\ Db.projects db' = Db.projects db
  /\ Db.agreements db' = Db.agreements db.
Proof.
  intros Htok Hid Hstatus Hlen Huid db'. subst db'.
  rewrite (attempt_goes_through db token inv p uid new_id now
             Htok Hid Hstatus Hlen Huid).
  cbn [snd]. rewrite ensureMembership_fst.
  cbn [Db.with_invites Db.with_members Db.organization_members
       Db.branch_invites Db.organizations Db.vendors Db.projects
       Db.agreements].
  split; [|split; [|split; [|split]]].
  - pose proof (upsertMember_row (Db.organization_members db)
                  (BranchInviteView.membershipFor inv uid) new_id now) as Hrow.
    cbv zeta in Hrow.
    destruct Hrow as [Hin [Hu [Ho [Hr [Hb Hd]]]]].
    eexists. split; [exact Hin|].
    split; [exact Hu|]. split; [exact Ho|]. split; [exact Hr|].
    split; [|split].
    + rewrite Hr. cbn [BranchInviteView.membershipFor
                       organizationService.mp_role].
      destruct (Role_eqb (BranchInvite.role inv) branch_user); discriminate.
    + exact Hb.
    + rewrite Hd. cbn [BranchInviteView.membershipFor
                       organizationService.mp_department].
      apply or_else_known.
  - unfold invites_with_id.
    cbn [Db.branch_invites Db.with_invites].
    rewrite (filter_map_stable
               (fun r => BranchInvite.id r =? BranchInvite.id inv)
               (fun x => if BranchInvite.id x =? BranchInvite.id inv
                         then organizationService.acceptedRow x uid now
                         else x)).
    + unfold invites_with_id in Hid. rewrite Hid. cbn [map].
      rewrite String.eqb_refl. reflexivity.
    + intros x. destruct (BranchInvite.id x =? BranchInvite.id inv) eqn:Hx.
      * cbn [organizationService.acceptedRow BranchInvite.id]. exact Hx.
      * exact Hx.
  - apply (filter_negb_map_same
             (fun r => BranchInvite.id r =? BranchInvite.id inv)
             (fun x => organizationService.acceptedRow x uid now)).
    intros x. reflexivity.
  - exact (upsertMember_others (Db.organization_members db)
             (BranchInviteView.membershipFor inv uid) new_id now).
  - repeat split.
Qed.

Lemma accepted_invite_becomes_membership_witness :
  map OrganizationMember.role
    (Db.organization_members
       (snd (BranchInviteView.attempt "tok-1" "s3cret!" "s3cret!"
               (SignUpData (Some "u-10")) "m-10" 21 (Invited.db pending))))
  = [branch_user]
  /\ invites_with_id
       (snd (BranchInviteView.attempt "tok-1" "s3cret!" "s3cret!"
               (SignUpData (Some "u-10")) "m-10" 21 (Invited.db pending)))
       "inv-1"
     = [organizationService.acceptedRow (Invited.invite pending) "u-10" 21].
Proof.
  split; [reflexivity|].
  assert (Hstatus : BranchInvite.status (Invited.invite pending) <> accepted)
    by discriminate.
  assert (Hlen : 6 <= String.length "s3cret!") by (cbn; lia).
  destruct (accepted_invite_becomes_membership (Invited.db pending) "tok-1"
              (Invited.invite pending) "s3cret!" "u-10" "m-10" 21
              eq_refl eq_refl Hstatus Hlen eq_refl) as [_ [Hinvite _]].
  exact Hinvite.
Defined.


(* ------------------------------------------------------------------ *)
(** ** Branch user accounts *)

Lemma branch_users_accepts (db : Db.t) (b : string) (r : BranchInvite.t) :
  In r (branchUserService.fetchBranchUsersForOffice db b)
  <-> In r (Db.branch_invites db)
      /\ BranchInvite.branch_office_id r = b
      /\ BranchInvite.role r = branch_user.
Proof.
  unfold branchUserService.fetchBranchUsersForOffice. rewrite In_run.
  cbn [q_from q_filters order_created_at_desc where_ from].
  unfold passes. cbn [forallb app accepts column branch_invites_table].
  unfold BranchInvite.col. cbn [String.eqb Ascii.eqb Bool.eqb].
  rewrite andb_true_r.
  split.
  - intros [Hin Hpass]. apply andb_true_iff in Hpass.
    destruct Hpass as [H1 H2].
    assert (Hb : (BranchInvite.branch_office_id r =? b) = true
                 /\ (Role_text (BranchInvite.role r) =? "branch_user") = true)
      by (destruct (BranchInvite.branch_office_id r =? b);
          destruct (Role_text (BranchInvite.role r) =? "branch_user");
          split; first [reflexivity | discriminate]).
    destruct Hb as [Hb Hr]. apply String.eqb_eq in Hb.
    split; [exact Hin|]. split; [exact Hb|].
    destruct (BranchInvite.role r); first [reflexivity | discriminate].
  - intros [Hin [Hb Hr]]. split; [exact Hin|].
    rewrite Hb, Hr, String.eqb_refl. reflexivity.
Qed.

(** X18.  The accounts list of a branch is the invite listing narrowed
    to the role branch_user: it holds exactly the stored invites of that
    branch whose role is branch_user, in whatever state they are, newest
    first; invites of branch admins never show up in it. *)
Theorem branch_accounts_listing (db : Db.t) (b : string) :
  branchUserService.fetchBranchUsersForOffice db b
  = organizationService.fetchBranchInvites db b (Some branch_user)
  /\ (forall r,
        In r (branchUserService.fetchBranchUsersForOffice db b)
        <-> In r (Db.branch_invites db)
            /\ BranchInvite.branch_office_id r = b
            /\ BranchInvite.role r = branch_user)
  /\ newest_first
       (map BranchInvite.created_at
          (branchUserService.fetchBranchUsersForOffice db b)).
Proof.
  split; [reflexivity|]. split.
  - intros r. apply branch_users_accepts.
  - unfold branchUserService.fetchBranchUsersForOffice.
    exact (run_sorted
             (order_created_at_desc
                (where_ (Eq "role" "branch_user")
                   (where_ (Eq "branch_office_id" b)
                      (from (Db.branch_invites db))))) eq_refl).
Qed.




(* ------------------------------------------------------------------ *)
(** ** Routes *)

Lemma ViewMode_text_inj (a b : App.ViewMode) :
  App.ViewMode_text a = App.ViewMode_text b -> a = b.
Proof. destruct a, b; simpl; intros E; try reflexivity; discriminate E. Qed.

Lemma ViewMode_eqb_eq (a b : App.ViewMode) :
  App.ViewMode_eqb a b = true <-> a = b.
Proof.
  unfold App.ViewMode_eqb. rewrite String.eqb_eq. split.
  - apply ViewMode_text_inj.
  - intros ->. reflexivity.
Qed.

Lemma find_view (c : string) (v : App.ViewMode) :
  App.ViewMode_text v = c ->
  List.find (fun w => App.ViewMode_text w =? c) App.ROUTABLE_VIEWS = Some v.
Proof. intros <-. destruct v; reflexivity. Qed.

Lemma find_no_view (c : string) :
  (forall v, c <> App.ViewMode_text v) ->
  List.find (fun w => App.ViewMode_text w =? c) App.ROUTABLE_VIEWS = None.
Proof.
  intros Hnone.
  destruct (List.find (fun w => App.ViewMode_text w =? c) App.ROUTABLE_VIEWS)
    as [w|] eqn:Hfind; [|reflexivity].
  apply find_some in Hfind. destruct Hfind as [_ Hw].
  apply String.eqb_eq in Hw. exfalso. apply (Hnone w). symmetry. exact Hw.
Qed.

Lemma ViewMode_text_not_empty (v : App.ViewMode) :
  (App.ViewMode_text v =? "") = false.
Proof. destruct v; reflexivity. Qed.

Lemma parse_cleaned (hash : string) (v : App.ViewMode) :
  App.cleaned hash = App.ViewMode_text v -> App.parseHashToView hash = v.
Proof.
  intros Hclean. unfold App.parseHashToView.
  destruct (String.eqb_spec hash "") as [->|_].
  - cbn in Hclean. destruct v; discriminate Hclean.
  - rewrite Hclean, ViewMode_text_not_empty.
    rewrite (find_view (App.ViewMode_text v) v eq_refl). reflexivity.
Qed.

Lemma parse_build (v : App.ViewMode) :
  App.parseHashToView (App.buildHashFromView v) = v.
Proof. apply parse_cleaned. reflexivity. Qed.

(** X20.  Routes and hashes.  The hash built for a view parses back to
    that view; more generally a hash parses to the view whose name is
    left once a leading [#] or [#/] is taken off, and to the dashboard
    when what is left names no view. *)
Theorem routes_round_trip :
  (forall v, App.parseHashToView (App.buildHashFromView v) = v)
  /\ (forall hash v,
        App.cleaned hash = App.ViewMode_text v ->
        App.parseHashToView hash = v)
  /\ (forall hash,
        (forall v, App.cleaned hash <> App.ViewMode_text v) ->
        App.parseHashToView hash = App.DEFAULT_VIEW).
Proof.
  split; [exact parse_build|]. split; [exact parse_cleaned|].
  intros hash Hnone. unfold App.parseHashToView.
  destruct (hash =? ""); [reflexivity|].
  destruct (String.eqb_spec (App.cleaned hash) "") as [Hempty|_].
  - reflexivity.
  - rewrite (find_no_view (App.cleaned hash) Hnone). reflexivity.
Qed.

Lemma enforce_twice (auth : Auth.t) (v : App.ViewMode) :
  App.enforceViewAccess auth (App.enforceViewAccess auth v)
  = App.enforceViewAccess auth v.
Proof.
  unfold App.enforceViewAccess, App.isBranchAdmin, Auth.isOrgAdmin.
  destruct (Auth.memberRole auth) as [[| |]|]; destruct v; reflexivity.
Qed.

(** X21.  Which views a role may open.  The access check returns the
    view asked for or the dashboard, and checking twice changes nothing.
    An org admin may open every view but the branch team, a branch admin
    every view but the office network, and a branch user, or a session
    with no role, neither of these two nor vendors nor projects. *)
Theorem view_access_by_role (auth : Auth.t) (v : App.ViewMode) :
  (App.enforceViewAccess auth v = v
   \/ App.enforceViewAccess auth v = App.DEFAULT_VIEW)
  /\ App.enforceViewAccess auth (App.enforceViewAccess auth v)
     = App.enforceViewAccess auth v
  /\ (Auth.memberRole auth = Some org_admin ->
      (App.enforceViewAccess auth v = v <-> v <> App.departments))
  /\ (Auth.memberRole auth = Some branch_admin ->
      (App.enforceViewAccess auth v = v <-> v <> App.offices))
  /\ (Auth.memberRole auth = Some branch_user \/ Auth.memberRole auth = None ->
      (App.enforceViewAccess auth v = v
       <-> v <> App.offices /\ v <> App.departments
           /\ v <> App.vendors /\ v <> App.projects)).
Proof.
  split; [|split; [apply enforce_twice|]].
  - unfold App.enforceViewAccess, App.isBranchAdmin, Auth.isOrgAdmin.
    destruct (Auth.memberRole auth) as [[| |]|]; destruct v; cbn; auto.
  - unfold App.enforceViewAccess, App.isBranchAdmin, Auth.isOrgAdmin.
    split; [|split].
    + intros ->. destruct v; cbn; split; intros H;
        first [reflexivity | discriminate | congruence].
    + intros ->. destruct v; cbn; split; intros H;
        first [reflexivity | discriminate | congruence].
    + intros [-> | ->]; destruct v; cbn; split; intros H;
        first [reflexivity | discriminate
              | repeat split; discriminate
              | destruct H as [H1 [H2 [H3 H4]]]; congruence].
Qed.

Lemma view_default (auth : Auth.t) (v : App.ViewMode) :
  App.enforceViewAccess auth v = v
  \/ App.enforceViewAccess auth v = App.DEFAULT_VIEW.
Proof.
  unfold App.enforceViewAccess, App.isBranchAdmin, Auth.isOrgAdmin.
  destruct (Auth.memberRole auth) as [[| |]|]; destruct v; cbn; auto.
Qed.

Lemma build_is_no_invite (v : App.ViewMode) :
  App.startsWith "#/invite/" (App.buildHashFromView v) = false.
Proof. destruct v; reflexivity. Qed.

Lemma settled_route (auth : Auth.t) (s : App.t) (v : App.ViewMode)
    (h : string) :
  App.startsWith "#/invite/" h = false ->
  App.parseHashToView h = v ->
  App.enforceViewAccess auth v = v ->
  App.handleHashChange auth (App.routed s v None h) = App.routed s v None h.
Proof.
  intros Hh Hparse Hsafe. unfold App.handleHashChange.
  cbn [App.routed App.hash App.view]. rewrite Hh, Hparse, Hsafe.
  assert (App.ViewMode_eqb v v = true) as -> by (apply ViewMode_eqb_eq; reflexivity).
  reflexivity.
Qed.

(** X22.  The view and the hash agree after every routing step.  A
    change of the hash to something that is no invite link leaves the
    application on the view the hash parses to, reduced to what the role
    may open, with no invite token, and with the hash corrected so that
    it parses to that view; navigating to a view leaves it on the
    permitted view with exactly the hash built for it.  In both cases
    the hash-change event that a corrected hash fires changes nothing
    more. *)
Theorem view_and_hash_agree (auth : Auth.t) (s : App.t) (v : App.ViewMode) :
  (App.startsWith "#/invite/" (App.hash s) = false ->
   let s' := App.handleHashChange auth s in
   App.view s' = App.enforceViewAccess auth (App.parseHashToView (App.hash s))
   /\ App.inviteToken s' = None
   /\ App.parseHashToView (App.hash s') = App.view s'
   /\ (App.hash s' = App.hash s
       \/ App.hash s' = App.buildHashFromView App.DEFAULT_VIEW)
   /\ App.handleHashChange auth s' = s')
  /\ (let s' := App.navigateTo auth v s in
      App.view s' = App.enforceViewAccess auth v
      /\ App.inviteToken s' = None
      /\ App.hash s' = App.buildHashFromView (App.view s')
      /\ App.handleHashChange auth s' = s').
Proof.
  split.
  - intros Hraw. cbv zeta. unfold App.handleHashChange. rewrite Hraw.
    cbn [App.routed App.view App.inviteToken App.hash].
    split; [reflexivity|]. split; [reflexivity|].
    destruct (App.ViewMode_eqb
                (App.enforceViewAccess auth (App.parseHashToView (App.hash s)))
                (App.parseHashToView (App.hash s))) eqn:Hsame; cbn [negb].
    + apply ViewMode_eqb_eq in Hsame.
      split; [symmetry; exact Hsame|]. split; [left; reflexivity|].
      apply settled_route.
      * exact Hraw.
      * symmetry. exact Hsame.
      * apply enforce_twice.
    + assert (Hdefault : App.enforceViewAccess auth
                           (App.parseHashToView (App.hash s))
                         = App.DEFAULT_VIEW).
      { destruct (view_default auth (App.parseHashToView (App.hash s)))
          as [Hkept|Hdef]; [|exact Hdef].
        rewrite Hkept in Hsame.
        assert (App.ViewMode_eqb (App.parseHashToView (App.hash s))
                  (App.parseHashToView (App.hash s)) = true)
          by (apply ViewMode_eqb_eq; reflexivity).
        congruence. }
      rewrite Hdefault.
      destruct (String.eqb_spec (App.hash s)
                  (App.buildHashFromView App.DEFAULT_VIEW)) as [Heq|Hne];
        cbn [negb].
      * split; [rewrite Heq; reflexivity|]. split; [left; reflexivity|].
        apply settled_route.
        -- exact Hraw.
        -- rewrite Heq. reflexivity.
        -- rewrite <- Hdefault at 2. rewrite <- Hdefault at 1.
           apply enforce_twice.
      * split; [reflexivity|]. split; [right; reflexivity|].
        apply settled_route.
        -- reflexivity.
        -- reflexivity.
        -- rewrite <- Hdefault at 2. rewrite <- Hdefault at 1.
           apply enforce_twice.
  - cbv zeta. unfold App.navigateTo.
    cbn [App.routed App.view App.inviteToken App.hash].
    split; [reflexivity|]. split; [reflexivity|].
    assert (Hhash : (if negb (App.hash s
                              =? App.buildHashFromView
                                   (App.enforceViewAccess auth v))
                     then App.buildHashFromView (App.enforceViewAccess auth v)
                     else App.hash s)
                    = App.buildHashFromView (App.enforceViewAccess auth v)).
    { destruct (String.eqb_spec (App.hash s)
                  (App.buildHashFromView (App.enforceViewAccess auth v)))
        as [Heq|Hne]; cbn [negb]; [exact Heq | reflexivity]. }
    rewrite Hhash. split; [reflexivity|].
    apply settled_route.
    + apply build_is_no_invite.
    + apply parse_build.
    + apply enforce_twice.
Qed.

(* ------------------------------------------------------------------ *)
(** ** From the invite link to the invite *)

Lemma append_assoc3 (a b c : string) :
  (a ++ b ++ c)%string = ((a ++ b) ++ c)%string.
Proof.
  induction a as [|ch a IH]; simpl; [reflexivity | rewrite IH; reflexivity].
Qed.

Lemma append_cancel (a x y : string) :
  (a ++ x)%string = (a ++ y)%string -> x = y.
Proof.
  induction a as [|ch a IH]; simpl; intros E.
  - exact E.
  - injection E as E. exact (IH E).
Qed.

Lemma split_no_slash (t : string) :
  no_slash t = true -> split_on "/" t = [t].
Proof.
  induction t as [|c t IH]; simpl; intros Hno.
  - reflexivity.
  - apply andb_true_iff in Hno. destruct Hno as [Hc Ht].
    apply negb_true_iff in Hc. rewrite Hc, (IH Ht). reflexivity.
Qed.

Lemma invite_hash_token (viewer : Auth.t) (s : App.t) (token : string) :
  token <> "" ->
  no_slash token = true ->
  App.hash s = ("#/invite/" ++ token)%string ->
  App.handleHashChange viewer s
  = App.routed s (App.view s) (Some token) (App.hash s).
Proof.
  intros Hne Hno Hhash. unfold App.handleHashChange. rewrite Hhash.
  assert (App.startsWith "#/invite/" ("#/invite/" ++ token) = true) as ->.
  { unfold App.startsWith. simpl. destruct token; reflexivity. }
  assert (split_on "/" ("#/invite/" ++ token) = ["#"; "invite"; token]) as ->.
  { simpl. rewrite (split_no_slash token Hno). reflexivity. }
  cbn [nth_error Js.known].
  destruct (String.eqb_spec token "") as [E|_]; [contradiction|].
  reflexivity.
Qed.

Lemma account_stored (auth : Auth.t) (world : InviteWorld)
    (ui : BranchUserManager.t) (db : Db.t) (org : Organization) (b : string) :
  Auth.organization auth = Some org ->
  Js.known (Auth.branchOfficeId auth) = Some b ->
  (Js.trim (BranchUserManager.fullName (BranchUserManager.form ui)) =? "")
  = false ->
  (Js.trim (BranchUserManager.department (BranchUserManager.form ui)) =? "")
  = false ->
  (Js.trim (BranchUserManager.email (BranchUserManager.form ui)) =? "")
  = false ->
  organizationService.token_taken db (w_token world) = false ->
  exists row,
    snd (fst (BranchUserManager.handleCreate auth world ui db))
    = Db.with_invites db (Db.branch_invites db ++ [row])
    /\ BranchInvite.invite_token row = w_token world
    /\ BranchInvite.status row = pending
    /\ BranchInvite.role row = branch_user
    /\ BranchInvite.branch_office_id row = b
    /\ BranchUserManager.inviteLink
         (fst (fst (BranchUserManager.handleCreate auth world ui db)))
       = Some (OfficeManager.inviteLinkFor (w_origin world) (w_token world)).
Proof.
  intros Horg Hb Hname Hdept Hmail Hfree.
  unfold BranchUserManager.handleCreate. rewrite Horg, Hb.
  rewrite Hname, Hdept, Hmail. cbn [orb].
  unfold branchUserService.createBranchUserAccount.
  cbn [branchUserService.ap_inviteToken]. rewrite Hfree.
  cbn [fst snd]. eexists. split; [reflexivity|].
  cbn [BranchInvite.invite_token BranchInvite.status BranchInvite.role
       BranchInvite.branch_office_id branchUserService.ap_branchOfficeId].
  do 4 (split; [reflexivity|]).
  unfold BranchUserManager.loadPeople. rewrite Hb.
  destruct (w_refresh_error world); reflexivity.
Qed.

(** X23.  The link a branch admin is shown for a new account leads to
    that account's invite.  When the application is opened on the hash
    of that link (what follows the origin and its slash), whoever opens
    it, the token of the link becomes the invite token and the view is
    left alone; loading the invite with that token on the store the
    creation left finds the row just appended and shows its form with no
    error.  The token is taken to be non-empty and free of slashes. *)
Theorem account_link_opens_its_invite
    (auth : Auth.t) (world : InviteWorld) (ui : BranchUserManager.t)
    (db : Db.t) (org : Organization) (b : string)
    (viewer : Auth.t) (s : App.t) :
  Auth.organization auth = Some org ->
  Js.known (Auth.branchOfficeId auth) = Some b ->
  (Js.trim (BranchUserManager.fullName (BranchUserManager.form ui)) =? "")
  = false ->
  (Js.trim (BranchUserManager.department (BranchUserManager.form ui)) =? "")
  = false ->
  (Js.trim (BranchUserManager.email (BranchUserManager.form ui)) =? "")
  = false ->
  organizationService.token_taken db (w_token world) = false ->
  w_token world <> "" ->
  no_slash (w_token world) = true ->
  let created := BranchUserManager.handleCreate auth world ui db in
  BranchUserManager.inviteLink (fst (fst created))
  = Some ((w_origin world ++ "/") ++ App.hash s)%string ->
  let s' := App.handleHashChange viewer s in
  App.inviteToken s' = Some (w_token world)
  /\ App.view s' = App.view s
  /\ exists row,
       Db.branch_invites (snd (fst created)) = Db.branch_invites db ++ [row]
       /\ BranchInvite.role row = branch_user
       /\ BranchInvite.branch_office_id row = b
       /\ forall token,
            App.inviteToken s' = Some token ->
            BranchInviteView.loadInvite token (snd (fst created))
              BranchInviteView.mount
            = BranchInviteView.set_loaded BranchInviteView.mount None
                (Some row).
Proof.
  intros Horg Hb Hname Hdept Hmail Hfree Hne Hno created Hlink s'.
  subst created s'.
  destruct (account_stored auth world ui db org b Horg Hb Hname Hdept Hmail
              Hfree) as [row [Hdb [Htoken [Hstatus [Hrole [Hbranch Hshown]]]]]].
  rewrite Hshown in Hlink. injection Hlink as Hlink.
  unfold OfficeManager.inviteLinkFor in Hlink.
  change (w_origin world ++ "/#/invite/" ++ w_token world)%string
    with (w_origin world ++ "/" ++ ("#/invite/" ++ w_token world))%string
    in Hlink.
  rewrite append_assoc3 in Hlink. apply append_cancel in Hlink.
  rewrite (invite_hash_token viewer s (w_token world) Hne Hno (eq_sym Hlink)).
  cbn [App.routed App.inviteToken App.view].
  split; [reflexivity|]. split; [reflexivity|].
  exists row. rewrite Hdb. cbn [Db.branch_invites Db.with_invites].
  split; [reflexivity|]. split; [exact Hrole|]. split; [exact Hbranch|].
  intros token Etoken. injection Etoken as <-.
  unfold BranchInviteView.loadInvite. rewrite invite_by_token.
  unfold invites_with_token. cbn [Db.branch_invites Db.with_invites].
  rewrite (filter_app_single
             (fun r => BranchInvite.invite_token r =? w_token world)
             (Db.branch_invites db) row).
  - cbn [maybeSingle]. rewrite Hstatus. reflexivity.
  - exact (token_free db (w_token world) Hfree).
  - rewrite Htoken. apply String.eqb_refl.
Qed.

Lemma account_link_opens_its_invite_witness :
  App.inviteToken
    (App.handleHashChange Auth.signed_out
       (App.routed Staffed.shell App.dashboard None "#/invite/tok-2"))
  = Some "tok-2"
  /\ App.view
       (App.handleHashChange Auth.signed_out
          (App.routed Staffed.shell App.dashboard None "#/invite/tok-2"))
     = App.dashboard.
Proof.
  assert (Hne : w_token InvitePanel.mail_down <> "") by discriminate.
  destruct (account_link_opens_its_invite Writers.branch_admin_B1
              InvitePanel.mail_down Desk.filled Acme.dangling_org Acme.org "B1"
              Auth.signed_out
              (App.routed Staffed.shell App.dashboard None "#/invite/tok-2")
              eq_refl eq_refl eq_refl eq_refl eq_refl eq_refl Hne eq_refl
              eq_refl) as [Htoken [Hview _]].
  split; [exact Htoken | exact Hview].
Defined.

(* ------------------------------------------------------------------ *)
(** ** The sidebar *)

(** X24.  The sidebar offers no dead link.  Every item it shows for a
    session passes the access check of the application unchanged, so
    that choosing it lands on that view with that view's hash; no item
    is shown twice; and every view the session may open is offered,
    except the projects view, which the sidebar never lists. *)
Theorem sidebar_offers_permitted_views
    (auth : Auth.t) (s : App.t) (v : App.ViewMode) :
  let items := Sidebar.navItems (Auth.isOrgAdmin auth) (Auth.memberRole auth) in
  (In v items ->
   App.enforceViewAccess auth v = v
   /\ App.view (App.handleSidebarNavigate auth v s) = v
   /\ App.hash (App.handleSidebarNavigate auth v s) = App.buildHashFromView v
   /\ App.inviteToken (App.handleSidebarNavigate auth v s) = None)
  /\ (App.enforceViewAccess auth v = v -> v <> App.projects -> In v items)
  /\ ~ In App.projects items
  /\ NoDup items.
Proof.
  cbv zeta.
  assert (Hhash : forall w,
            App.hash (App.handleSidebarNavigate auth w s)
            = App.buildHashFromView (App.enforceViewAccess auth w)
            /\ App.view (App.handleSidebarNavigate auth w s)
               = App.enforceViewAccess auth w
            /\ App.inviteToken (App.handleSidebarNavigate auth w s) = None).
  { intros w.
    assert (Hnav : forall s0,
              App.hash (App.navigateTo auth w s0)
              = App.buildHashFromView (App.enforceViewAccess auth w)
              /\ App.view (App.navigateTo auth w s0)
                 = App.enforceViewAccess auth w
              /\ App.inviteToken (App.navigateTo auth w s0) = None).
    { intros s0. unfold App.navigateTo.
      cbn [App.routed App.hash App.view App.inviteToken].
      split; [|split; reflexivity].
      destruct (String.eqb_spec (App.hash s0)
                  (App.buildHashFromView (App.enforceViewAccess auth w)))
        as [Heq|Hne]; cbn [negb]; [exact Heq | reflexivity]. }
    destruct w; apply Hnav. }
  split; [|split; [|split]].
  - intros Hin.
    assert (Hkept : App.enforceViewAccess auth v = v).
    { revert Hin.
      unfold Sidebar.navItems, App.enforceViewAccess, App.isBranchAdmin,
        Auth.isOrgAdmin.
      destruct (Auth.memberRole auth) as [[| |]|]; destruct v; cbn;
        intros Hin; try reflexivity;
        repeat (destruct Hin as [Hin|Hin]; [discriminate Hin|]);
        destruct Hin. }
    destruct (Hhash v) as [H1 [H2 H3]]. rewrite Hkept in H1, H2.
    split; [exact Hkept|]. split; [exact H2|]. split; [exact H1 | exact H3].
  - unfold Sidebar.navItems, App.enforceViewAccess, App.isBranchAdmin,
      Auth.isOrgAdmin.
    destruct (Auth.memberRole auth) as [[| |]|]; destruct v; cbn;
      intros Hkept Hnot; try discriminate Hkept; try congruence; tauto.
  - unfold Sidebar.navItems, Auth.isOrgAdmin.
    destruct (Auth.memberRole auth) as [[| |]|]; cbn; intros Hin;
      repeat (destruct Hin as [Hin|Hin]; [discriminate Hin|]);
      destruct Hin.
  - unfold Sidebar.navItems, Auth.isOrgAdmin.
    destruct (Auth.memberRole auth) as [[| |]|]; cbn;
      repeat (constructor;
              [cbn; intros Hin;
               repeat (destruct Hin as [Hin|Hin]; [discriminate Hin|]);
               destruct Hin|]);
      constructor.
Qed.

(* ------------------------------------------------------------------ *)
(** ** What a branch member is shown *)

Lemma known_truthy (x : option string) (b : string) :
  Js.known x = Some b -> Js.truthy x = true.
Proof. unfold Js.truthy. intros ->. reflexivity. Qed.

Lemma In_listing {row : Type} `{Table row}
    (organization_of : row -> string) (branch_of : row -> option string)
    (table : list row) (org : string) (r : ScopeFilter.rule) (x : row) :
  In x (ScopeFilter.listing organization_of branch_of table org r)
  <-> In x table /\ organization_of x = org
      /\ ScopeFilter.row_filter r (branch_of x) = true.
Proof.
  unfold ScopeFilter.listing. rewrite In_order_desc, filter_In.
  rewrite andb_true_iff, String.eqb_eq. tauto.
Qed.


(** X26.  The project table of a member who is not an org admin, with
    the branch control on "all": the projects of their organization
    that belong to their own branch, and of those the ones in the chosen
    status when a status is chosen.  Projects that belong to no branch
    are not among them.  A branch admin without a branch sees none. *)
Theorem member_project_listing
    (auth : Auth.t) (controls : ProjectManager.Controls) (db : Db.t)
    (projects : list Project.t) (tableError : option string)
    (org : Organization) :
  Auth.organization auth = Some org ->
  Auth.isOrgAdmin auth = false ->
  ProjectManager.branchFilter controls = "all" ->
  let shown :=
    fst (ProjectManager.loadProjects auth controls None db projects
           tableError) in
  (ProjectManager.branchLocked auth = true -> shown = [])
  /\ (forall b,
        Js.known (Auth.branchOfficeId auth) = Some b ->
        forall p,
          In p shown
          <-> exists row,
                In row (Db.projects db)
                /\ p = projectService.rowToProject row
                /\ ProjectRow.organization_id row = org_id org
                /\ ProjectRow.branch_office_id row = Some b
                /\ (forall chosen,
                      ProjectManager.statusFilter controls = Some chosen ->
                      ProjectRow.status row = chosen)).
Proof.
  intros Horg Hadmin Hall. cbv zeta. unfold ProjectManager.loadProjects.
  rewrite Horg, Hadmin, Hall. cbn [String.eqb].
  split.
  - intros ->. reflexivity.
  - intros b Hb p.
    assert (ProjectManager.branchLocked auth = false) as ->.
    { unfold ProjectManager.branchLocked.
      rewrite (known_truthy _ _ Hb).
      destruct (Auth.memberRole auth) as [[| |]|]; reflexivity. }
    cbn [fst]. unfold projectService.fetchProjects.
    rewrite in_map_iff.
    assert (Hrow : forall row,
              In row (run (projectService.projectsQuery (Db.projects db)
                             (Build_ScopeParams (org_id org)
                                (Auth.branchOfficeId auth) (Some scope_branch))
                             match ProjectManager.statusFilter controls with
                             | Some chosen => Some [chosen]
                             | None => None
                             end))
              <-> In row (Db.projects db)
                  /\ ProjectRow.organization_id row = org_id org
                  /\ ProjectRow.branch_office_id row = Some b
                  /\ (forall chosen,
                        ProjectManager.statusFilter controls = Some chosen ->
                        ProjectRow.status row = chosen)).
    { intros row. rewrite In_run.
      unfold projectService.projectsQuery. cbn [scope branchOfficeId organizationId].
      rewrite Hb.
      destruct (ProjectManager.statusFilter controls) as [chosen|];
        cbn [q_from q_filters order_created_at_desc where_ from app];
        unfold passes; cbn [forallb];
        rewrite project_org_accepts;
        cbn [accepts column projects_table map existsb];
        unfold ProjectRow.col; cbn [String.eqb Ascii.eqb Bool.eqb];
        rewrite ?andb_true_r, ?orb_false_r, ?andb_true_iff, ?String.eqb_eq.
      - split.
        + intros [Hin [Ho [Hbr Hst]]]. split; [exact Hin|].
          split; [exact Ho|]. split.
          * destruct (ProjectRow.branch_office_id row) as [x|];
              cbn [cell_of] in Hbr; [|discriminate Hbr].
            apply String.eqb_eq in Hbr. rewrite Hbr. reflexivity.
          * intros c Ec. injection Ec as <-.
            apply ProjectStatus_text_inj. exact Hst.
        + intros [Hin [Ho [Hbr Hst]]]. split; [exact Hin|].
          split; [exact Ho|]. split.
          * rewrite Hbr. cbn [cell_of]. apply String.eqb_refl.
          * rewrite (Hst chosen eq_refl). reflexivity.
      - split.
        + intros [Hin [Ho Hbr]]. split; [exact Hin|].
          split; [exact Ho|]. split.
          * destruct (ProjectRow.branch_office_id row) as [x|];
              cbn [cell_of] in Hbr; [|discriminate Hbr].
            apply String.eqb_eq in Hbr. rewrite Hbr. reflexivity.
          * intros c Ec. discriminate Ec.
        + intros [Hin [Ho [Hbr _]]]. split; [exact Hin|].
          split; [exact Ho|].
          rewrite Hbr. cbn [cell_of]. apply String.eqb_refl. }
    split.
    + intros [row [Hp Hin]]. apply Hrow in Hin.
      destruct Hin as [Hin [Ho [Hbr Hst]]]. exists row.
      split; [exact Hin|]. split; [symmetry; exact Hp|].
      split; [exact Ho|]. split; [exact Hbr | exact Hst].
    + intros [row [Hin [Hp [Ho [Hbr Hst]]]]]. exists row.
      split; [symmetry; exact Hp|]. apply Hrow.
      split; [exact Hin|]. split; [exact Ho|]. split; [exact Hbr | exact Hst].
Qed.


Lemma member_project_listing_witness :
  map Project.id
    (fst (ProjectManager.loadProjects Writers.branch_admin_B1
            Staffed.project_controls None Staffed.records [] None))
  = ["p-b1"]
  /\ forall p,
       In p (fst (ProjectManager.loadProjects Writers.branch_admin_B1
                    Staffed.project_controls None Staffed.records [] None)) ->
       Project.branch_office_id p = Some "B1".
Proof.
  split; [reflexivity|].
  destruct (member_project_listing Writers.branch_admin_B1
              Staffed.project_controls Staffed.records [] None Acme.org
              eq_refl eq_refl eq_refl) as [_ Hshown].
  intros p Hp. apply (Hshown "B1" eq_refl) in Hp.
  destruct Hp as [row [_ [-> [_ [Hbranch _]]]]]. exact Hbranch.
Defined.

(** X27.  The dashboard's agreement list.  A member who is not an org
    admin and has a branch is shown the agreements of their organization
    that belong to that branch, and none that belong to no branch; an
    org admin, and a member with no branch, are shown every agreement of
    the organization.  When the request fails the list is kept and the
    error is shown. *)
Theorem dashboard_agreement_listing
    (auth : Auth.t) (db : Db.t) (s : App.t) (org : Organization) :
  Auth.organization auth = Some org ->
  (org_id org =? "") = false ->
  let shown := App.agreements (App.refreshAgreements auth false db s) in
  (Auth.isOrgAdmin auth = false ->
   forall b,
     Js.known (Auth.branchOfficeId auth) = Some b ->
     forall a,
       In a shown
       <-> exists row,
             In row (Db.agreements db)
             /\ a = agreementService.rowToAgreement row
             /\ AgreementRow.organization_id row = org_id org
             /\ AgreementRow.branch_office_id row = Some b)
  /\ (Auth.isOrgAdmin auth = true \/ Js.known (Auth.branchOfficeId auth) = None ->
      forall a,
        In a shown
        <-> exists row,
              In row (Db.agreements db)
              /\ a = agreementService.rowToAgreement row
              /\ AgreementRow.organization_id row = org_id org)
  /\ App.agreements (App.refreshAgreements auth true db s) = App.agreements s
  /\ App.agreementsError (App.refreshAgreements auth true db s)
     = Some "Unable to load agreements right now.".
Proof.
  intros Horg Hid. cbv zeta. unfold App.refreshAgreements.
  rewrite Horg, Hid. cbn [App.listing App.agreements App.agreementsError].
  split; [|split; [|split; reflexivity]].
  - intros Hadmin b Hb a.
    rewrite Hadmin, (known_truthy _ _ Hb). cbn [negb andb].
    rewrite (agreements_by_branch (Db.agreements db) (org_id org)
               (Auth.branchOfficeId auth) Hid), Hb.
    rewrite in_map_iff. split.
    + intros [row [Ha Hrow]]. apply In_listing in Hrow.
      destruct Hrow as [Hin [Ho Hf]]. exists row.
      split; [exact Hin|]. split; [symmetry; exact Ha|]. split; [exact Ho|].
      destruct (AgreementRow.branch_office_id row) as [x|];
        cbn [ScopeFilter.row_filter] in Hf; [|discriminate Hf].
      apply String.eqb_eq in Hf. rewrite Hf. reflexivity.
    + intros [row [Hin [Ha [Ho Hbr]]]]. exists row.
      split; [symmetry; exact Ha|]. apply In_listing.
      split; [exact Hin|]. split; [exact Ho|].
      rewrite Hbr. cbn [ScopeFilter.row_filter]. apply String.eqb_refl.
  - intros Hwide a.
    assert (Hall : forall options,
              agreementService.option_branch options = None
              \/ Js.known (agreementService.option_branch options) = None ->
              agreementService.option_project options = None ->
              In a (agreementService.fetchAgreementsForOrganization
                      (Db.agreements db) (org_id org) options)
              <-> exists row,
                    In row (Db.agreements db)
                    /\ a = agreementService.rowToAgreement row
                    /\ AgreementRow.organization_id row = org_id org).
    { intros options Hbranch Hproject.
      unfold agreementService.fetchAgreementsForOrganization. rewrite Hid.
      rewrite in_map_iff.
      assert (Hrow : forall row,
                In row (run (agreementService.agreementsQuery
                               (Db.agreements db) (org_id org) options))
                <-> In row (Db.agreements db)
                    /\ AgreementRow.organization_id row = org_id org).
      { intros row. rewrite In_run.
        unfold agreementService.agreementsQuery. rewrite Hproject.
        assert (Js.known (agreementService.option_branch options) = None)
          as -> by (destruct Hbranch as [-> | ->]; reflexivity).
        cbn [Js.known q_from q_filters order_created_at_desc where_ from app].
        unfold passes. cbn [forallb]. rewrite agreement_org_accepts.
        rewrite andb_true_r, String.eqb_eq. tauto. }
      split.
      - intros [row [Ha Hin]]. apply Hrow in Hin. destruct Hin as [Hin Ho].
        exists row. split; [exact Hin|]. split; [symmetry; exact Ha | exact Ho].
      - intros [row [Hin [Ha Ho]]]. exists row.
        split; [symmetry; exact Ha|]. apply Hrow. split; assumption. }
    destruct Hwide as [Hadmin | Hnone].
    + rewrite Hadmin. cbn [negb andb]. apply Hall; [left|]; reflexivity.
    + assert (Js.truthy (Auth.branchOfficeId auth) = false) as ->
        by (unfold Js.truthy; rewrite Hnone; reflexivity).
      rewrite andb_false_r. apply Hall; [left|]; reflexivity.
Qed.

Lemma dashboard_agreement_listing_witness :
  map Agreement.id
    (App.agreements
       (App.refreshAgreements Writers.branch_admin_B1 false Staffed.records
          Staffed.shell))
  = ["a-b1"]
  /\ map Agreement.id
       (App.agreements
          (App.refreshAgreements Writers.admin false Staffed.records
             Staffed.shell))
     = ["a-org"; "a-b1"]
  /\ App.agreementsError
       (App.refreshAgreements Writers.admin true Staffed.records Staffed.shell)
     = Some "Unable to load agreements right now.".
Proof.
  split; [reflexivity|]. split; [reflexivity|].
  destruct (dashboard_agreement_listing Writers.admin Staffed.records
              Staffed.shell Acme.org eq_refl eq_refl) as [_ [_ [_ Herror]]].
  exact Herror.
Defined.

(* ------------------------------------------------------------------ *)
(** ** Saving from the application shell *)







(* ------------------------------------------------------------------ *)
(** ** The membership upsert *)

Lemma upsertMember_length (members : list OrganizationMember.t)
    (payload : organizationService.MembershipPayload)
    (new_id : string) (now : nat) :
  length (fst (organizationService.upsertMember members payload new_id now))
  = if existsb (organizationService.same_member_key payload) members
    then length members else S (length members).
Proof.
  induction members as [|old rest IH]; simpl.
  - reflexivity.
  - destruct (organizationService.same_member_key payload old); simpl.
    + reflexivity.
    + destruct (organizationService.upsertMember rest payload new_id now)
        as [rest' row].
      cbn [fst length] in *. rewrite IH.
      destruct (existsb (organizationService.same_member_key payload) rest);
        reflexivity.
Qed.

Lemma upsertMember_kept (members : list OrganizationMember.t)
    (payload : organizationService.MembershipPayload)
    (new_id : string) (now : nat) :
  let row := snd (organizationService.upsertMember members payload new_id now) in
  match List.find (organizationService.same_member_key payload) members with
  | Some old =>
      OrganizationMember.id row = OrganizationMember.id old
      /\ OrganizationMember.created_at row = OrganizationMember.created_at old
  | None =>
      OrganizationMember.id row = new_id
      /\ OrganizationMember.created_at row = now
  end.
Proof.
  cbv zeta. induction members as [|old rest IH]; simpl.
  - split; reflexivity.
  - destruct (organizationService.same_member_key payload old); simpl.
    + split; reflexivity.
    + destruct (organizationService.upsertMember rest payload new_id now)
        as [rest' row].
      exact IH.
Qed.

Lemma upsertMember_again (members : list OrganizationMember.t)
    (payload : organizationService.MembershipPayload)
    (new_id new_id' : string) (now now' : nat) :
  organizationService.upsertMember
    (fst (organizationService.upsertMember members payload new_id now))
    payload new_id' now'
  = organizationService.upsertMember members payload new_id now.
Proof.
  induction members as [|old rest IH]; simpl.
  - unfold organizationService.same_member_key.
    cbn [OrganizationMember.user_id OrganizationMember.organization_id].
    rewrite !String.eqb_refl. reflexivity.
  - destruct (organizationService.same_member_key payload old) eqn:Hold.
    + cbn [fst organizationService.upsertMember].
      unfold organizationService.same_member_key at 1.
      cbn [OrganizationMember.user_id OrganizationMember.organization_id].
      rewrite !String.eqb_refl. reflexivity.
    + destruct (organizationService.upsertMember rest payload new_id now)
        as [rest' row] eqn:Hrest.
      cbn [fst] in *. cbn [organizationService.upsertMember].
      rewrite Hold, IH. reflexivity.
Qed.

(** X29.  The membership upsert is keyed by user and organization.  It
    adds one row when the user has no membership of the organization and
    none otherwise; the row it returns is stored and carries the role,
    branch and department given, under the id and creation time of the
    row it replaces when there is one; memberships of other users or
    organizations are left as they were, and so is every other table;
    repeating the call, under any fresh id and at any time, changes
    nothing. *)
Theorem membership_upsert_is_keyed
    (db : Db.t) (payload : organizationService.MembershipPayload)
    (new_id : string) (now : nat) :
  let result := organizationService.ensureMembership db payload new_id now in
  let members := Db.organization_members db in
  let members' := Db.organization_members (fst result) in
  length members'
  = (if existsb (organizationService.same_member_key payload) members
     then length members else S (length members))
  /\ In (snd result) members'
  /\ OrganizationMember.role (snd result) = organizationService.mp_role payload
  /\ OrganizationMember.branch_office_id (snd result)
     = organizationService.mp_branchOfficeId payload
  /\ OrganizationMember.department (snd result)
     = organizationService.mp_department payload
  /\ match List.find (organizationService.same_member_key payload) members with
     | Some old =>
         OrganizationMember.id (snd result) = OrganizationMember.id old
         /\ OrganizationMember.created_at (snd result)
            = OrganizationMember.created_at old
     | None =>
         OrganizationMember.id (snd result) = new_id
         /\ OrganizationMember.created_at (snd result) = now
     end
  /\ List.filter
       (fun r => negb (organizationService.same_member_key payload r)) members'
     = List.filter
         (fun r => negb (organizationService.same_member_key payload r)) members
  /\ (forall new_id' now',
        organizationService.ensureMembership (fst result) payload new_id' now'
        = result)
  /\ Db.organizations (fst result) = Db.organizations db
  /\ Db.branch_invites (fst result) = Db.branch_invites db
  /\ Db.vendors (fst result) = Db.vendors db
  /\ Db.projects (fst result) = Db.projects db
  /\ Db.agreements (fst result) = Db.agreements db.
Proof.
  cbv zeta. unfold organizationService.ensureMembership.
  pose proof (upsertMember_length (Db.organization_members db) payload new_id
                now) as Hlen.
  pose proof (upsertMember_row (Db.organization_members db) payload new_id
                now) as Hrow.
  pose proof (upsertMember_kept (Db.organization_members db) payload new_id
                now) as Hkept.
  pose proof (upsertMember_others (Db.organization_members db) payload new_id
                now) as Hothers.
  pose proof (fun new_id' now' =>
                upsertMember_again (Db.organization_members db) payload
                  new_id new_id' now now') as Hagain.
  cbv zeta in Hrow, Hkept.
  destruct (organizationService.upsertMember (Db.organization_members db)
              payload new_id now) as [members' row].
  cbn [fst snd Db.with_members Db.organization_members Db.organizations
       Db.branch_invites Db.vendors Db.projects Db.agreements] in *.
  destruct Hrow as [Hin [_ [_ [Hr [Hb Hd]]]]].
  split; [exact Hlen|]. split; [exact Hin|]. split; [exact Hr|].
  split; [exact Hb|]. split; [exact Hd|]. split; [exact Hkept|].
  split; [exact Hothers|].
  split; [|repeat split].
  intros new_id' now'. rewrite Hagain. reflexivity.
Qed.

(* ------------------------------------------------------------------ *)
(** ** Inviting a branch admin *)

